(** * agent-router: normalisation layer, streaming readers and router

    A shallow embedding of the Go packages [types], [errors], [schema],
    [openai], [anthropic], [google] and [router], with the properties of the
    specification stated over it.

    Conventions of the embedding
    - a Go [string] is a [string] (a sequence of bytes); the string-typed
      enumerations ([Provider], [Role], [Feature], [StopReason], ...) stay
      strings, so that the [default] branch of every [switch] is reachable;
    - a Go [int] is a [Z]; where the source adds or truncates, the
      wrap-around is written out ([wrap_int], [rune_of_int]);
    - a value of type [any] that came out of [encoding/json] is a [json];
      [nil] and JSON [null] are both [JNull]; finite [float64] values are
      rationals; a value of type [any] that the caller built and that
      [json.Marshal] is about to see is a [value];
    - a pointer that may be [nil] is an [option]; a [map\[K\]V] is a [gmap];
    - a method that mutates its receiver returns the new receiver;
    - [time.Now()] is not modelled: [CreatedAt] is left out of the records. *)

From Stdlib Require Import ZArith QArith Ascii String List Lia.
From Stdlib Require Import Decimal DecimalString DecimalPos DecimalZ.
From stdpp Require Import base option list strings gmap sorting.

#[local] Set Warnings "-register-all".
#[local] Open Scope string_scope.
#[local] Open Scope Z_scope.

(** ** Go built-ins and the [strings] package *)

Module Go.

Definition wrap (w : Z) (x : Z) : Z :=
  (x + 2 ^ (w - 1)) mod 2 ^ w - 2 ^ (w - 1).

(** [int] is 64 bits wide on the platforms the library targets. *)
Definition wrap_int (x : Z) : Z := wrap 64 x.

Definition is_int (x : Z) : Prop := - 2 ^ 63 <= x < 2 ^ 63.

(** [len] of a slice or a string. *)
Definition len {A} (l : list A) : Z := Z.of_nat (length l).

(** [strings.HasPrefix]. *)
Definition HasPrefix (s pre : string) : bool := String.prefix pre s.

(** [strings.TrimPrefix]. *)
Definition TrimPrefix (s pre : string) : string :=
  if HasPrefix s pre
  then String.substring (String.length pre) (String.length s - String.length pre) s
  else s.

(** [strings.Contains]. *)
Fixpoint Contains (s substr : string) : bool :=
  String.prefix substr s
  || match s with
     | EmptyString => false
     | String _ s' => Contains s' substr
     end.

(** White space as [unicode.IsSpace] sees it below U+0080; the code points
    U+0085, U+00A0 and the other Unicode spaces are not part of this model. *)
Definition is_space (c : ascii) : bool :=
  let n := N_of_ascii c in
  ((9 <=? n) && (n <=? 13))%N || (n =? 32)%N.

Fixpoint trim_left (s : string) : string :=
  match s with
  | String c s' => if is_space c then trim_left s' else s
  | EmptyString => EmptyString
  end.

Fixpoint trim_right (s : string) : string :=
  match s with
  | String c s' =>
      match trim_right s' with
      | EmptyString => if is_space c then EmptyString else String c EmptyString
      | t => String c t
      end
  | EmptyString => EmptyString
  end.

(** [strings.TrimSpace]. *)
Definition TrimSpace (s : string) : string := trim_right (trim_left s).

(** [bufio.Reader.ReadString('\n')] over the bytes still unread: the line up
    to and including the first newline, or everything that is left when there
    is none (the caller then sees the error of the underlying reader). *)
Fixpoint read_line (s : string) : option (string * string) :=
  match s with
  | EmptyString => None
  | String c s' =>
      if Ascii.eqb c "010"%char then Some (String c EmptyString, s')
      else match read_line s' with
           | Some (l, r) => Some (String c l, r)
           | None => None
           end
  end.

(** All complete lines of a body and the unterminated rest. *)
Fixpoint split_lines_aux (cur : string -> string) (s : string) : list string * string :=
  match s with
  | EmptyString => ([], cur EmptyString)
  | String c s' =>
      if Ascii.eqb c "010"%char
      then let (ls, r) := split_lines_aux (fun x => x) s' in
           (cur (String c EmptyString) :: ls, r)
      else split_lines_aux (fun x => cur (String c x)) s'
  end.

Definition split_lines (s : string) : list string * string :=
  split_lines_aux (fun x => x) s.

(** ** Values of type [any] produced by [encoding/json] *)

Inductive json : Type :=
| JNull
| JBool (b : bool)
| JNum (q : Q)
| JStr (s : string)
| JArr (l : list json)
| JObj (m : gmap string json).

(** The type assertions [v.(string)], [v.(map\[string\]any)], [v.(\[\]any)]. *)
Definition as_string (v : option json) : option string :=
  match v with Some (JStr s) => Some s | _ => None end.

Definition as_map (v : option json) : option (gmap string json) :=
  match v with Some (JObj m) => Some m | _ => None end.

Definition as_slice (v : option json) : option (list json) :=
  match v with Some (JArr l) => Some l | _ => None end.

(** [json.Unmarshal(data, &v)] for a target type [A]: [None] when the call
    returns an error.  The decoder is a parameter of the development; the
    universally quantified results hold for every decoder. *)
Class Unmarshal (A : Type) := unmarshal : string -> option A.
#[global] Hint Mode Unmarshal ! : typeclass_instances.

(** [var v any; json.Unmarshal(data, &v)] with the error dropped: [v] keeps
    its zero value [nil] when the text is not JSON. *)
Definition unmarshal_any `{!Unmarshal json} (data : string) : json :=
  match unmarshal data with Some v => v | None => JNull end.

(** [json.Marshal(v)] for a value of type [A]: [None] when the call returns
    an error.  The encoder is a parameter, as the decoder is. *)
Class Marshal (A : Type) := marshal : A -> option string.
#[global] Hint Mode Marshal ! : typeclass_instances.

(** The errors a reader can hand back. *)
Inductive error : Type :=
| EOF
| ErrIO (msg : string).

(** A size for inductions that reach below the direct children of a value. *)
Fixpoint jsize (v : json) : nat :=
  match v with
  | JObj m => S (map_fold (fun _ x acc => jsize x + acc)%nat O m)
  | JArr l => S (foldr (fun x acc => jsize x + acc)%nat O l)
  | _ => 1%nat
  end.

(** [for k, v := range m] over a map keyed by [int]: Go leaves the order of
    the iteration open, so it is a parameter, known only to visit every entry
    once. *)
Class MapRange := {
  range : forall {A}, gmap Z A -> list (Z * A);
  range_perm : forall A (m : gmap Z A), range m ≡ₚ map_to_list m }.

(** The conversion [rune(x)] of an [int]: the low 32 bits, signed. *)
Definition rune_of_int (x : Z) : Z := wrap 32 x.

Definition byte (b : Z) : ascii := ascii_of_N (Z.to_N b).

Definition bytes (l : list Z) : string :=
  foldr (fun b s => String (byte b) s) EmptyString l.

(** A Unicode scalar value: a code point up to [unicode.MaxRune] that is not
    a surrogate. *)
Definition valid_rune (r : Z) : bool :=
  (0 <=? r) && (r <=? 1114111) && negb ((55296 <=? r) && (r <=? 57343)).

(** [utf8.AppendRune] for a scalar value. *)
Definition utf8_encode (r : Z) : string :=
  if r <? 128 then bytes [r]
  else if r <? 2048 then bytes [192 + r / 64; 128 + r mod 64]
  else if r <? 65536 then
    bytes [224 + r / 4096; 128 + (r / 64) mod 64; 128 + r mod 64]
  else
    bytes [240 + r / 262144; 128 + (r / 4096) mod 64;
           128 + (r / 64) mod 64; 128 + r mod 64].

(** [utf8.RuneError], U+FFFD. *)
Definition RuneError : Z := 65533.

(** The conversion [string(r)] of a rune: its UTF-8 encoding, and that of
    U+FFFD for a value that is no scalar value. *)
Definition string_of_rune (r : Z) : string :=
  if valid_rune r then utf8_encode r else utf8_encode RuneError.

Definition code (c : ascii) : Z := Z.of_N (N_of_ascii c).

Definition is_cont (c : ascii) : bool := (128 <=? code c) && (code c <? 192).

(** The code points of a well-formed UTF-8 string (shortest encodings of
    scalar values only). *)
Fixpoint utf8_decode (s : string) : option (list Z) :=
  match s with
  | EmptyString => Some []
  | String c1 s1 =>
      if code c1 <? 128 then cons (code c1) <$> utf8_decode s1
      else if code c1 <? 192 then None
      else match s1 with
      | String c2 s2 =>
          if negb (is_cont c2) then None
          else if code c1 <? 224 then
            let r := (code c1 - 192) * 64 + (code c2 - 128) in
            if 128 <=? r then cons r <$> utf8_decode s2 else None
          else match s2 with
          | String c3 s3 =>
              if negb (is_cont c3) then None
              else if code c1 <? 240 then
                let r := (code c1 - 224) * 4096 + (code c2 - 128) * 64 + (code c3 - 128) in
                if (2048 <=? r) && valid_rune r then cons r <$> utf8_decode s3 else None
              else match s3 with
              | String c4 s4 =>
                  if negb (is_cont c4) then None
                  else
                    let r := (code c1 - 240) * 262144 + (code c2 - 128) * 4096
                             + (code c3 - 128) * 64 + (code c4 - 128) in
                    if (65536 <=? r) && valid_rune r then cons r <$> utf8_decode s4 else None
              | EmptyString => None
              end
          | EmptyString => None
          end
      | EmptyString => None
      end
  end.

(** The newline ["\n"]. *)
Definition LF : string := String "010"%char EmptyString.

(** [strconv.Itoa]. *)
Definition Itoa (x : Z) : string := NilZero.string_of_int (Z.to_int x).

(** Text written with apostrophes where the wire has double quotes. *)
Fixpoint dq (s : string) : string :=
  match s with
  | EmptyString => EmptyString
  | String c s' => String (if Ascii.eqb c "'"%char then byte 34 else c) (dq s')
  end.

(** [strings.Cut(s, sep)] for a separator of one byte: the text before its
    first occurrence, the text after it, and whether it occurs; the whole
    text and the empty text when it does not. *)
Fixpoint Cut (s : string) (sep : ascii) : string * string * bool :=
  match s with
  | EmptyString => (EmptyString, EmptyString, false)
  | String c s' =>
      if Ascii.eqb c sep then (EmptyString, s', true)
      else let '(before, after, found) := Cut s' sep in (String c before, after, found)
  end.

(** ** Values handed to [json.Marshal] *)

(** A [float64]: a rational for a finite value, or one of the values that
    [json.Marshal] refuses. *)
Inductive float64 : Type :=
| Finite (q : Q)
| NaN
| Inf (negative : bool).

(** The [float64] nearest to an integer (ties go to the even mantissa):
    what [json.Unmarshal] stores in an [any] for the decimal text of an
    [int]. *)
Definition float64_of_int (z : Z) : Z :=
  let a := Z.abs z in
  if a <? 2 ^ 53 then z
  else
    let e := Z.log2 a - 52 in
    let q := a / 2 ^ e in
    let rest := a mod 2 ^ e in
    let half := 2 ^ (e - 1) in
    let q' := if rest <? half then q
              else if half <? rest then q + 1
              else if Z.even q then q else q + 1 in
    Z.sgn z * (q' * 2 ^ e).

(** [utf8.ValidString]. *)
Definition ValidString (s : string) : bool :=
  match utf8_decode s with
  | Some _ => true
  | None => false
  end.

(** A string after [json.Marshal] and [json.Unmarshal]: the encoder writes
    U+FFFD for every byte that does not start a well-formed UTF-8 sequence
    and keeps the rest (its escapes are undone by the decoder). *)
Fixpoint coerce_utf8 (s : string) : string :=
  match s with
  | EmptyString => EmptyString
  | String c1 s1 =>
      let bad := utf8_encode RuneError ++ coerce_utf8 s1 in
      if code c1 <? 128 then String c1 (coerce_utf8 s1)
      else if code c1 <? 192 then bad
      else match s1 with
      | String c2 s2 =>
          if negb (is_cont c2) then bad
          else if code c1 <? 224 then
            if 128 <=? (code c1 - 192) * 64 + (code c2 - 128)
            then String c1 (String c2 (coerce_utf8 s2))
            else bad
          else match s2 with
          | String c3 s3 =>
              if negb (is_cont c3) then bad
              else if code c1 <? 240 then
                let r := (code c1 - 224) * 4096 + (code c2 - 128) * 64 + (code c3 - 128) in
                if (2048 <=? r) && valid_rune r
                then String c1 (String c2 (String c3 (coerce_utf8 s3)))
                else bad
              else match s3 with
              | String c4 s4 =>
                  if negb (is_cont c4) then bad
                  else
                    let r := (code c1 - 240) * 262144 + (code c2 - 128) * 4096
                             + (code c3 - 128) * 64 + (code c4 - 128) in
                    if (65536 <=? r) && valid_rune r
                    then String c1 (String c2 (String c3 (String c4 (coerce_utf8 s4))))
                    else bad
              | EmptyString => bad
              end
          | EmptyString => bad
          end
      | EmptyString => bad
      end
  end.

(** The order in which [json.Marshal] writes the members of a map: by the
    bytes of their keys. *)
Definition key_le {A} (x y : string * A) : Prop := String.leb x.1 y.1 = true.

#[global] Instance key_le_dec {A} (x y : string * A) : Decision (key_le x y).
Proof. unfold key_le. apply _. Defined.

(** A map with string keys after [json.Marshal] and [json.Unmarshal]: the
    keys are written coerced, in the order of their bytes, and of two members
    that end up under one key the decoder keeps the one written last. *)
Definition marshal_keys {A} (m : gmap string A) : gmap string A :=
  foldl (fun acc kv => <[coerce_utf8 kv.1 := kv.2]> acc) ∅
    (merge_sort key_le (map_to_list m)).

(** All members of a map, unless the encoding of one of them failed. *)
Definition map_sequence {A} (m : gmap string (option A)) : option (gmap string A) :=
  if bool_decide (map_Forall (fun _ x => is_Some x) m) then Some (omap id m) else None.

(** A Go value of type [any] as [json.Marshal] sees it: the [nil]
    interface; a [nil] pointer, map or slice; a boolean; an integer; a
    [float64]; a string; a slice; a map with string keys; or a value that
    [json.Marshal] refuses (a channel, a function, a complex number, a value
    that reaches itself through a pointer, a map or a slice).  A struct or a
    pointer is taken as the map or the value it is encoded as. *)
Inductive value : Type :=
| VNil
| VNull
| VBool (b : bool)
| VInt (z : Z)
| VFloat (f : float64)
| VString (s : string)
| VSlice (l : list value)
| VMap (m : gmap string value)
| VUnsupported.

(** [json.Marshal] of a value followed by [json.Unmarshal] into an [any],
    the limit on the depth of the text aside: [None] when [json.Marshal]
    returns an error. *)
Fixpoint remarshal (v : value) : option json :=
  match v with
  | VNil | VNull => Some JNull
  | VBool b => Some (JBool b)
  | VInt z => Some (JNum (inject_Z (float64_of_int z)))
  | VFloat (Finite q) => Some (JNum q)
  | VFloat _ => None
  | VString s => Some (JStr (coerce_utf8 s))
  | VSlice l => JArr <$> mapM remarshal l
  | VMap m => (fun m' => JObj (marshal_keys m')) <$> map_sequence (remarshal <$> m)
  | VUnsupported => None
  end.

(** The greatest of the depths of the members of a map. *)
Definition max_depth (m : gmap string nat) : nat :=
  map_fold (fun _ d acc => Nat.max d acc) O m.

(** How deep arrays and objects nest in the text that [json.Marshal] writes
    for a value. *)
Fixpoint value_depth (v : value) : nat :=
  match v with
  | VSlice l => S (foldr (fun x acc => Nat.max (value_depth x) acc) O l)
  | VMap m => S (max_depth (value_depth <$> m))
  | _ => O
  end.

(** The deepest nesting that [json.Unmarshal] reads; a text that nests
    deeper is refused ("exceeded max depth"). *)
Definition maxNestingDepth : Z := 10000.

End Go.

Export Go.

(** ** Package [types] *)

Module types.

Definition Provider := string.
Definition ProviderOpenAI : Provider := "openai".
Definition ProviderAnthropic : Provider := "anthropic".
Definition ProviderGoogle : Provider := "google".

Definition Role := string.
Definition RoleSystem : Role := "system".
Definition RoleUser : Role := "user".
Definition RoleAssistant : Role := "assistant".
Definition RoleTool : Role := "tool".

Definition ContentType := string.
Definition ContentTypeText : ContentType := "text".
Definition ContentTypeImage : ContentType := "image".
Definition ContentTypeToolUse : ContentType := "tool_use".
Definition ContentTypeToolResult : ContentType := "tool_result".

Record ContentBlock : Type := {
  cb_Type : ContentType;
  cb_Text : string;
  cb_ImageURL : string;
  cb_ImageBase64 : string;
  cb_MediaType : string;
  cb_ToolUseID : string;
  cb_ToolName : string;
  cb_ToolInput : json;
  cb_ToolResultID : string;
  cb_IsError : bool }.

(** The zero value [types.ContentBlock{}]. *)
Definition ContentBlock_zero : ContentBlock :=
  {| cb_Type := ""; cb_Text := ""; cb_ImageURL := ""; cb_ImageBase64 := "";
     cb_MediaType := ""; cb_ToolUseID := ""; cb_ToolName := "";
     cb_ToolInput := JNull; cb_ToolResultID := ""; cb_IsError := false |}.

(** [types.ContentBlock{Type: types.ContentTypeText, Text: text}]. *)
Definition TextBlock (text : string) : ContentBlock :=
  {| cb_Type := ContentTypeText; cb_Text := text; cb_ImageURL := "";
     cb_ImageBase64 := ""; cb_MediaType := ""; cb_ToolUseID := "";
     cb_ToolName := ""; cb_ToolInput := JNull; cb_ToolResultID := "";
     cb_IsError := false |}.

(** [types.ContentBlock{Type: types.ContentTypeToolUse, ToolUseID: id,
    ToolName: name, ToolInput: input}]. *)
Definition ToolUseBlock (id name : string) (input : json) : ContentBlock :=
  {| cb_Type := ContentTypeToolUse; cb_Text := ""; cb_ImageURL := "";
     cb_ImageBase64 := ""; cb_MediaType := ""; cb_ToolUseID := id;
     cb_ToolName := name; cb_ToolInput := input; cb_ToolResultID := "";
     cb_IsError := false |}.

(** [block.Text += text]. *)
Definition append_Text (b : ContentBlock) (text : string) : ContentBlock :=
  {| cb_Type := cb_Type b; cb_Text := cb_Text b ++ text;
     cb_ImageURL := cb_ImageURL b; cb_ImageBase64 := cb_ImageBase64 b;
     cb_MediaType := cb_MediaType b; cb_ToolUseID := cb_ToolUseID b;
     cb_ToolName := cb_ToolName b; cb_ToolInput := cb_ToolInput b;
     cb_ToolResultID := cb_ToolResultID b; cb_IsError := cb_IsError b |}.

Record Message : Type := {
  msg_Role : Role;
  msg_Content : list ContentBlock }.

Definition NewTextMessage (role : Role) (text : string) : Message :=
  {| msg_Role := role; msg_Content := [TextBlock text] |}.

Record ToolCall : Type := {
  tc_ID : string;
  tc_Name : string;
  tc_Input : json }.

(** The unified schema.  [Properties] and [Defs] are Go maps, the
    compositions are slices, [Items] is a pointer.  A place for a sub-schema
    holds the sub-schema ([inr]), or, where the pointer, map or slice that
    leads to it leads back to a schema above, the number of levels to go up
    ([inl]; 0 is the schema that holds the place): a Go value can reach
    itself in this way, and its unfolding is then infinite. *)
Inductive JSONSchema : Type := mkJSONSchema {
  js_Type : string;
  js_Description : string;
  js_Properties : gmap string (nat + JSONSchema);
  js_Items : option (nat + JSONSchema);
  js_Required : list string;
  js_Enum : list value;
  js_Const : value;
  js_AdditionalProperties : option bool;
  js_MinItems : option Z;
  js_MaxItems : option Z;
  js_Minimum : option float64;
  js_Maximum : option float64;
  js_MinLength : option Z;
  js_MaxLength : option Z;
  js_Pattern : string;
  js_Format : string;
  js_Default : value;
  js_AnyOf : list (nat + JSONSchema);
  js_OneOf : list (nat + JSONSchema);
  js_AllOf : list (nat + JSONSchema);
  js_Ref : string;
  js_Defs : gmap string (nat + JSONSchema) }.

(** The zero value [types.JSONSchema{}]. *)
Definition JSONSchema_zero : JSONSchema :=
  mkJSONSchema "" "" ∅ None [] [] VNil None None None None None None None
    "" "" VNil [] [] [] "" ∅.

(** [types.JSONSchema{Type: type}]. *)
Definition typed_schema (type : string) : JSONSchema :=
  mkJSONSchema type "" ∅ None [] [] VNil None None None None None None None
    "" "" VNil [] [] [] "" ∅.

(** [types.JSONSchema{Type: "object", Properties: properties, Required: required}]. *)
Definition object_schema (properties : gmap string JSONSchema) (required : list string)
    : JSONSchema :=
  mkJSONSchema "object" "" (inr <$> properties) None required [] VNil None None None
    None None None None "" "" VNil [] [] [] "" ∅.

(** [types.JSONSchema{Type: "array", Items: &items}]. *)
Definition array_schema (items : JSONSchema) : JSONSchema :=
  mkJSONSchema "array" "" ∅ (Some (inr items)) [] [] VNil None None None None None
    None None "" "" VNil [] [] [] "" ∅.

Record Tool : Type := {
  tool_Name : string;
  tool_Description : string;
  tool_Parameters : JSONSchema }.

Definition StopReason := string.
Definition StopReasonEnd : StopReason := "end".
Definition StopReasonMaxTokens : StopReason := "max_tokens".
Definition StopReasonToolUse : StopReason := "tool_use".
Definition StopReasonStopSequence : StopReason := "stop_sequence".
Definition StopReasonContentFilter : StopReason := "content_filter".

Record Usage : Type := {
  InputTokens : Z;
  OutputTokens : Z;
  TotalTokens : Z;
  CachedTokens : Z;
  ReasoningTokens : Z }.

Definition Usage_zero : Usage :=
  {| InputTokens := 0; OutputTokens := 0; TotalTokens := 0;
     CachedTokens := 0; ReasoningTokens := 0 |}.

Definition Feature := string.
Definition FeatureStreaming : Feature := "streaming".
Definition FeatureStructuredOutput : Feature := "structured_output".
Definition FeatureTools : Feature := "tools".
Definition FeatureVision : Feature := "vision".
Definition FeatureBatch : Feature := "batch".
Definition FeatureJSON : Feature := "json_mode".

Record ResponseFormat : Type := {
  rf_Type : string;
  rf_Schema : option JSONSchema;
  rf_Name : string;
  rf_Description : string;
  rf_Strict : option bool }.

Definition ToolChoiceType := string.
Definition ToolChoiceAuto : ToolChoiceType := "auto".
Definition ToolChoiceRequired : ToolChoiceType := "required".
Definition ToolChoiceNone : ToolChoiceType := "none".
Definition ToolChoiceTool : ToolChoiceType := "tool".

Record ToolChoice : Type := {
  tch_Type : ToolChoiceType;
  tch_Name : string;
  tch_DisableParallelToolUse : bool }.

Record CompletionRequest : Type := {
  req_Provider : Provider;
  req_Model : string;
  req_Messages : list Message;
  req_MaxTokens : option Z;
  req_Temperature : option Q;
  req_TopP : option Q;
  req_TopK : option Z;
  req_StopSequences : list string;
  req_ResponseFormat : option ResponseFormat;
  req_Tools : list Tool;
  req_ToolChoice : option ToolChoice;
  req_Stream : bool;
  req_Extra : gmap string json }.

Record CompletionResponse : Type := {
  resp_ID : string;
  resp_Provider : Provider;
  resp_Model : string;
  resp_Content : list ContentBlock;
  resp_StopReason : StopReason;
  resp_Usage : Usage;
  resp_ToolCalls : list ToolCall }.

(** [CompletionResponse.Text]. *)
Definition Text (r : CompletionResponse) : string :=
  foldl (fun text block =>
           if String.eqb (cb_Type block) ContentTypeText
           then text ++ cb_Text block
           else text)
    "" (resp_Content r).

Definition StreamEventType := string.
Definition StreamEventStart : StreamEventType := "start".
Definition StreamEventContentDelta : StreamEventType := "content_delta".
Definition StreamEventToolCallStart : StreamEventType := "tool_call_start".
Definition StreamEventToolCallDelta : StreamEventType := "tool_call_delta".
Definition StreamEventToolCallEnd : StreamEventType := "tool_call_end".
Definition StreamEventDone : StreamEventType := "done".
Definition StreamEventError : StreamEventType := "error".

End types.

Export types.

(** ** Package [errors] *)

Module errors.

Definition ErrCodeInvalidRequest := "invalid_request".
Definition ErrCodeAuthentication := "authentication_error".
Definition ErrCodeRateLimit := "rate_limit".
Definition ErrCodeServerError := "server_error".
Definition ErrCodeUnsupportedFeature := "unsupported_feature".
Definition ErrCodeProviderUnavailable := "provider_unavailable".
Definition ErrCodeTimeout := "timeout".
Definition ErrCodeContentFilter := "content_filter".
Definition ErrCodeInvalidAPIKey := "invalid_api_key".
Definition ErrCodeModelNotFound := "model_not_found".
Definition ErrCodeContextLength := "context_length_exceeded".

(** [Cause] holds the text of the wrapped error, if any. *)
Record RouterError : Type := {
  Code : string;
  Message : string;
  Provider : types.Provider;
  StatusCode : Z;
  Cause : option string;
  Details : gmap string json }.

Definition NewError (code message : string) : RouterError :=
  {| Code := code; Message := message; Provider := ""; StatusCode := 0;
     Cause := None; Details := ∅ |}.

Definition WithProvider (e : RouterError) (p : types.Provider) : RouterError :=
  {| Code := Code e; Message := Message e; Provider := p;
     StatusCode := StatusCode e; Cause := Cause e; Details := Details e |}.

Definition WithStatusCode (e : RouterError) (code : Z) : RouterError :=
  {| Code := Code e; Message := Message e; Provider := Provider e;
     StatusCode := code; Cause := Cause e; Details := Details e |}.

Definition WithCause (e : RouterError) (err : string) : RouterError :=
  {| Code := Code e; Message := Message e; Provider := Provider e;
     StatusCode := StatusCode e; Cause := Some err; Details := Details e |}.

Definition ErrInvalidRequest (message : string) : RouterError :=
  NewError ErrCodeInvalidRequest message.

Definition ErrRateLimit (provider : types.Provider) (message : string) : RouterError :=
  WithStatusCode (WithProvider (NewError ErrCodeRateLimit message) provider) 429.

Definition ErrServerError (provider : types.Provider) (message : string) : RouterError :=
  WithStatusCode (WithProvider (NewError ErrCodeServerError message) provider) 500.

Definition ErrUnsupportedFeature (provider : types.Provider) (feature : Feature) : RouterError :=
  WithProvider
    (NewError ErrCodeUnsupportedFeature
       ("provider " ++ provider ++ " does not support feature: " ++ feature))
    provider.

Definition ErrProviderUnavailable (provider : types.Provider) (message : string) : RouterError :=
  WithProvider (NewError ErrCodeProviderUnavailable message) provider.

Definition ErrInvalidAPIKey (provider : types.Provider) : RouterError :=
  WithStatusCode
    (WithProvider (NewError ErrCodeInvalidAPIKey "invalid or missing API key") provider)
    401.

Definition ErrModelNotFound (provider : types.Provider) (model : string) : RouterError :=
  WithStatusCode
    (WithProvider (NewError ErrCodeModelNotFound ("model not found: " ++ model)) provider)
    404.

Definition ErrContextLength (provider : types.Provider) (message : string) : RouterError :=
  WithStatusCode (WithProvider (NewError ErrCodeContextLength message) provider) 400.

(** A Go [error] value as [errors.As] walks it: a [*RouterError], or an
    error of another type that may wrap a further one ([fmt.Errorf] with
    [%w]).  [errors.As] stops at the first [*RouterError] it meets, so the
    cause of a [RouterError] is never looked at here. *)
Inductive error_value : Type :=
| Router (e : RouterError)
| Other (msg : string) (wrapped : option error_value).

(** [errors.As(err, &rerr)] for a target of type [*RouterError]; the
    argument is a non-nil error. *)
Fixpoint As (err : error_value) : option RouterError :=
  match err with
  | Router e => Some e
  | Other _ (Some err') => As err'
  | Other _ None => None
  end.

(** [IsRetryable]. *)
Definition IsRetryable (err : option error_value) : bool :=
  match err ≫= As with
  | Some rerr =>
      String.eqb (Code rerr) ErrCodeRateLimit
      || String.eqb (Code rerr) ErrCodeServerError
      || String.eqb (Code rerr) ErrCodeTimeout
  | None => false
  end.

(** [IsAuthError]. *)
Definition IsAuthError (err : option error_value) : bool :=
  match err ≫= As with
  | Some rerr =>
      String.eqb (Code rerr) ErrCodeAuthentication
      || String.eqb (Code rerr) ErrCodeInvalidAPIKey
  | None => false
  end.

End errors.

(** ** Packages [net/url] and [net/http], as far as the adapters create
    requests with them *)

Module url.

(** [stringContainsCTLByte]: an ASCII control character. *)
Fixpoint stringContainsCTLByte (s : string) : bool :=
  match s with
  | EmptyString => false
  | String b s' => (code b <? 32) || (code b =? 127) || stringContainsCTLByte s'
  end.

Definition ishex (c : ascii) : bool :=
  ((48 <=? code c) && (code c <=? 57))
  || ((97 <=? code c) && (code c <=? 102))
  || ((65 <=? code c) && (code c <=? 70)).

(** The check that [unescape] makes of a fragment: every [%] opens an
    escape of two hexadecimal digits.  [Some bad] is the [EscapeError]: the
    escape that is cut short or is not hexadecimal, three bytes of it at
    most. *)
Fixpoint escape_error (s : string) : option string :=
  match s with
  | EmptyString => None
  | String c s' =>
      if Ascii.eqb c "%" then
        match s' with
        | String h1 (String h2 s'') =>
            if ishex h1 && ishex h2 then escape_error s''
            else Some (String c (String h1 (String h2 EmptyString)))
        | _ => Some s
        end
      else escape_error s'
  end.

(** What [Parse] returns.  [Prefix] stands for the fields that hold the
    scheme, the authority and the path ([Scheme], [Opaque], [User], [Host],
    [Path], [RawPath], [OmitHost]): it is the text they were read from.
    [RawFragment] is the text after [#] as it was written; a request never
    sends it. *)
Record URL : Type := {
  Prefix : string;
  ForceQuery : bool;
  RawQuery : string;
  RawFragment : string }.

(** The two parts of the package that are parameters of the development:
    what [parse] makes of the scheme, the authority and the path, that is of
    the text before the query ([Some msg] is the error it returns), and
    [strconv.Quote], with which the text of an error is written. *)
Class Syntax := {
  prefix_error : string -> option string;
  Quote : string -> string }.

(** The method [Error] of [url.Error]. *)
Definition Error_text `{!Syntax} (op u msg : string) : string :=
  op ++ " " ++ Quote u ++ ": " ++ msg.

(** [Parse]: the fragment is cut off first; [parse] refuses a control
    character in what is left, splits the query off at the first [?] and
    reads the scheme, the authority and the path; [setFragment] checks the
    escapes of the fragment.  The left summand is the text of the error. *)
Definition Parse `{!Syntax} (rawURL : string) : string + URL :=
  let '(u, frag, _) := Cut rawURL "#" in
  if stringContainsCTLByte u then
    inl (Error_text "parse" u "net/url: invalid control character in URL")
  else
    let '(rest, query, found) := Cut u "?" in
    match prefix_error rest with
    | Some msg => inl (Error_text "parse" u msg)
    | None =>
        match escape_error frag with
        | Some bad => inl (Error_text "parse" rawURL ("invalid URL escape " ++ Quote bad))
        | None =>
            inr {| Prefix := rest;
                   ForceQuery := found && String.eqb query "";
                   RawQuery := query;
                   RawFragment := frag |}
        end
    end.

End url.

Module http.

(** A [context.Context] that is not [nil]. *)
Inductive Context : Type := Background.

(** [NewRequestWithContext] with one of the methods [GET] and [POST], which
    are the methods of every call in the adapters, and which pass the check
    of the method: the context must not be [nil], and the URL must parse.
    The request is known here by its URL. *)
Definition NewRequestWithContext `{!url.Syntax} (ctx : option Context) (rawURL : string)
    : string + url.URL :=
  match ctx with
  | None => inl "net/http: nil Context"
  | Some _ => url.Parse rawURL
  end.

End http.

(** ** Package [types], file [response.go]: stream events and readers *)

Module stream.

Record StreamEvent : Type := {
  ev_Type : StreamEventType;
  ev_Delta : option ContentBlock;
  ev_Index : Z;
  ev_ToolCall : option ToolCall;
  ev_ToolInputDelta : string;
  ev_Error : option errors.RouterError;
  ev_Usage : option Usage;
  ev_StopReason : StopReason;
  ev_ResponseID : string;
  ev_Model : string }.

Definition StreamEvent_zero : StreamEvent :=
  {| ev_Type := ""; ev_Delta := None; ev_Index := 0; ev_ToolCall := None;
     ev_ToolInputDelta := ""; ev_Error := None; ev_Usage := None;
     ev_StopReason := ""; ev_ResponseID := ""; ev_Model := "" |}.

(** [&types.StreamEvent{Type: types.StreamEventStart, ResponseID: id, Model: model}]. *)
Definition StartEvent (id model : string) : StreamEvent :=
  {| ev_Type := StreamEventStart; ev_Delta := None; ev_Index := 0;
     ev_ToolCall := None; ev_ToolInputDelta := ""; ev_Error := None;
     ev_Usage := None; ev_StopReason := ""; ev_ResponseID := id;
     ev_Model := model |}.

(** [&types.StreamEvent{Type: types.StreamEventContentDelta,
    Delta: &types.ContentBlock{Type: types.ContentTypeText, Text: text}, Index: index}]. *)
Definition ContentDeltaEvent (text : string) (index : Z) : StreamEvent :=
  {| ev_Type := StreamEventContentDelta; ev_Delta := Some (TextBlock text);
     ev_Index := index; ev_ToolCall := None; ev_ToolInputDelta := "";
     ev_Error := None; ev_Usage := None; ev_StopReason := "";
     ev_ResponseID := ""; ev_Model := "" |}.

(** [&types.StreamEvent{Type: types.StreamEventToolCallStart, ToolCall: &tc}]. *)
Definition ToolCallStartEvent (tc : ToolCall) : StreamEvent :=
  {| ev_Type := StreamEventToolCallStart; ev_Delta := None; ev_Index := 0;
     ev_ToolCall := Some tc; ev_ToolInputDelta := ""; ev_Error := None;
     ev_Usage := None; ev_StopReason := ""; ev_ResponseID := "";
     ev_Model := "" |}.

(** [&types.StreamEvent{Type: types.StreamEventToolCallDelta,
    ToolInputDelta: fragment, Index: index}]. *)
Definition ToolCallDeltaEvent (fragment : string) (index : Z) : StreamEvent :=
  {| ev_Type := StreamEventToolCallDelta; ev_Delta := None; ev_Index := index;
     ev_ToolCall := None; ev_ToolInputDelta := fragment; ev_Error := None;
     ev_Usage := None; ev_StopReason := ""; ev_ResponseID := "";
     ev_Model := "" |}.

(** [&types.StreamEvent{Type: types.StreamEventToolCallEnd, ToolCall: &tc}]. *)
Definition ToolCallEndEvent (tc : ToolCall) : StreamEvent :=
  {| ev_Type := StreamEventToolCallEnd; ev_Delta := None; ev_Index := 0;
     ev_ToolCall := Some tc; ev_ToolInputDelta := ""; ev_Error := None;
     ev_Usage := None; ev_StopReason := ""; ev_ResponseID := "";
     ev_Model := "" |}.

(** [&types.StreamEvent{Type: types.StreamEventDone, Usage: usage,
    StopReason: stop, ResponseID: id}]. *)
Definition DoneEvent (usage : option Usage) (stop : StopReason) (id : string) : StreamEvent :=
  {| ev_Type := StreamEventDone; ev_Delta := None; ev_Index := 0;
     ev_ToolCall := None; ev_ToolInputDelta := ""; ev_Error := None;
     ev_Usage := usage; ev_StopReason := stop; ev_ResponseID := id;
     ev_Model := "" |}.

(** [&types.StreamEvent{Type: types.StreamEventError, Error: err}]. *)
Definition ErrorEvent (err : errors.RouterError) : StreamEvent :=
  {| ev_Type := StreamEventError; ev_Delta := None; ev_Index := 0;
     ev_ToolCall := None; ev_ToolInputDelta := ""; ev_Error := Some err;
     ev_Usage := None; ev_StopReason := ""; ev_ResponseID := "";
     ev_Model := "" |}.

(** What one call of [Next] hands back: an event, "stream complete"
    ([nil, nil]), an error of the body, a run-time panic (a slice indexed out
    of range), or no answer within the fuel given to a loop of the model. *)
Inductive NextResult : Type :=
| Event (e : StreamEvent)
| Complete
| Failed (err : error)
| Panic
| OutOfFuel.

(** The interface [types.StreamReader] ([Close] only releases the body). *)
Class StreamReader (R : Type) := {
  Next : R -> NextResult * R;
  Response : R -> option CompletionResponse }.

(** The results of [n] successive calls of [Next]. *)
Fixpoint drain {R : Type} `{!StreamReader R} (n : nat) (s : R) : list NextResult * R :=
  match n with
  | O => ([], s)
  | S n' =>
      let (r, s1) := Next s in
      let (rs, s2) := drain n' s1 in
      (r :: rs, s2)
  end.

Definition is_event (r : NextResult) : option StreamEvent :=
  match r with Event e => Some e | _ => None end.

(** The events among some results, in order. *)
Definition events_of (rs : list NextResult) : list StreamEvent :=
  omap is_event rs.

Definition is_error_event (e : StreamEvent) : bool :=
  String.eqb (ev_Type e) StreamEventError.

(** The first event of a run that is not an [Error] event. *)
Definition first_non_error (rs : list NextResult) : option StreamEvent :=
  head (filter (fun e => is_error_event e = false) (events_of rs)).

End stream.

Export stream.

(** ** Package [schema]: the translator *)

Module schema.

(** One struct field of [JSONSchema] as [encoding/json] writes it: a field
    tagged [omitempty] is left out when it holds its zero value.  The
    encoding of a field that holds sub-schemas or values of type [any] can
    fail: the outer [option] of its result is [None] then. *)
Definition field (key : string) (v : option json) (m : gmap string json) : gmap string json :=
  match v with
  | Some x => <[key := x]> m
  | None => m
  end.

Definition omit_string (s : string) : option json :=
  if String.eqb s "" then None else Some (JStr (coerce_utf8 s)).

Definition omit_strings (l : list string) : option json :=
  match l with
  | [] => None
  | _ => Some (JArr ((fun s => JStr (coerce_utf8 s)) <$> l))
  end.

Definition omit_int (n : option Z) : option json :=
  (fun z => JNum (inject_Z (float64_of_int z))) <$> n.

Definition omit_float (x : option float64) : option (option json) :=
  match x with
  | None => Some None
  | Some (Finite q) => Some (Some (JNum q))
  | Some _ => None
  end.

Definition omit_value (v : value) : option (option json) :=
  match v with
  | VNil => Some None
  | _ => Some <$> remarshal v
  end.

Definition omit_values (l : list value) : option (option json) :=
  match l with
  | [] => Some None
  | _ => (fun l' => Some (JArr l')) <$> mapM remarshal l
  end.

Definition omit_pointer {A} (f : A -> option json) (p : option A) : option (option json) :=
  match p with
  | None => Some None
  | Some x => Some <$> f x
  end.

Definition omit_slice {A} (f : A -> option json) (l : list A) : option (option json) :=
  match l with
  | [] => Some None
  | _ => (fun l' => Some (JArr l')) <$> mapM f l
  end.

Definition omit_map {A} (f : A -> option json) (m : gmap string A) : option (option json) :=
  if decide (m = ∅) then Some None
  else (fun m' => Some (JObj (marshal_keys m'))) <$> map_sequence (f <$> m).

(** [json.Marshal(s)] followed by [json.Unmarshal(data, &m)], the limit on
    the depth of the text aside: [None] when [json.Marshal] returns an error,
    which it does for a bound that is NaN or infinite, for a value of type
    [any] that it refuses, and for a schema that reaches itself. *)
Fixpoint remarshal_schema (s : JSONSchema) : option (gmap string json) :=
  let sub (x : nat + JSONSchema) : option json :=
    match x with
    | inl _ => None
    | inr s' => JObj <$> remarshal_schema s'
    end in
  match s with
  | mkJSONSchema type description properties items required enum const
      additionalProperties minItems maxItems minimum maximum minLength
      maxLength pattern format default anyOf oneOf allOf ref defs =>
      properties' ← omit_map sub properties;
      items' ← omit_pointer sub items;
      enum' ← omit_values enum;
      const' ← omit_value const;
      minimum' ← omit_float minimum;
      maximum' ← omit_float maximum;
      default' ← omit_value default;
      anyOf' ← omit_slice sub anyOf;
      oneOf' ← omit_slice sub oneOf;
      allOf' ← omit_slice sub allOf;
      defs' ← omit_map sub defs;
      Some
        (field "type" (omit_string type)
        (field "description" (omit_string description)
        (field "properties" properties'
        (field "items" items'
        (field "required" (omit_strings required)
        (field "enum" enum'
        (field "const" const'
        (field "additionalProperties" (JBool <$> additionalProperties)
        (field "minItems" (omit_int minItems)
        (field "maxItems" (omit_int maxItems)
        (field "minimum" minimum'
        (field "maximum" maximum'
        (field "minLength" (omit_int minLength)
        (field "maxLength" (omit_int maxLength)
        (field "pattern" (omit_string pattern)
        (field "format" (omit_string format)
        (field "default" default'
        (field "anyOf" anyOf'
        (field "oneOf" oneOf'
        (field "allOf" allOf'
        (field "$ref" (omit_string ref)
        (field "$defs" defs' ∅))))))))))))))))))))))
  end.

(** How deep arrays and objects nest in the text that [json.Marshal] writes
    for a schema: an object for the schema, and under it the fields that are
    not left out. *)
Fixpoint marshal_depth (s : JSONSchema) : nat :=
  let sub (x : nat + JSONSchema) : nat :=
    match x with
    | inl _ => O
    | inr s' => marshal_depth s'
    end in
  let slice (l : list (nat + JSONSchema)) : nat :=
    match l with
    | [] => O
    | _ => S (foldr (fun x acc => Nat.max (sub x) acc) O l)
    end in
  let members (m : gmap string (nat + JSONSchema)) : nat :=
    if decide (m = ∅) then O else S (max_depth (sub <$> m)) in
  S (foldr Nat.max O
       [ members (js_Properties s);
         match js_Items s with Some x => sub x | None => O end;
         match js_Required s with [] => O | _ => 1%nat end;
         match js_Enum s with
         | [] => O
         | l => S (foldr (fun x acc => Nat.max (value_depth x) acc) O l)
         end;
         value_depth (js_Const s);
         value_depth (js_Default s);
         slice (js_AnyOf s); slice (js_OneOf s); slice (js_AllOf s);
         members (js_Defs s) ]).

(** [JSONSchema.ToMap]: the schema marshalled by its struct tags and read
    back as a [map\[string\]any].  The source drops the errors of both calls:
    when [json.Marshal] fails, or writes a text that nests deeper than
    [json.Unmarshal] reads, the map stays [nil], which is [None] here. *)
Definition ToMap (s : JSONSchema) : option (gmap string json) :=
  if Z.of_nat (marshal_depth s) <=? maxNestingDepth then remarshal_schema s else None.

(** [schemaType, _ := schema\["type"\].(string); schemaType == "object"]. *)
Definition is_object (schema : gmap string json) : bool :=
  match as_string (schema !! "type") with
  | Some schemaType => String.eqb schemaType "object"
  | None => false
  end.

(** What the pass does to the value stored under one key of a schema, given
    the pass [visit] on values ([visit] leaves a value that is not a
    [map\[string\]any] as it is).  Each block of the source rewrites the value
    under its own key and the keys differ, so the blocks are one case each. *)
Definition visit_entry (visit : json -> json) (key : string) (val : json) : json :=
  if String.eqb key "properties" || String.eqb key "$defs" then
    match val with
    | JObj props => JObj (visit <$> props)
    | _ => val
    end
  else if String.eqb key "items" then
    match val with
    | JObj _ => visit val
    | _ => val
    end
  else if String.eqb key "anyOf" || String.eqb key "oneOf" || String.eqb key "allOf" then
    match val with
    | JArr arr => JArr (visit <$> arr)
    | _ => val
    end
  else val.

Definition visit_schema (visit : json -> json) (schema : gmap string json) : gmap string json :=
  let schema' := map_imap (fun key val => Some (visit_entry visit key val)) schema in
  if is_object schema
  then <["additionalProperties" := JBool false]> schema'
  else schema'.

(** [if m, ok := v.(map\[string\]any); ok { t.addAdditionalPropertiesFalse(m) }]. *)
Fixpoint visit (v : json) : json :=
  match v with
  | JObj schema => JObj (visit_schema visit schema)
  | _ => v
  end.

(** [Translator.addAdditionalPropertiesFalse]; the map that the source
    updates in place is returned. *)
Definition addAdditionalPropertiesFalse (schema : gmap string json) : gmap string json :=
  visit_schema visit schema.

(** [Translator.prepareOpenAISchema]; [None] is the [nil] map, which the
    pass leaves as it is. *)
Definition prepareOpenAISchema (s : option JSONSchema) : option (gmap string json) :=
  match s with
  | None => None
  | Some s => addAdditionalPropertiesFalse <$> ToMap s
  end.

Record OpenAIJSONSchema : Type := {
  oai_Name : string;
  oai_Description : string;
  oai_Schema : option (gmap string json);
  oai_Strict : bool }.

Record OpenAIResponseFormat : Type := {
  oairf_Type : string;
  oairf_JSONSchema : option OpenAIJSONSchema }.

(** [Translator.ToOpenAI]. *)
Definition ToOpenAI (rf : option ResponseFormat) : option OpenAIResponseFormat :=
  match rf with
  | None => None
  | Some rf =>
      if String.eqb (rf_Type rf) "json" then
        Some {| oairf_Type := "json_object"; oairf_JSONSchema := None |}
      else if String.eqb (rf_Type rf) "json_schema" then
        let schema := prepareOpenAISchema (rf_Schema rf) in
        let strict := match rf_Strict rf with Some b => b | None => true end in
        Some {| oairf_Type := "json_schema";
                oairf_JSONSchema :=
                  Some {| oai_Name := rf_Name rf;
                          oai_Description := rf_Description rf;
                          oai_Schema := schema;
                          oai_Strict := strict |} |}
      else Some {| oairf_Type := "text"; oairf_JSONSchema := None |}
  end.

Record AnthropicFormat : Type := {
  af_Type : string;
  af_Schema : option (gmap string json) }.

Record AnthropicOutputConfig : Type := {
  aoc_Format : option AnthropicFormat }.

(** [Translator.ToAnthropic]. *)
Definition ToAnthropic (rf : option ResponseFormat) : option AnthropicOutputConfig :=
  match rf with
  | None => None
  | Some rf =>
      if String.eqb (rf_Type rf) "text" then None
      else if String.eqb (rf_Type rf) "json" then None
      else if String.eqb (rf_Type rf) "json_schema" then
        match rf_Schema rf with
        | Some s =>
            let schema := addAdditionalPropertiesFalse <$> ToMap s in
            Some {| aoc_Format := Some {| af_Type := "json_schema"; af_Schema := schema |} |}
        | None => None
        end
      else None
  end.

Record AnthropicTool : Type := {
  at_Name : string;
  at_Description : string;
  at_InputSchema : option (gmap string json) }.

(** [Translator.ToolsToAnthropic]. *)
Definition ToolsToAnthropic (tools : list Tool) : list AnthropicTool :=
  (fun tool => {| at_Name := tool_Name tool;
                  at_Description := tool_Description tool;
                  at_InputSchema := ToMap (tool_Parameters tool) |}) <$> tools.

(** Walking a unified schema and its translation along the keywords
    [properties], [items], [anyOf], [oneOf], [allOf] and [$defs]. *)
Inductive keyword : Type :=
| KProperty (name : string)
| KItems
| KAnyOf (i : nat)
| KOneOf (i : nat)
| KAllOf (i : nat)
| KDef (name : string).

Definition position (s : JSONSchema) (k : keyword) : option (nat + JSONSchema) :=
  match k with
  | KProperty name => js_Properties s !! name
  | KItems => js_Items s
  | KAnyOf i => js_AnyOf s !! i
  | KOneOf i => js_OneOf s !! i
  | KAllOf i => js_AllOf s !! i
  | KDef name => js_Defs s !! name
  end.

(** The sub-schema at the end of a path; [above] are the schemas passed on
    the way, the nearest first, to which a place can lead back. *)
Fixpoint reach_from (above : list JSONSchema) (s : JSONSchema) (path : list keyword)
    : option JSONSchema :=
  match path with
  | [] => Some s
  | k :: path' =>
      match position s k with
      | Some (inr s') => reach_from (s :: above) s' path'
      | Some (inl n) =>
          match (s :: above) !! n with
          | Some s' => reach_from (drop (S n) (s :: above)) s' path'
          | None => None
          end
      | None => None
      end
  end.

Definition reach (s : JSONSchema) (path : list keyword) : option JSONSchema :=
  reach_from [] s path.

(** Every name of a property and of a definition, in the schema and below
    it, is valid UTF-8. *)
Definition valid_keys {A} (m : gmap string A) : bool :=
  bool_decide (map_Forall (fun k _ => ValidString k = true) m).

Definition all_true (m : gmap string bool) : bool :=
  bool_decide (map_Forall (fun _ b => b = true) m).

Fixpoint valid_names (s : JSONSchema) : bool :=
  let sub (x : nat + JSONSchema) : bool :=
    match x with
    | inl _ => true
    | inr s' => valid_names s'
    end in
  valid_keys (js_Properties s) && all_true (sub <$> js_Properties s)
  && match js_Items s with Some x => sub x | None => true end
  && forallb sub (js_AnyOf s) && forallb sub (js_OneOf s) && forallb sub (js_AllOf s)
  && valid_keys (js_Defs s) && all_true (sub <$> js_Defs s).

Definition submap (m : gmap string json) (k : keyword) : option (gmap string json) :=
  match k with
  | KProperty name =>
      match as_map (m !! "properties") with
      | Some props => as_map (props !! name)
      | None => None
      end
  | KItems => as_map (m !! "items")
  | KAnyOf i =>
      match as_slice (m !! "anyOf") with
      | Some arr => as_map (arr !! i)
      | None => None
      end
  | KOneOf i =>
      match as_slice (m !! "oneOf") with
      | Some arr => as_map (arr !! i)
      | None => None
      end
  | KAllOf i =>
      match as_slice (m !! "allOf") with
      | Some arr => as_map (arr !! i)
      | None => None
      end
  | KDef name =>
      match as_map (m !! "$defs") with
      | Some defs => as_map (defs !! name)
      | None => None
      end
  end.

Fixpoint reach_map (m : gmap string json) (path : list keyword) : option (gmap string json) :=
  match path with
  | [] => Some m
  | k :: path' =>
      match submap m k with
      | Some m' => reach_map m' path'
      | None => None
      end
  end.

End schema.

(** ** Package [provider] *)

Module provider.

Record ListBatchOptions : Type := {
  Limit : Z;
  After : string }.

(** The part of the interface [provider.Provider] that the router consults
    before it delegates; [Complete] and [Stream] are the delegations
    themselves (see [router.outcome]). *)
Record Provider : Type := {
  Name : types.Provider;
  SupportsFeature : Feature -> bool;
  Models : list string }.

(** A line-oriented view of an HTTP body behind a [bufio.Reader]: the
    complete lines still unread (each ends with its newline), the bytes after
    the last newline, and the error of the underlying reader once those are
    used up ([io.EOF] for a body that ends). *)
Record Body : Type := {
  lines : list string;
  rest : string;
  rest_err : error }.

Definition Body_of (data : string) : Body :=
  let (ls, r) := split_lines data in
  {| lines := ls; rest := r; rest_err := EOF |}.

Definition BatchStatus := string.
Definition BatchStatusPending : BatchStatus := "pending".
Definition BatchStatusValidating : BatchStatus := "validating".
Definition BatchStatusInProgress : BatchStatus := "in_progress".
Definition BatchStatusFinalizing : BatchStatus := "finalizing".
Definition BatchStatusCompleted : BatchStatus := "completed".
Definition BatchStatusFailed : BatchStatus := "failed".
Definition BatchStatusCancelled : BatchStatus := "cancelled".
Definition BatchStatusExpired : BatchStatus := "expired".

Record RequestCounts : Type := {
  rc_Total : Z;
  rc_Completed : Z;
  rc_Failed : Z }.

(** [BatchJob], without its times and its metadata. *)
Record BatchJob : Type := {
  bj_ID : string;
  bj_Provider : types.Provider;
  bj_Status : BatchStatus;
  bj_RequestCounts : RequestCounts }.

End provider.

(** ** Package [batch] *)

Module batch.

Definition Status := string.
Definition StatusPending : Status := "pending".
Definition StatusValidating : Status := "validating".
Definition StatusInProgress : Status := "in_progress".
Definition StatusFinalizing : Status := "finalizing".
Definition StatusCompleted : Status := "completed".
Definition StatusFailed : Status := "failed".
Definition StatusCancelled : Status := "cancelled".
Definition StatusExpired : Status := "expired".

(** [Status.IsDone]; [Manager.Wait] polls until it holds of the job's
    status. *)
Definition IsDone (s : Status) : bool :=
  String.eqb s StatusCompleted || String.eqb s StatusFailed
  || String.eqb s StatusCancelled || String.eqb s StatusExpired.

Record Counts : Type := {
  Total : Z;
  Completed : Z;
  Failed : Z }.

(** [Job], without its times and its metadata. *)
Record Job : Type := {
  job_ID : string;
  job_Provider : types.Provider;
  job_Status : Status;
  job_Counts : Counts }.

(** [convertJob], on the fields above. *)
Definition convertJob (j : provider.BatchJob) : Job :=
  {| job_ID := provider.bj_ID j;
     job_Provider := provider.bj_Provider j;
     job_Status := provider.bj_Status j;
     job_Counts := {| Total := provider.rc_Total (provider.bj_RequestCounts j);
                      Completed := provider.rc_Completed (provider.bj_RequestCounts j);
                      Failed := provider.rc_Failed (provider.bj_RequestCounts j) |} |}.

End batch.

(** ** Package [openai] *)

Module openai.

Record PromptTokensDetails : Type := {
  ptd_CachedTokens : Z;
  ptd_AudioTokens : Z }.

Record CompletionTokensDetails : Type := {
  ctd_ReasoningTokens : Z;
  ctd_AudioTokens : Z }.

Record Usage : Type := {
  PromptTokens : Z;
  CompletionTokens : Z;
  TotalTokens : Z;
  PromptTokensDetails_ : option PromptTokensDetails;
  CompletionTokensDetails_ : option CompletionTokensDetails }.

Record FunctionCall : Type := {
  fc_Name : string;
  fc_Arguments : string }.

Record ToolCall : Type := {
  tc_ID : string;
  tc_Type : string;
  tc_Function : FunctionCall;
  tc_Index : option Z }.

Record MessageDelta : Type := {
  md_Role : string;
  md_Content : string;
  md_ToolCalls : list ToolCall }.

Record StreamChoice : Type := {
  sc_Index : Z;
  sc_Delta : MessageDelta;
  sc_FinishReason : string;
  sc_Logprobs : json }.

Record StreamChunk : Type := {
  ch_ID : string;
  ch_Object : string;
  ch_Created : Z;
  ch_Model : string;
  ch_Choices : list StreamChoice;
  ch_Usage : option Usage;
  ch_SystemFingerprint : string }.

Record APIError : Type := {
  ae_Message : string;
  ae_Type : string;
  ae_Param : string;
  ae_Code : string }.

(** [Client.SupportsFeature]. *)
Definition SupportsFeature (feature : Feature) : bool :=
  if String.eqb feature FeatureStreaming
     || String.eqb feature FeatureStructuredOutput
     || String.eqb feature FeatureTools
     || String.eqb feature FeatureVision
     || String.eqb feature FeatureBatch
     || String.eqb feature FeatureJSON
  then true
  else false.

Definition Models : list string :=
  ["gpt-4o"; "gpt-4o-mini"; "gpt-4-turbo"; "gpt-4"; "gpt-3.5-turbo";
   "o1"; "o1-mini"; "o1-preview"].

Definition Client : provider.Provider :=
  {| provider.Name := ProviderOpenAI;
     provider.SupportsFeature := SupportsFeature;
     provider.Models := Models |}.

(** [Transformer.transformStopReason]. *)
Definition transformStopReason (reason : string) : StopReason :=
  if String.eqb reason "stop" then StopReasonEnd
  else if String.eqb reason "length" then StopReasonMaxTokens
  else if String.eqb reason "tool_calls" then StopReasonToolUse
  else if String.eqb reason "content_filter" then StopReasonContentFilter
  else StopReasonEnd.

Record ImageURL : Type := {
  iu_URL : string;
  iu_Detail : string }.

Record ContentPart : Type := {
  cp_Type : string;
  cp_Text : string;
  cp_ImageURL : option ImageURL }.

(** What [transformMessages] stores in [ChatMessage.Content], an [any]:
    nothing, a string, or a slice of parts. *)
Inductive MessageContent : Type :=
| ContentNil
| ContentString (s : string)
| ContentParts (l : list ContentPart).

Record ChatMessage : Type := {
  cm_Role : string;
  cm_Content : MessageContent;
  cm_Name : string;
  cm_ToolCalls : list ToolCall;
  cm_ToolCallID : string }.

Section transformer.
Context `{!Marshal json}.

(** [text += block.Text] over the text blocks. *)
Definition textOf (blocks : list ContentBlock) : string :=
  foldl (fun text block =>
           if String.eqb (cb_Type block) ContentTypeText
           then text ++ cb_Text block
           else text)
    "" blocks.

(** The tool calls that [transformMessages] collects from the blocks of an
    assistant message; the error of [json.Marshal] is dropped. *)
Definition toolCallsOf (blocks : list ContentBlock) : list ToolCall :=
  omap (fun block =>
          if String.eqb (cb_Type block) ContentTypeToolUse then
            let args := match marshal (cb_ToolInput block) with
                        | Some data => data
                        | None => ""
                        end in
            Some {| tc_ID := cb_ToolUseID block; tc_Type := "function";
                    tc_Function := {| fc_Name := cb_ToolName block; fc_Arguments := args |};
                    tc_Index := None |}
          else None)
    blocks.

(** The parts that [transformMessages] collects for a multipart message. *)
Definition partsOf (blocks : list ContentBlock) : list ContentPart :=
  omap (fun block =>
          if String.eqb (cb_Type block) ContentTypeText then
            Some {| cp_Type := "text"; cp_Text := cb_Text block; cp_ImageURL := None |}
          else if String.eqb (cb_Type block) ContentTypeImage then
            let url :=
              if String.eqb (cb_ImageURL block) ""
                 && negb (String.eqb (cb_ImageBase64 block) "")
              then "data:" ++ cb_MediaType block ++ ";base64," ++ cb_ImageBase64 block
              else cb_ImageURL block in
            Some {| cp_Type := "image_url"; cp_Text := "";
                    cp_ImageURL := Some {| iu_URL := url; iu_Detail := "" |} |}
          else None)
    blocks.

(** One turn of the loop of [Transformer.transformMessages]: the messages
    it appends to the result. *)
Definition transformMessage (msg : Message) : list ChatMessage :=
  let blocks := msg_Content msg in
  if String.eqb (msg_Role msg) RoleTool then
    omap (fun block =>
            if String.eqb (cb_Type block) ContentTypeToolResult
            then Some {| cm_Role := msg_Role msg;
                         cm_Content := ContentString (cb_Text block);
                         cm_Name := ""; cm_ToolCalls := [];
                         cm_ToolCallID := cb_ToolResultID block |}
            else None)
      blocks
  else
    let hasMultipleParts := 1 <? len blocks in
    let hasImages := existsb (fun b => String.eqb (cb_Type b) ContentTypeImage) blocks in
    let hasToolCalls := existsb (fun b => String.eqb (cb_Type b) ContentTypeToolUse) blocks in
    if hasToolCalls && String.eqb (msg_Role msg) RoleAssistant then
      let textContent := textOf blocks in
      [ {| cm_Role := msg_Role msg;
           cm_Content := if negb (String.eqb textContent "")
                         then ContentString textContent else ContentNil;
           cm_Name := ""; cm_ToolCalls := toolCallsOf blocks; cm_ToolCallID := "" |} ]
    else if hasImages || hasMultipleParts then
      [ {| cm_Role := msg_Role msg; cm_Content := ContentParts (partsOf blocks);
           cm_Name := ""; cm_ToolCalls := []; cm_ToolCallID := "" |} ]
    else
      [ {| cm_Role := msg_Role msg; cm_Content := ContentString (textOf blocks);
           cm_Name := ""; cm_ToolCalls := []; cm_ToolCallID := "" |} ].

(** [Transformer.transformMessages]. *)
Definition transformMessages (messages : list Message) : list ChatMessage :=
  concat (transformMessage <$> messages).

End transformer.

(** [Client.mapAPIError]. *)
Definition mapAPIError (apiErr : APIError) (statusCode : Z) : errors.RouterError :=
  if statusCode =? 401 then
    errors.WithStatusCode (errors.ErrInvalidAPIKey ProviderOpenAI) statusCode
  else if statusCode =? 429 then
    errors.WithStatusCode (errors.ErrRateLimit ProviderOpenAI (ae_Message apiErr)) statusCode
  else if statusCode =? 404 then
    errors.WithStatusCode (errors.ErrModelNotFound ProviderOpenAI (ae_Message apiErr)) statusCode
  else if statusCode =? 400 then
    if Contains (ae_Message apiErr) "context_length" then
      errors.WithStatusCode (errors.ErrContextLength ProviderOpenAI (ae_Message apiErr)) statusCode
    else
      errors.WithStatusCode
        (errors.WithProvider (errors.ErrInvalidRequest (ae_Message apiErr)) ProviderOpenAI)
        statusCode
  else
    errors.WithStatusCode (errors.ErrServerError ProviderOpenAI (ae_Message apiErr)) statusCode.

(** The reader's state.  [content] is the text written to the
    [strings.Builder] so far; [toolInputs] holds, per index, the text written
    to that index's builder. *)
Record streamReader : Type := {
  body : provider.Body;
  response : option CompletionResponse;
  done : bool;
  id : string;
  model : string;
  content : string;
  toolCalls : gmap Z types.ToolCall;
  toolInputs : gmap Z string;
  usage : option types.Usage;
  stopReason : StopReason }.

Definition newStreamReader (body : provider.Body) : streamReader :=
  {| body := body; response := None; done := false; id := ""; model := "";
     content := ""; toolCalls := ∅; toolInputs := ∅; usage := None;
     stopReason := "" |}.

Definition set_body (s : streamReader) (b : provider.Body) : streamReader :=
  {| body := b; response := response s; done := done s; id := id s;
     model := model s; content := content s; toolCalls := toolCalls s;
     toolInputs := toolInputs s; usage := usage s; stopReason := stopReason s |}.

Definition set_meta (s : streamReader) (id' model' : string)
    (usage' : option types.Usage) (stop : StopReason) : streamReader :=
  {| body := body s; response := response s; done := done s; id := id';
     model := model'; content := content s; toolCalls := toolCalls s;
     toolInputs := toolInputs s; usage := usage'; stopReason := stop |}.

Definition set_content (s : streamReader) (c : string) : streamReader :=
  {| body := body s; response := response s; done := done s; id := id s;
     model := model s; content := c; toolCalls := toolCalls s;
     toolInputs := toolInputs s; usage := usage s; stopReason := stopReason s |}.

Definition set_tools (s : streamReader) (calls : gmap Z types.ToolCall)
    (inputs : gmap Z string) : streamReader :=
  {| body := body s; response := response s; done := done s; id := id s;
     model := model s; content := content s; toolCalls := calls;
     toolInputs := inputs; usage := usage s; stopReason := stopReason s |}.

Definition finish (s : streamReader) (r : CompletionResponse) : streamReader :=
  {| body := body s; response := Some r; done := true; id := id s;
     model := model s; content := content s; toolCalls := toolCalls s;
     toolInputs := toolInputs s; usage := usage s; stopReason := stopReason s |}.

(** The loop over [delta.ToolCalls] in [processChunk]: the first entry that
    opens a tool call or carries a fragment ends the call of [processChunk]. *)
Fixpoint processToolCalls (s : streamReader) (tcs : list ToolCall)
    : option StreamEvent * streamReader :=
  match tcs with
  | [] => (None, s)
  | tc :: tcs' =>
      let idx := match tc_Index tc with Some i => i | None => 0 end in
      if negb (String.eqb (tc_ID tc) "") then
        let call := {| types.tc_ID := tc_ID tc;
                       types.tc_Name := fc_Name (tc_Function tc);
                       types.tc_Input := JNull |} in
        (Some (ToolCallStartEvent call),
         set_tools s (<[idx := call]> (toolCalls s)) (<[idx := ""]> (toolInputs s)))
      else if negb (String.eqb (fc_Arguments (tc_Function tc)) "") then
        let s' :=
          match toolInputs s !! idx with
          | Some written =>
              set_tools s (toolCalls s)
                (<[idx := written ++ fc_Arguments (tc_Function tc)]> (toolInputs s))
          | None => s
          end in
        (Some (ToolCallDeltaEvent (fc_Arguments (tc_Function tc)) idx), s')
      else processToolCalls s tcs'
  end.

(** [streamReader.processChunk]. *)
Definition processChunk (s : streamReader) (chunk : StreamChunk)
    : option StreamEvent * streamReader :=
  let id' := if String.eqb (id s) "" then ch_ID chunk else id s in
  let model' := if String.eqb (model s) "" then ch_Model chunk else model s in
  let usage' :=
    match ch_Usage chunk with
    | Some u => Some {| InputTokens := PromptTokens u;
                        OutputTokens := CompletionTokens u;
                        types.TotalTokens := TotalTokens u;
                        CachedTokens := 0; ReasoningTokens := 0 |}
    | None => usage s
    end in
  match ch_Choices chunk with
  | [] => (None, set_meta s id' model' usage' (stopReason s))
  | choice :: _ =>
      let delta := sc_Delta choice in
      let stop :=
        if negb (String.eqb (sc_FinishReason choice) "")
        then transformStopReason (sc_FinishReason choice)
        else stopReason s in
      let s1 := set_meta s id' model' usage' stop in
      if negb (String.eqb (md_Content delta) "") then
        (Some (ContentDeltaEvent (md_Content delta) 0),
         set_content s1 (content s1 ++ md_Content delta))
      else processToolCalls s1 (md_ToolCalls delta)
  end.

Section reader.
Context `{!MapRange} `{!Unmarshal json} `{!Unmarshal StreamChunk}.

(** The loop that finalizes the tool calls in [buildResponse]. *)
Fixpoint finalizeToolCalls (inputs : gmap Z string) (entries : list (Z * types.ToolCall))
    (content : list ContentBlock) (calls : list types.ToolCall)
    : list ContentBlock * list types.ToolCall :=
  match entries with
  | [] => (content, calls)
  | (idx, tc) :: entries' =>
      let input :=
        match inputs !! idx with
        | Some written => unmarshal_any written
        | None => types.tc_Input tc
        end in
      let tc' := {| types.tc_ID := types.tc_ID tc;
                    types.tc_Name := types.tc_Name tc;
                    types.tc_Input := input |} in
      finalizeToolCalls inputs entries'
        (content ++ [ToolUseBlock (types.tc_ID tc') (types.tc_Name tc') (types.tc_Input tc')])
        (calls ++ [tc'])
  end.

(** [streamReader.buildResponse]: the response it stores. *)
Definition buildResponse (s : streamReader) : CompletionResponse :=
  let content0 := if String.eqb (content s) "" then [] else [TextBlock (content s)] in
  let (content', toolCalls') :=
    finalizeToolCalls (toolInputs s) (range (toolCalls s)) content0 [] in
  {| resp_ID := id s;
     resp_Provider := ProviderOpenAI;
     resp_Model := model s;
     resp_Content := content';
     resp_StopReason := stopReason s;
     resp_Usage := match usage s with Some u => u | None => Usage_zero end;
     resp_ToolCalls := toolCalls' |}.

(** The [for] loop of [streamReader.Next], one line of the body per turn. *)
Fixpoint readLoop (ls : list string) (s : streamReader) : NextResult * streamReader :=
  match ls with
  | [] =>
      let b := {| provider.lines := []; provider.rest := "";
                  provider.rest_err := provider.rest_err (body s) |} in
      let s := set_body s b in
      match provider.rest_err (body s) with
      | EOF => (Complete, finish s (buildResponse s))
      | err => (Failed err, s)
      end
  | line :: ls' =>
      let line := TrimSpace line in
      if String.eqb line "" then readLoop ls' s
      else if negb (HasPrefix line "data: ") then readLoop ls' s
      else
        let data := TrimPrefix line "data: " in
        let s := set_body s {| provider.lines := ls';
                               provider.rest := provider.rest (body s);
                               provider.rest_err := provider.rest_err (body s) |} in
        if String.eqb data "[DONE]" then
          (Event (DoneEvent (usage s) (stopReason s) (id s)), finish s (buildResponse s))
        else
          match unmarshal data with
          | None => readLoop ls' s
          | Some chunk =>
              match processChunk s chunk with
              | (Some event, s') => (Event event, s')
              | (None, s') => readLoop ls' s'
              end
          end
  end.

(** [streamReader.Next]. *)
Definition Next (s : streamReader) : NextResult * streamReader :=
  if done s then (Complete, s)
  else readLoop (provider.lines (body s)) s.

(** [streamReader.Response]. *)
Definition Response (s : streamReader) : option CompletionResponse := response s.

#[global] Instance reader : StreamReader streamReader :=
  {| stream.Next := Next; stream.Response := Response |}.

End reader.

(** The text [url] that [Client.ListBatches] assembles. *)
Definition ListBatches_rawURL (baseURL : string) (opts : option provider.ListBatchOptions) : string :=
  let url := baseURL ++ "/batches" in
  match opts with
  | None => url
  | Some opts =>
      let params := "?" in
      let params :=
        if 0 <? provider.Limit opts
        then params ++ "limit=" ++ string_of_rune (rune_of_int (provider.Limit opts))
        else params in
      let params :=
        if negb (String.eqb (provider.After opts) "")
        then (if negb (String.eqb params "?") then params ++ "&" else params)
             ++ "after=" ++ provider.After opts
        else params in
      if negb (String.eqb params "?") then url ++ params else url
  end.

(** [Client.ListBatches] up to the call of [c.httpClient.Do]: the error it
    returns when the request cannot be created, or the URL of the request it
    hands to the HTTP client. *)
Definition ListBatches `{!url.Syntax} (ctx : option http.Context) (baseURL : string)
    (opts : option provider.ListBatchOptions) : errors.RouterError + url.URL :=
  match http.NewRequestWithContext ctx (ListBatches_rawURL baseURL opts) with
  | inl err =>
      inl (errors.WithCause (errors.ErrInvalidRequest "failed to create request") err)
  | inr httpReq => inr httpReq
  end.

Record ErrorResponse : Type := {
  er_Error : option APIError }.

(** [Client.handleErrorResponse], on the bytes read from the body and the
    status of the response. *)
Definition handleErrorResponse `{!Unmarshal ErrorResponse} (body : string) (statusCode : Z)
    : errors.RouterError :=
  match er_Error <$> unmarshal body with
  | Some (Some apiErr) => mapAPIError apiErr statusCode
  | _ => errors.WithStatusCode (errors.ErrServerError ProviderOpenAI body) statusCode
  end.

Record RequestCounts : Type := {
  rc_Total : Z;
  rc_Completed : Z;
  rc_Failed : Z }.

(** [BatchObject]: the fields that [convertBatchJob] reads for the
    identifier, the status and the counts. *)
Record BatchObject : Type := {
  bo_ID : string;
  bo_Status : string;
  bo_RequestCounts : option RequestCounts }.

(** [Client.convertBatchStatus]. *)
Definition convertBatchStatus (status : string) : provider.BatchStatus :=
  if String.eqb status "validating" then provider.BatchStatusValidating
  else if String.eqb status "in_progress" then provider.BatchStatusInProgress
  else if String.eqb status "finalizing" then provider.BatchStatusFinalizing
  else if String.eqb status "completed" then provider.BatchStatusCompleted
  else if String.eqb status "failed" then provider.BatchStatusFailed
  else if String.eqb status "expired" then provider.BatchStatusExpired
  else if String.eqb status "cancelling" then provider.BatchStatusInProgress
  else if String.eqb status "cancelled" then provider.BatchStatusCancelled
  else provider.BatchStatusPending.

(** [Client.convertBatchJob], without the times and the metadata. *)
Definition convertBatchJob (batch : BatchObject) : provider.BatchJob :=
  {| provider.bj_ID := bo_ID batch;
     provider.bj_Provider := ProviderOpenAI;
     provider.bj_Status := convertBatchStatus (bo_Status batch);
     provider.bj_RequestCounts :=
       match bo_RequestCounts batch with
       | Some counts =>
           {| provider.rc_Total := rc_Total counts;
              provider.rc_Completed := rc_Completed counts;
              provider.rc_Failed := rc_Failed counts |}
       | None =>
           {| provider.rc_Total := 0; provider.rc_Completed := 0; provider.rc_Failed := 0 |}
       end |}.

End openai.

(** ** Package [anthropic] *)

Module anthropic.

Record ImageSource : Type := {
  is_Type : string;
  is_MediaType : string;
  is_Data : string;
  is_URL : string }.

(** The wire content block.  [Content] is an [any]: the transformer stores a
    string in it for a tool result and leaves it [nil] otherwise. *)
Record ContentBlock : Type := {
  cb_Type : string;
  cb_Text : string;
  cb_Source : option ImageSource;
  cb_ID : string;
  cb_Name : string;
  cb_Input : json;
  cb_ToolUseID : string;
  cb_Content : json;
  cb_IsError : bool }.

(** [Message.Content] is an [any] holding a string or a slice of blocks. *)
Inductive MessageContent : Type :=
| ContentString (s : string)
| ContentBlocks (l : list ContentBlock).

Record Message : Type := {
  Role : string;
  Content : MessageContent }.

Record Tool : Type := {
  tool_Name : string;
  tool_Description : string;
  tool_InputSchema : option (gmap string json) }.

Record ToolChoice : Type := {
  tch_Type : string;
  tch_Name : string;
  tch_DisableParallelToolUse : bool }.

Record Metadata : Type := {
  UserID : string }.

Record OutputFormat : Type := {
  of_Type : string;
  of_Schema : option (gmap string json) }.

Record OutputConfig : Type := {
  Format : option OutputFormat }.

(** [System] is an [any]: [nil] or the system string. *)
Record MessagesRequest : Type := {
  mr_Model : string;
  mr_Messages : list Message;
  mr_MaxTokens : Z;
  mr_System : json;
  mr_Temperature : option Q;
  mr_TopP : option Q;
  mr_TopK : option Z;
  mr_StopSequences : list string;
  mr_Stream : bool;
  mr_Tools : list Tool;
  mr_ToolChoice : option ToolChoice;
  mr_Metadata : option Metadata;
  mr_OutputConfig : option OutputConfig }.

Record Usage : Type := {
  InputTokens : Z;
  OutputTokens : Z;
  CacheCreationInputTokens : Z;
  CacheReadInputTokens : Z }.

Record MessagesResponse : Type := {
  resp_ID : string;
  resp_Type : string;
  resp_Role : string;
  resp_Content : list ContentBlock;
  resp_Model : string;
  resp_StopReason : string;
  resp_StopSequence : string;
  resp_Usage : Usage }.

Record Delta : Type := {
  d_Type : string;
  d_Text : string;
  d_PartialJSON : string;
  d_StopReason : string;
  d_StopSequence : string }.

Record APIError : Type := {
  ae_Type : string;
  ae_Message : string }.

(** [Client.SupportsFeature]. *)
Definition SupportsFeature (feature : Feature) : bool :=
  if String.eqb feature FeatureStreaming
     || String.eqb feature FeatureStructuredOutput
     || String.eqb feature FeatureTools
     || String.eqb feature FeatureVision
     || String.eqb feature FeatureBatch
  then true
  else if String.eqb feature FeatureJSON then false
  else false.

Definition Models : list string :=
  ["claude-sonnet-4-20250514"; "claude-opus-4-20250514";
   "claude-3-5-sonnet-20241022"; "claude-3-5-haiku-20241022";
   "claude-3-opus-20240229"; "claude-3-sonnet-20240229";
   "claude-3-haiku-20240307"].

Definition Client : provider.Provider :=
  {| provider.Name := ProviderAnthropic;
     provider.SupportsFeature := SupportsFeature;
     provider.Models := Models |}.

(** [Transformer.mapRole]. *)
Definition mapRole (role : types.Role) : string :=
  if String.eqb role RoleUser || String.eqb role RoleTool then "user"
  else if String.eqb role RoleAssistant then "assistant"
  else "user".

Definition block (type : string) : ContentBlock :=
  {| cb_Type := type; cb_Text := ""; cb_Source := None; cb_ID := "";
     cb_Name := ""; cb_Input := JNull; cb_ToolUseID := ""; cb_Content := JNull;
     cb_IsError := false |}.

(** One turn of the loop of [Transformer.transformContentBlocks]. *)
Definition transformContentBlock (b : types.ContentBlock) : list ContentBlock :=
  if String.eqb (types.cb_Type b) ContentTypeText then
    [ {| cb_Type := "text"; cb_Text := types.cb_Text b; cb_Source := None;
         cb_ID := ""; cb_Name := ""; cb_Input := JNull; cb_ToolUseID := "";
         cb_Content := JNull; cb_IsError := false |} ]
  else if String.eqb (types.cb_Type b) ContentTypeImage then
    let source :=
      if negb (String.eqb (types.cb_ImageBase64 b) "") then
        Some {| is_Type := "base64"; is_MediaType := types.cb_MediaType b;
                is_Data := types.cb_ImageBase64 b; is_URL := "" |}
      else if negb (String.eqb (types.cb_ImageURL b) "") then
        Some {| is_Type := "url"; is_MediaType := ""; is_Data := "";
                is_URL := types.cb_ImageURL b |}
      else None in
    [ {| cb_Type := "image"; cb_Text := ""; cb_Source := source; cb_ID := "";
         cb_Name := ""; cb_Input := JNull; cb_ToolUseID := "";
         cb_Content := JNull; cb_IsError := false |} ]
  else if String.eqb (types.cb_Type b) ContentTypeToolUse then
    [ {| cb_Type := "tool_use"; cb_Text := ""; cb_Source := None;
         cb_ID := types.cb_ToolUseID b; cb_Name := types.cb_ToolName b;
         cb_Input := types.cb_ToolInput b; cb_ToolUseID := "";
         cb_Content := JNull; cb_IsError := false |} ]
  else if String.eqb (types.cb_Type b) ContentTypeToolResult then
    [ {| cb_Type := "tool_result"; cb_Text := ""; cb_Source := None;
         cb_ID := ""; cb_Name := ""; cb_Input := JNull;
         cb_ToolUseID := types.cb_ToolResultID b;
         cb_Content := JStr (types.cb_Text b);
         cb_IsError := types.cb_IsError b |} ]
  else [].

(** [Transformer.transformContentBlocks]. *)
Definition transformContentBlocks (blocks : list types.ContentBlock) : list ContentBlock :=
  concat (transformContentBlock <$> blocks).

(** The inner loop of [transformMessages] over the blocks of one system
    message. *)
Fixpoint appendSystem (system : string) (blocks : list types.ContentBlock) : string :=
  match blocks with
  | [] => system
  | b :: blocks' =>
      if String.eqb (types.cb_Type b) ContentTypeText then
        let system := if negb (String.eqb system "") then system ++ LF else system in
        appendSystem (system ++ types.cb_Text b) blocks'
      else appendSystem system blocks'
  end.

(** The loop of [Transformer.transformMessages], with its two accumulators. *)
Fixpoint transformMessages_loop (messages : list types.Message)
    (result : list Message) (system : string) : list Message * string :=
  match messages with
  | [] => (result, system)
  | msg :: messages' =>
      if String.eqb (msg_Role msg) RoleSystem then
        transformMessages_loop messages' result (appendSystem system (msg_Content msg))
      else
        let content :=
          match msg_Content msg with
          | [b] =>
              if String.eqb (types.cb_Type b) ContentTypeText
              then ContentString (types.cb_Text b)
              else ContentBlocks (transformContentBlocks (msg_Content msg))
          | _ => ContentBlocks (transformContentBlocks (msg_Content msg))
          end in
        let anthMsg := {| Role := mapRole (msg_Role msg); Content := content |} in
        transformMessages_loop messages' (result ++ [anthMsg]) system
  end.

(** [Transformer.transformMessages]. *)
Definition transformMessages (messages : list types.Message) : list Message * string :=
  transformMessages_loop messages [] "".

(** [Transformer.transformResponseFormat]. *)
Definition transformResponseFormat (rf : ResponseFormat) : option OutputConfig :=
  match schema.ToAnthropic (Some rf) with
  | None => None
  | Some anthConfig =>
      Some {| Format :=
                match schema.aoc_Format anthConfig with
                | Some f => Some {| of_Type := schema.af_Type f;
                                    of_Schema := schema.af_Schema f |}
                | None => None
                end |}
  end.

(** [Transformer.transformTools]. *)
Definition transformTools (tools : list types.Tool) : list Tool :=
  (fun tool => {| tool_Name := schema.at_Name tool;
                  tool_Description := schema.at_Description tool;
                  tool_InputSchema := schema.at_InputSchema tool |})
    <$> schema.ToolsToAnthropic tools.

(** [Transformer.transformToolChoice]. *)
Definition transformToolChoice (tc : types.ToolChoice) : ToolChoice :=
  let disable := types.tch_DisableParallelToolUse tc in
  if String.eqb (types.tch_Type tc) ToolChoiceAuto then
    {| tch_Type := "auto"; tch_Name := ""; tch_DisableParallelToolUse := disable |}
  else if String.eqb (types.tch_Type tc) ToolChoiceRequired then
    {| tch_Type := "any"; tch_Name := ""; tch_DisableParallelToolUse := disable |}
  else if String.eqb (types.tch_Type tc) ToolChoiceNone then
    {| tch_Type := "none"; tch_Name := ""; tch_DisableParallelToolUse := disable |}
  else if String.eqb (types.tch_Type tc) ToolChoiceTool then
    {| tch_Type := "tool"; tch_Name := types.tch_Name tc;
       tch_DisableParallelToolUse := disable |}
  else
    {| tch_Type := "auto"; tch_Name := ""; tch_DisableParallelToolUse := disable |}.

(** [Transformer.TransformRequest]. *)
Definition TransformRequest (req : CompletionRequest) : MessagesRequest :=
  let maxTokens := match req_MaxTokens req with Some n => n | None => 8192 end in
  let (messages, system) := transformMessages (req_Messages req) in
  {| mr_Model := req_Model req;
     mr_Messages := messages;
     mr_MaxTokens := maxTokens;
     mr_System := if negb (String.eqb system "") then JStr system else JNull;
     mr_Temperature := req_Temperature req;
     mr_TopP := req_TopP req;
     mr_TopK := req_TopK req;
     mr_StopSequences := req_StopSequences req;
     mr_Stream := req_Stream req;
     mr_Tools := match req_Tools req with [] => [] | tools => transformTools tools end;
     mr_ToolChoice := transformToolChoice <$> req_ToolChoice req;
     mr_Metadata := None;
     mr_OutputConfig :=
       match req_ResponseFormat req with
       | Some rf => transformResponseFormat rf
       | None => None
       end |}.

(** [Transformer.transformStopReason]. *)
Definition transformStopReason (reason : string) : StopReason :=
  if String.eqb reason "end_turn" then StopReasonEnd
  else if String.eqb reason "max_tokens" then StopReasonMaxTokens
  else if String.eqb reason "tool_use" then StopReasonToolUse
  else if String.eqb reason "stop_sequence" then StopReasonStopSequence
  else StopReasonEnd.

(** One turn of the loop of [Transformer.transformResponseContent]. *)
Definition transformResponseBlock (b : ContentBlock) : list types.ContentBlock :=
  if String.eqb (cb_Type b) "text" then [TextBlock (cb_Text b)]
  else if String.eqb (cb_Type b) "tool_use" then
    [ToolUseBlock (cb_ID b) (cb_Name b) (cb_Input b)]
  else [].

(** [Transformer.transformResponseContent]. *)
Definition transformResponseContent (blocks : list ContentBlock) : list types.ContentBlock :=
  concat (transformResponseBlock <$> blocks).

(** [Transformer.extractToolCalls]. *)
Definition extractToolCalls (blocks : list ContentBlock) : list types.ToolCall :=
  concat ((fun b =>
             if String.eqb (cb_Type b) "tool_use"
             then [ {| tc_ID := cb_ID b; tc_Name := cb_Name b; tc_Input := cb_Input b |} ]
             else []) <$> blocks).

(** [Transformer.TransformResponse]. *)
Definition TransformResponse (resp : option MessagesResponse) : option CompletionResponse :=
  match resp with
  | None => None
  | Some resp =>
      Some {| types.resp_ID := resp_ID resp;
              resp_Provider := ProviderAnthropic;
              types.resp_Model := resp_Model resp;
              types.resp_Content := transformResponseContent (resp_Content resp);
              types.resp_StopReason := transformStopReason (resp_StopReason resp);
              types.resp_Usage :=
                {| types.InputTokens := InputTokens (resp_Usage resp);
                   types.OutputTokens := OutputTokens (resp_Usage resp);
                   TotalTokens :=
                     wrap_int (InputTokens (resp_Usage resp) + OutputTokens (resp_Usage resp));
                   CachedTokens := CacheReadInputTokens (resp_Usage resp);
                   ReasoningTokens := 0 |};
              resp_ToolCalls := extractToolCalls (resp_Content resp) |}
  end.

(** [Client.mapAPIError]. *)
Definition mapAPIError (apiErr : APIError) (statusCode : Z) : errors.RouterError :=
  if statusCode =? 401 then
    errors.WithStatusCode (errors.ErrInvalidAPIKey ProviderAnthropic) statusCode
  else if statusCode =? 429 then
    errors.WithStatusCode (errors.ErrRateLimit ProviderAnthropic (ae_Message apiErr)) statusCode
  else if statusCode =? 404 then
    errors.WithStatusCode (errors.ErrModelNotFound ProviderAnthropic (ae_Message apiErr)) statusCode
  else if statusCode =? 400 then
    if Contains (ae_Message apiErr) "context" || Contains (ae_Message apiErr) "token" then
      errors.WithStatusCode (errors.ErrContextLength ProviderAnthropic (ae_Message apiErr)) statusCode
    else
      errors.WithStatusCode
        (errors.WithProvider (errors.ErrInvalidRequest (ae_Message apiErr)) ProviderAnthropic)
        statusCode
  else
    errors.WithStatusCode (errors.ErrServerError ProviderAnthropic (ae_Message apiErr)) statusCode.

(** The text [url] that [Client.ListBatches] assembles. *)
Definition ListBatches_rawURL (baseURL : string) (opts : option provider.ListBatchOptions) : string :=
  let url := baseURL ++ "/v1/messages/batches" in
  match opts with
  | None => url
  | Some opts =>
      let params := "?" in
      let params :=
        if 0 <? provider.Limit opts
        then params ++ "limit=" ++ Itoa (provider.Limit opts)
        else params in
      let params :=
        if negb (String.eqb (provider.After opts) "")
        then (if negb (String.eqb params "?") then params ++ "&" else params)
             ++ "after_id=" ++ provider.After opts
        else params in
      if negb (String.eqb params "?") then url ++ params else url
  end.

(** [Client.ListBatches] up to the call of [c.httpClient.Do]: the error it
    returns when the request cannot be created, or the URL of the request it
    hands to the HTTP client. *)
Definition ListBatches `{!url.Syntax} (ctx : option http.Context) (baseURL : string)
    (opts : option provider.ListBatchOptions) : errors.RouterError + url.URL :=
  match http.NewRequestWithContext ctx (ListBatches_rawURL baseURL opts) with
  | inl err =>
      inl (errors.WithCause (errors.ErrInvalidRequest "failed to create request") err)
  | inr httpReq => inr httpReq
  end.

(** The anonymous structs that [processEvent] decodes into. *)
Record MessageStart : Type := {
  ms_Message : MessagesResponse }.

Record ContentBlockStart : Type := {
  cbs_Index : Z;
  cbs_ContentBlock : ContentBlock }.

Record ContentBlockDelta : Type := {
  cbd_Index : Z;
  cbd_Delta : Delta }.

Record ContentBlockStop : Type := {
  cbp_Index : Z }.

Record MessageDelta : Type := {
  mdl_Delta : Delta;
  mdl_Usage : Usage }.

Record StreamError : Type := {
  se_Error : APIError }.

Record streamReader : Type := {
  body : provider.Body;
  response : option CompletionResponse;
  done : bool;
  id : string;
  model : string;
  contentBlocks : list types.ContentBlock;
  currentBlock : Z;
  toolCalls : list types.ToolCall;
  usage : option types.Usage;
  stopReason : StopReason }.

Definition newStreamReader (body : provider.Body) : streamReader :=
  {| body := body; response := None; done := false; id := ""; model := "";
     contentBlocks := []; currentBlock := 0; toolCalls := []; usage := None;
     stopReason := "" |}.

Definition set_body (s : streamReader) (b : provider.Body) : streamReader :=
  {| body := b; response := response s; done := done s; id := id s;
     model := model s; contentBlocks := contentBlocks s;
     currentBlock := currentBlock s; toolCalls := toolCalls s;
     usage := usage s; stopReason := stopReason s |}.

Definition set_start (s : streamReader) (id' model' : string) : streamReader :=
  {| body := body s; response := response s; done := done s; id := id';
     model := model'; contentBlocks := contentBlocks s;
     currentBlock := currentBlock s; toolCalls := toolCalls s;
     usage := usage s; stopReason := stopReason s |}.

Definition set_blocks (s : streamReader) (current : Z) (blocks : list types.ContentBlock)
    : streamReader :=
  {| body := body s; response := response s; done := done s; id := id s;
     model := model s; contentBlocks := blocks; currentBlock := current;
     toolCalls := toolCalls s; usage := usage s; stopReason := stopReason s |}.

Definition set_toolCalls (s : streamReader) (calls : list types.ToolCall) : streamReader :=
  {| body := body s; response := response s; done := done s; id := id s;
     model := model s; contentBlocks := contentBlocks s;
     currentBlock := currentBlock s; toolCalls := calls; usage := usage s;
     stopReason := stopReason s |}.

Definition set_stop (s : streamReader) (stop : StopReason) (usage' : option types.Usage)
    : streamReader :=
  {| body := body s; response := response s; done := done s; id := id s;
     model := model s; contentBlocks := contentBlocks s;
     currentBlock := currentBlock s; toolCalls := toolCalls s; usage := usage';
     stopReason := stop |}.

(** [streamReader.buildResponse]: the response it stores. *)
Definition buildResponse (s : streamReader) : CompletionResponse :=
  {| types.resp_ID := id s;
     resp_Provider := ProviderAnthropic;
     types.resp_Model := model s;
     types.resp_Content := contentBlocks s;
     types.resp_StopReason := stopReason s;
     types.resp_Usage := match usage s with Some u => u | None => Usage_zero end;
     resp_ToolCalls := toolCalls s |}.

(** [s.done = true; s.buildResponse()]. *)
Definition finish (s : streamReader) : streamReader :=
  {| body := body s; response := Some (buildResponse s); done := true;
     id := id s; model := model s; contentBlocks := contentBlocks s;
     currentBlock := currentBlock s; toolCalls := toolCalls s;
     usage := usage s; stopReason := stopReason s |}.

(** [for len(s.contentBlocks) <= index { s.contentBlocks = append(s.contentBlocks,
    types.ContentBlock{}) }]. *)
Definition ensureBlocks (blocks : list types.ContentBlock) (index : Z) : list types.ContentBlock :=
  blocks ++ replicate (Z.to_nat (index + 1) - length blocks) ContentBlock_zero.

Section reader.
Context `{!Unmarshal MessageStart} `{!Unmarshal ContentBlockStart}
        `{!Unmarshal ContentBlockDelta} `{!Unmarshal ContentBlockStop}
        `{!Unmarshal MessageDelta} `{!Unmarshal StreamError}.

(** [streamReader.processEvent]: the event, the [done] flag and the new
    state; [None] when the call panics on a negative slice index. *)
Definition processEvent (s : streamReader) (eventType data : string)
    : option (option StreamEvent * bool * streamReader) :=
  if String.eqb eventType "message_start" then
    match unmarshal (A:=MessageStart) data with
    | Some event =>
        let s := set_start s (resp_ID (ms_Message event)) (resp_Model (ms_Message event)) in
        Some (Some (StartEvent (id s) (model s)), false, s)
    | None => Some (None, false, s)
    end
  else if String.eqb eventType "content_block_start" then
    match unmarshal (A:=ContentBlockStart) data with
    | Some event =>
        let index := cbs_Index event in
        let blocks := ensureBlocks (contentBlocks s) index in
        if index <? 0 then None
        else if String.eqb (cb_Type (cbs_ContentBlock event)) "tool_use" then
          let b := ToolUseBlock (cb_ID (cbs_ContentBlock event))
                     (cb_Name (cbs_ContentBlock event)) JNull in
          Some (Some (ToolCallStartEvent
                        {| tc_ID := cb_ID (cbs_ContentBlock event);
                           tc_Name := cb_Name (cbs_ContentBlock event);
                           tc_Input := JNull |}),
                false,
                set_blocks s index (<[Z.to_nat index := b]> blocks))
        else
          Some (None, false,
                set_blocks s index (<[Z.to_nat index := TextBlock ""]> blocks))
    | None => Some (None, false, s)
    end
  else if String.eqb eventType "content_block_delta" then
    match unmarshal (A:=ContentBlockDelta) data with
    | Some event =>
        let index := cbd_Index event in
        if negb (String.eqb (d_Text (cbd_Delta event)) "") then
          if index <? len (contentBlocks s) then
            match (if index <? 0 then None else contentBlocks s !! Z.to_nat index) with
            | Some b =>
                Some (Some (ContentDeltaEvent (d_Text (cbd_Delta event)) index), false,
                      set_blocks s (currentBlock s)
                        (<[Z.to_nat index := append_Text b (d_Text (cbd_Delta event))]>
                           (contentBlocks s)))
            | None => None
            end
          else
            Some (Some (ContentDeltaEvent (d_Text (cbd_Delta event)) index), false, s)
        else if negb (String.eqb (d_PartialJSON (cbd_Delta event)) "") then
          Some (Some (ToolCallDeltaEvent (d_PartialJSON (cbd_Delta event)) index), false, s)
        else Some (None, false, s)
    | None => Some (None, false, s)
    end
  else if String.eqb eventType "content_block_stop" then
    match unmarshal (A:=ContentBlockStop) data with
    | Some event =>
        let index := cbp_Index event in
        if index <? len (contentBlocks s) then
          match (if index <? 0 then None else contentBlocks s !! Z.to_nat index) with
          | Some b =>
              if String.eqb (types.cb_Type b) ContentTypeToolUse then
                let tc := {| tc_ID := types.cb_ToolUseID b;
                             tc_Name := types.cb_ToolName b;
                             tc_Input := types.cb_ToolInput b |} in
                Some (Some (ToolCallEndEvent tc), false,
                      set_toolCalls s (toolCalls s ++ [tc]))
              else Some (None, false, s)
          | None => None
          end
        else Some (None, false, s)
    | None => Some (None, false, s)
    end
  else if String.eqb eventType "message_delta" then
    match unmarshal (A:=MessageDelta) data with
    | Some event =>
        let stop := transformStopReason (d_StopReason (mdl_Delta event)) in
        let usage' :=
          if 0 <? OutputTokens (mdl_Usage event)
          then Some {| types.InputTokens := 0;
                       types.OutputTokens := OutputTokens (mdl_Usage event);
                       TotalTokens := 0; CachedTokens := 0; ReasoningTokens := 0 |}
          else usage s in
        Some (None, false, set_stop s stop usage')
    | None => Some (None, false, s)
    end
  else if String.eqb eventType "message_stop" then
    Some (Some (DoneEvent (usage s) (stopReason s) (id s)), true, s)
  else if String.eqb eventType "error" then
    match unmarshal (A:=StreamError) data with
    | Some event =>
        Some (Some (ErrorEvent
                      (errors.ErrServerError ProviderAnthropic (ae_Message (se_Error event)))),
              true, s)
    | None => Some (None, false, s)
    end
  else Some (None, false, s).

(** What [Next] does once no complete line is left: [ReadString] hands back
    the error of the underlying reader. *)
Definition atEnd (s : streamReader) : NextResult * streamReader :=
  let s := set_body s {| provider.lines := []; provider.rest := "";
                          provider.rest_err := provider.rest_err (body s) |} in
  match provider.rest_err (body s) with
  | EOF => (Complete, finish s)
  | err => (Failed err, s)
  end.

(** The part of one turn of the loop after the [event:] line [line] and its
    data line [dataLine] were read; [continue] is the rest of the loop. *)
Definition handleEvent (s : streamReader) (line dataLine : string)
    (continue : streamReader -> NextResult * streamReader) : NextResult * streamReader :=
  let dataLine := TrimSpace dataLine in
  if negb (HasPrefix dataLine "data: ") then continue s
  else
    let data := TrimPrefix dataLine "data: " in
    let eventType := TrimPrefix line "event: " in
    match processEvent s eventType data with
    | None => (Panic, s)
    | Some (event, done, s) =>
        let s := if done then finish s else s in
        match event with
        | Some event => (Event event, s)
        | None => continue s
        end
    end.

Definition after (ls : list string) (s : streamReader) : streamReader :=
  set_body s {| provider.lines := ls; provider.rest := provider.rest (body s);
                provider.rest_err := provider.rest_err (body s) |}.

(** The [for] loop of [streamReader.Next]: one line per turn, and the line
    after it when the turn starts with an [event:] line. *)
Fixpoint readLoop (ls : list string) (s : streamReader) : NextResult * streamReader :=
  match ls with
  | [] => atEnd s
  | line :: ls' =>
      let line := TrimSpace line in
      if String.eqb line "" then readLoop ls' s
      else if HasPrefix line "event: " then
        match ls' with
        | dataLine :: ls'' =>
            handleEvent (after ls'' s) line dataLine (readLoop ls'')
        | [] =>
            match provider.rest_err (body s) with
            | EOF =>
                let dataLine := provider.rest (body s) in
                let s := set_body s {| provider.lines := []; provider.rest := "";
                                        provider.rest_err := EOF |} in
                handleEvent s line dataLine atEnd
            | err =>
                (Failed err,
                 set_body s {| provider.lines := []; provider.rest := "";
                               provider.rest_err := err |})
            end
        end
      else readLoop ls' s
  end.

(** [streamReader.Next]. *)
Definition Next (s : streamReader) : NextResult * streamReader :=
  if done s then (Complete, s)
  else readLoop (provider.lines (body s)) s.

(** [streamReader.Response]. *)
Definition Response (s : streamReader) : option CompletionResponse := response s.

#[global] Instance reader : StreamReader streamReader :=
  {| stream.Next := Next; stream.Response := Response |}.

End reader.

Record ErrorResponse : Type := {
  er_Type : string;
  er_Error : option APIError }.

(** [Client.handleErrorResponse], on the bytes read from the body and the
    status of the response. *)
Definition handleErrorResponse `{!Unmarshal ErrorResponse} (body : string) (statusCode : Z)
    : errors.RouterError :=
  match er_Error <$> unmarshal body with
  | Some (Some apiErr) => mapAPIError apiErr statusCode
  | _ => errors.WithStatusCode (errors.ErrServerError ProviderAnthropic body) statusCode
  end.

Record RequestCounts : Type := {
  rc_Processing : Z;
  rc_Succeeded : Z;
  rc_Errored : Z;
  rc_Canceled : Z;
  rc_Expired : Z }.

(** [BatchResponse]: the fields that [convertBatchJob] reads for the
    identifier, the status and the counts. *)
Record BatchResponse : Type := {
  br_ID : string;
  br_ProcessingStatus : string;
  br_RequestCounts : RequestCounts }.

(** [Client.convertBatchStatus]. *)
Definition convertBatchStatus (status : string) : provider.BatchStatus :=
  if String.eqb status "in_progress" then provider.BatchStatusInProgress
  else if String.eqb status "ended" then provider.BatchStatusCompleted
  else if String.eqb status "canceling" then provider.BatchStatusInProgress
  else provider.BatchStatusPending.

(** [Client.convertBatchJob], without the times and the metadata. *)
Definition convertBatchJob (batch : BatchResponse) : provider.BatchJob :=
  let counts := br_RequestCounts batch in
  let total :=
    wrap_int (wrap_int (wrap_int (wrap_int (rc_Processing counts + rc_Succeeded counts)
                                  + rc_Errored counts)
                        + rc_Canceled counts)
              + rc_Expired counts) in
  {| provider.bj_ID := br_ID batch;
     provider.bj_Provider := ProviderAnthropic;
     provider.bj_Status := convertBatchStatus (br_ProcessingStatus batch);
     provider.bj_RequestCounts :=
       {| provider.rc_Total := total;
          provider.rc_Completed := rc_Succeeded counts;
          provider.rc_Failed := wrap_int (rc_Errored counts + rc_Expired counts) |} |}.

End anthropic.

(** ** Package [google] *)

Module google.

Record InlineData : Type := {
  id_MimeType : string;
  id_Data : string }.

Record FileData : Type := {
  fd_MimeType : string;
  fd_FileURI : string }.

(** [Args] and [Response] are Go maps; [None] is the [nil] map. *)
Record FunctionCall : Type := {
  fc_Name : string;
  fc_Args : option (gmap string json) }.

Record FunctionResponse : Type := {
  fr_Name : string;
  fr_Response : option (gmap string json) }.

Record Part : Type := {
  Text : string;
  InlineData_ : option InlineData;
  FileData_ : option FileData;
  FunctionCall_ : option FunctionCall;
  FunctionResponse_ : option FunctionResponse }.

Record Content : Type := {
  Role : string;
  Parts : list Part }.

(** The fields of [GenerateContentRequest] that [transformMessages] fills;
    the generation config, the tools and the tool config are computed from
    other fields of the request and are not part of this embedding. *)
Record GenerateContentRequest : Type := {
  Contents : list Content;
  SystemInstruction : option Content }.

Record Candidate : Type := {
  cand_Content : option Content;
  cand_FinishReason : string;
  cand_Index : Z }.

Record UsageMetadata : Type := {
  PromptTokenCount : Z;
  CandidatesTokenCount : Z;
  TotalTokenCount : Z }.

Record StreamChunk : Type := {
  Candidates : list Candidate;
  UsageMetadata_ : option UsageMetadata }.

Record APIError : Type := {
  ae_Code : Z;
  ae_Message : string;
  ae_Status : string }.

(** [Client.SupportsFeature]. *)
Definition SupportsFeature (feature : Feature) : bool :=
  if String.eqb feature FeatureStreaming
     || String.eqb feature FeatureStructuredOutput
     || String.eqb feature FeatureTools
     || String.eqb feature FeatureVision
     || String.eqb feature FeatureJSON
  then true
  else if String.eqb feature FeatureBatch then true
  else false.

Definition Models : list string :=
  ["gemini-2.0-flash"; "gemini-2.0-flash-lite"; "gemini-1.5-pro";
   "gemini-1.5-flash"; "gemini-1.5-flash-8b"; "gemini-1.0-pro"].

Definition Client : provider.Provider :=
  {| provider.Name := ProviderGoogle;
     provider.SupportsFeature := SupportsFeature;
     provider.Models := Models |}.

(** [Transformer.mapRole]. *)
Definition mapRole (role : types.Role) : string :=
  if String.eqb role RoleUser || String.eqb role RoleTool then "user"
  else if String.eqb role RoleAssistant then "model"
  else "user".

(** [Part{Text: text}]. *)
Definition TextPart (text : string) : Part :=
  {| Text := text; InlineData_ := None; FileData_ := None;
     FunctionCall_ := None; FunctionResponse_ := None |}.

Section transformer.
Context `{!Unmarshal (option (gmap string json))}.

(** One turn of the loop of [Transformer.transformParts]. *)
Definition transformPart (b : ContentBlock) : list Part :=
  if String.eqb (cb_Type b) ContentTypeText then [TextPart (cb_Text b)]
  else if String.eqb (cb_Type b) ContentTypeImage then
    if negb (String.eqb (cb_ImageBase64 b) "") then
      [ {| Text := "";
           InlineData_ := Some {| id_MimeType := cb_MediaType b; id_Data := cb_ImageBase64 b |};
           FileData_ := None; FunctionCall_ := None; FunctionResponse_ := None |} ]
    else if negb (String.eqb (cb_ImageURL b) "") then
      [ {| Text := ""; InlineData_ := None;
           FileData_ := Some {| fd_MimeType := cb_MediaType b; fd_FileURI := cb_ImageURL b |};
           FunctionCall_ := None; FunctionResponse_ := None |} ]
    else []
  else if String.eqb (cb_Type b) ContentTypeToolUse then
    let args := as_map (Some (cb_ToolInput b)) in
    [ {| Text := ""; InlineData_ := None; FileData_ := None;
         FunctionCall_ := Some {| fc_Name := cb_ToolName b; fc_Args := args |};
         FunctionResponse_ := None |} ]
  else if String.eqb (cb_Type b) ContentTypeToolResult then
    let response :=
      match unmarshal (cb_Text b) with
      | Some response => response
      | None => Some {[ "result" := JStr (cb_Text b) ]}
      end in
    [ {| Text := ""; InlineData_ := None; FileData_ := None; FunctionCall_ := None;
         FunctionResponse_ := Some {| fr_Name := cb_ToolName b; fr_Response := response |} |} ]
  else [].

(** [Transformer.transformParts]. *)
Definition transformParts (blocks : list ContentBlock) : list Part :=
  concat (transformPart <$> blocks).

(** The parts that [transformMessages] collects from one system message. *)
Definition systemParts (blocks : list ContentBlock) : list Part :=
  concat ((fun b =>
             if String.eqb (cb_Type b) ContentTypeText then [TextPart (cb_Text b)] else [])
          <$> blocks).

(** The loop of [Transformer.transformMessages], with its two accumulators. *)
Fixpoint transformMessages_loop (messages : list Message)
    (contents : list Content) (systemInstruction : option Content)
    : list Content * option Content :=
  match messages with
  | [] => (contents, systemInstruction)
  | msg :: messages' =>
      if String.eqb (msg_Role msg) RoleSystem then
        let parts := systemParts (msg_Content msg) in
        let systemInstruction :=
          if 0 <? len parts
          then Some {| Role := ""; Parts := parts |}
          else systemInstruction in
        transformMessages_loop messages' contents systemInstruction
      else
        let content := {| Role := mapRole (msg_Role msg);
                          Parts := transformParts (msg_Content msg) |} in
        transformMessages_loop messages' (contents ++ [content]) systemInstruction
  end.

(** [Transformer.transformMessages]. *)
Definition transformMessages (messages : list Message) : list Content * option Content :=
  transformMessages_loop messages [] None.

(** [Transformer.TransformRequest], the two fields above. *)
Definition TransformRequest (req : CompletionRequest) : GenerateContentRequest :=
  let (contents, systemInstruction) := transformMessages (req_Messages req) in
  {| Contents := contents; SystemInstruction := systemInstruction |}.

End transformer.

(** [Transformer.transformStopReason]. *)
Definition transformStopReason (reason : string) : StopReason :=
  if String.eqb reason "STOP" then StopReasonEnd
  else if String.eqb reason "MAX_TOKENS" then StopReasonMaxTokens
  else if String.eqb reason "SAFETY" then StopReasonContentFilter
  else if String.eqb reason "RECITATION" then StopReasonContentFilter
  else if String.eqb reason "OTHER" then StopReasonEnd
  else StopReasonEnd.

(** [Client.mapAPIError]. *)
Definition mapAPIError (apiErr : APIError) (statusCode : Z) : errors.RouterError :=
  if statusCode =? 401 then
    errors.WithStatusCode (errors.ErrInvalidAPIKey ProviderGoogle) statusCode
  else if statusCode =? 429 then
    errors.WithStatusCode (errors.ErrRateLimit ProviderGoogle (ae_Message apiErr)) statusCode
  else if statusCode =? 404 then
    errors.WithStatusCode (errors.ErrModelNotFound ProviderGoogle (ae_Message apiErr)) statusCode
  else if statusCode =? 400 then
    if Contains (ae_Message apiErr) "context" || Contains (ae_Message apiErr) "token" then
      errors.WithStatusCode (errors.ErrContextLength ProviderGoogle (ae_Message apiErr)) statusCode
    else
      errors.WithStatusCode
        (errors.WithProvider (errors.ErrInvalidRequest (ae_Message apiErr)) ProviderGoogle)
        statusCode
  else
    errors.WithStatusCode (errors.ErrServerError ProviderGoogle (ae_Message apiErr)) statusCode.

(** A token of [json.Decoder.Token]: a delimiter or any other value. *)
Inductive Token : Type :=
| Delim (c : ascii)
| Value (v : json).

(** The three calls the reader makes on its [*json.Decoder], over the state
    [D] of the decoder.  The [error] of [Token] and [Decode] is the left
    summand. *)
Class Decoder (D : Type) := {
  dec_Token : D -> (error + Token) * D;
  dec_More : D -> bool;
  dec_Decode : D -> (error + StreamChunk) * D }.

Section reader.
Context {D : Type} `{!Decoder D}.

Record streamReader : Type := {
  decoder : D;
  model : string;
  response : option CompletionResponse;
  done : bool;
  arrayStarted : bool;
  content : list ContentBlock;
  toolCalls : list ToolCall;
  usage : option Usage;
  stopReason : StopReason;
  started : bool }.

Definition newStreamReader (body : D) (model : string) : streamReader :=
  {| decoder := body; model := model; response := None; done := false;
     arrayStarted := false; content := []; toolCalls := []; usage := None;
     stopReason := ""; started := false |}.

Definition set_decoder (s : streamReader) (d : D) : streamReader :=
  {| decoder := d; model := model s; response := response s; done := done s;
     arrayStarted := arrayStarted s; content := content s;
     toolCalls := toolCalls s; usage := usage s; stopReason := stopReason s;
     started := started s |}.

Definition set_started (s : streamReader) : streamReader :=
  {| decoder := decoder s; model := model s; response := response s;
     done := done s; arrayStarted := arrayStarted s; content := content s;
     toolCalls := toolCalls s; usage := usage s; stopReason := stopReason s;
     started := true |}.

Definition set_arrayStarted (s : streamReader) : streamReader :=
  {| decoder := decoder s; model := model s; response := response s;
     done := done s; arrayStarted := true; content := content s;
     toolCalls := toolCalls s; usage := usage s; stopReason := stopReason s;
     started := started s |}.

Definition set_meta (s : streamReader) (stop : StopReason) (usage' : option Usage)
    : streamReader :=
  {| decoder := decoder s; model := model s; response := response s;
     done := done s; arrayStarted := arrayStarted s; content := content s;
     toolCalls := toolCalls s; usage := usage'; stopReason := stop;
     started := started s |}.

Definition set_content (s : streamReader) (blocks : list ContentBlock)
    (calls : list ToolCall) : streamReader :=
  {| decoder := decoder s; model := model s; response := response s;
     done := done s; arrayStarted := arrayStarted s; content := blocks;
     toolCalls := calls; usage := usage s; stopReason := stopReason s;
     started := started s |}.

(** [streamReader.buildResponse]: the response it stores. *)
Definition buildResponse (s : streamReader) : CompletionResponse :=
  {| resp_ID := "";
     resp_Provider := ProviderGoogle;
     resp_Model := model s;
     resp_Content := content s;
     resp_StopReason := stopReason s;
     resp_Usage := match usage s with Some u => u | None => Usage_zero end;
     resp_ToolCalls := toolCalls s |}.

(** [s.done = true; s.buildResponse()] and the [Done] event returned next. *)
Definition finish (s : streamReader) : NextResult * streamReader :=
  (Event (DoneEvent (usage s) (stopReason s) ""),
   {| decoder := decoder s; model := model s;
      response := Some (buildResponse s); done := true;
      arrayStarted := arrayStarted s; content := content s;
      toolCalls := toolCalls s; usage := usage s; stopReason := stopReason s;
      started := started s |}).

(** The text accumulation of [processChunk]. *)
Definition appendText (blocks : list ContentBlock) (text : string) : list ContentBlock :=
  match last blocks with
  | Some b =>
      if String.eqb (cb_Type b) ContentTypeText
      then removelast blocks ++ [append_Text b text]
      else blocks ++ [TextBlock text]
  | None => blocks ++ [TextBlock text]
  end.

(** The loop over the parts in [processChunk]. *)
Fixpoint processParts (s : streamReader) (parts : list Part) : option StreamEvent * streamReader :=
  match parts with
  | [] => (None, s)
  | part :: parts' =>
      if negb (String.eqb (Text part) "") then
        (Some (ContentDeltaEvent (Text part) 0),
         set_content s (appendText (content s) (Text part)) (toolCalls s))
      else
        match FunctionCall_ part with
        | Some call =>
            let input := match fc_Args call with Some m => JObj m | None => JNull end in
            let tc := {| tc_ID := ""; tc_Name := fc_Name call; tc_Input := input |} in
            (Some (ToolCallStartEvent tc),
             set_content s (content s ++ [ToolUseBlock "" (fc_Name call) input])
               (toolCalls s ++ [tc]))
        | None => processParts s parts'
        end
  end.

(** [streamReader.processChunk]. *)
Definition processChunk (s : streamReader) (chunk : StreamChunk)
    : option StreamEvent * streamReader :=
  match Candidates chunk with
  | [] => (None, s)
  | candidate :: _ =>
      let stop :=
        if negb (String.eqb (cand_FinishReason candidate) "")
        then transformStopReason (cand_FinishReason candidate)
        else stopReason s in
      let usage' :=
        match UsageMetadata_ chunk with
        | Some u => Some {| InputTokens := PromptTokenCount u;
                            OutputTokens := CandidatesTokenCount u;
                            TotalTokens := TotalTokenCount u;
                            CachedTokens := 0; ReasoningTokens := 0 |}
        | None => usage s
        end in
      let s := set_meta s stop usage' in
      match cand_Content candidate with
      | None => (None, s)
      | Some content => processParts s (Parts content)
      end
  end.

(** The loop [for s.decoder.More()] of [Next], at most [fuel] turns of it. *)
Fixpoint decodeLoop (fuel : nat) (s : streamReader) : NextResult * streamReader :=
  match fuel with
  | O => (OutOfFuel, s)
  | S fuel' =>
      if dec_More (decoder s) then
        match dec_Decode (decoder s) with
        | (inl EOF, d) => finish (set_decoder s d)
        | (inl _, d) => decodeLoop fuel' (set_decoder s d)
        | (inr chunk, d) =>
            match processChunk (set_decoder s d) chunk with
            | (Some event, s') => (Event event, s')
            | (None, s') => decodeLoop fuel' s'
            end
        end
      else finish s
  end.

(** [streamReader.Next]. *)
Definition Next (fuel : nat) (s : streamReader) : NextResult * streamReader :=
  if done s then (Complete, s)
  else if negb (started s) then
    (Event (StartEvent "" (model s)), set_started s)
  else if negb (arrayStarted s) then
    match dec_Token (decoder s) with
    | (inl EOF, d) => finish (set_decoder s d)
    | (inl err, d) => (Failed err, set_decoder s d)
    | (inr (Delim c), d) =>
        if Ascii.eqb c "["%char
        then decodeLoop fuel (set_arrayStarted (set_decoder s d))
        else decodeLoop fuel (set_decoder s d)
    | (inr _, d) => decodeLoop fuel (set_decoder s d)
    end
  else decodeLoop fuel s.

(** [streamReader.Response]. *)
Definition Response (s : streamReader) : option CompletionResponse := response s.

#[global] Instance reader (fuel : nat) : StreamReader streamReader :=
  {| stream.Next := Next fuel; stream.Response := Response |}.

End reader.

Record ErrorResponse : Type := {
  er_Error : option APIError }.

(** [Client.handleErrorResponse], on the bytes read from the body and the
    status of the response. *)
Definition handleErrorResponse `{!Unmarshal ErrorResponse} (body : string) (statusCode : Z)
    : errors.RouterError :=
  match er_Error <$> unmarshal body with
  | Some (Some apiErr) => mapAPIError apiErr statusCode
  | _ => errors.WithStatusCode (errors.ErrServerError ProviderGoogle body) statusCode
  end.

Record StatusError : Type := {
  se_Code : Z;
  se_Message : string }.

(** [BatchMetadata] and [BatchJob]: the fields that [convertBatchStatus]
    reads. *)
Record BatchMetadata : Type := {
  bm_State : string }.

Record BatchJob : Type := {
  bj_Metadata : option BatchMetadata;
  bj_Done : bool;
  bj_Error : option StatusError }.

(** [Client.convertBatchStatus]. *)
Definition convertBatchStatus (batch : BatchJob) : provider.BatchStatus :=
  if bj_Done batch then
    match bj_Error batch with
    | Some _ => provider.BatchStatusFailed
    | None => provider.BatchStatusCompleted
    end
  else
    match bj_Metadata batch with
    | Some metadata =>
        let state := bm_State metadata in
        if String.eqb state "JOB_STATE_PENDING" || String.eqb state "BATCH_STATE_PENDING"
        then provider.BatchStatusPending
        else if String.eqb state "JOB_STATE_RUNNING" || String.eqb state "BATCH_STATE_RUNNING"
        then provider.BatchStatusInProgress
        else if String.eqb state "JOB_STATE_SUCCEEDED"
                || String.eqb state "BATCH_STATE_SUCCEEDED"
        then provider.BatchStatusCompleted
        else if String.eqb state "JOB_STATE_FAILED" || String.eqb state "BATCH_STATE_FAILED"
        then provider.BatchStatusFailed
        else if String.eqb state "JOB_STATE_CANCELLED"
                || String.eqb state "BATCH_STATE_CANCELLED"
        then provider.BatchStatusCancelled
        else if String.eqb state "JOB_STATE_EXPIRED" || String.eqb state "BATCH_STATE_EXPIRED"
        then provider.BatchStatusExpired
        else provider.BatchStatusPending
    | None => provider.BatchStatusPending
    end.

End google.

(** ** Package [router] *)

Module router.

Definition UnsupportedFeaturePolicy := string.
Definition PolicyError : UnsupportedFeaturePolicy := "error".
Definition PolicyWarn : UnsupportedFeaturePolicy := "warn".
Definition PolicyIgnore : UnsupportedFeaturePolicy := "ignore".

Record Config : Type := {
  OnUnsupportedFeature : UnsupportedFeaturePolicy;
  Debug : bool }.

(** The batch manager is left out: no operation below reads it. *)
Record Router : Type := {
  providers : gmap types.Provider provider.Provider;
  config : Config }.

(** The options of [New]. *)
Inductive Option : Type :=
| WithOpenAI (apiKey : string)
| WithAnthropic (apiKey : string)
| WithGoogle (apiKey : string)
| WithUnsupportedFeaturePolicy (policy : UnsupportedFeaturePolicy)
| WithDebug (debug : bool).

Definition apply (r : Router) (opt : Option) : Router :=
  match opt with
  | WithOpenAI _ =>
      {| providers := <[ProviderOpenAI := openai.Client]> (providers r); config := config r |}
  | WithAnthropic _ =>
      {| providers := <[ProviderAnthropic := anthropic.Client]> (providers r);
         config := config r |}
  | WithGoogle _ =>
      {| providers := <[ProviderGoogle := google.Client]> (providers r); config := config r |}
  | WithUnsupportedFeaturePolicy policy =>
      {| providers := providers r;
         config := {| OnUnsupportedFeature := policy; Debug := Debug (config r) |} |}
  | WithDebug debug =>
      {| providers := providers r;
         config := {| OnUnsupportedFeature := OnUnsupportedFeature (config r);
                      Debug := debug |} |}
  end.

(** [New]: [None] when no provider was configured. *)
Definition New (opts : list Option) : option Router :=
  let r := foldl apply
             {| providers := ∅;
                config := {| OnUnsupportedFeature := PolicyError; Debug := false |} |}
             opts in
  if decide (providers r = ∅) then None else Some r.

(** How a call of the router ends: with an error of its own, or by handing
    the request to the adapter's [Complete] or [Stream], which is where the
    HTTP request is issued. *)
Inductive outcome : Type :=
| Refused (err : errors.RouterError)
| CallComplete (p : provider.Provider) (req : CompletionRequest)
| CallStream (p : provider.Provider) (req : CompletionRequest).

(** [Router.getProvider]. *)
Definition getProvider (r : Router) (name : types.Provider)
    : errors.RouterError + provider.Provider :=
  match providers r !! name with
  | Some p => inr p
  | None => inl (errors.ErrProviderUnavailable name "provider not configured")
  end.

(** [Router.handleUnsupportedFeature]: [None] is the [nil] error. *)
Definition handleUnsupportedFeature (r : Router) (providerName : types.Provider)
    (feature : Feature) : option errors.RouterError :=
  let policy := OnUnsupportedFeature (config r) in
  if String.eqb policy PolicyError then
    Some (errors.ErrUnsupportedFeature providerName feature)
  else if String.eqb policy PolicyWarn then None
  else if String.eqb policy PolicyIgnore then None
  else Some (errors.ErrUnsupportedFeature providerName feature).

Definition hasImage (msg : Message) : bool :=
  existsb (fun b => String.eqb (cb_Type b) ContentTypeImage) (msg_Content msg).

(** The loop over the messages in [checkFeatureSupport]. *)
Fixpoint checkVision (r : Router) (p : provider.Provider) (messages : list Message)
    : option errors.RouterError :=
  match messages with
  | [] => None
  | msg :: messages' =>
      if hasImage msg then
        if negb (provider.SupportsFeature p FeatureVision)
        then handleUnsupportedFeature r (provider.Name p) FeatureVision
        else checkVision r p messages'
      else checkVision r p messages'
  end.

Definition formatIs (req : CompletionRequest) (type : string) : bool :=
  match req_ResponseFormat req with
  | Some rf => String.eqb (rf_Type rf) type
  | None => false
  end.

(** [Router.checkFeatureSupport]: [None] is the [nil] error. *)
Definition checkFeatureSupport (r : Router) (p : provider.Provider)
    (req : CompletionRequest) : option errors.RouterError :=
  if formatIs req "json_schema" && negb (provider.SupportsFeature p FeatureStructuredOutput)
  then handleUnsupportedFeature r (provider.Name p) FeatureStructuredOutput
  else if formatIs req "json" && negb (provider.SupportsFeature p FeatureJSON)
  then handleUnsupportedFeature r (provider.Name p) FeatureJSON
  else if (0 <? len (req_Tools req)) && negb (provider.SupportsFeature p FeatureTools)
  then handleUnsupportedFeature r (provider.Name p) FeatureTools
  else checkVision r p (req_Messages req).

(** [Router.Complete]. *)
Definition Complete (r : Router) (req : CompletionRequest) : outcome :=
  match getProvider r (req_Provider req) with
  | inl err => Refused err
  | inr p =>
      match checkFeatureSupport r p req with
      | Some err => Refused err
      | None => CallComplete p req
      end
  end.

(** [Router.Stream]. *)
Definition Stream (r : Router) (req : CompletionRequest) : outcome :=
  match getProvider r (req_Provider req) with
  | inl err => Refused err
  | inr p =>
      if negb (provider.SupportsFeature p FeatureStreaming) then
        Refused (errors.ErrUnsupportedFeature (req_Provider req) FeatureStreaming)
      else
        match checkFeatureSupport r p req with
        | Some err => Refused err
        | None => CallStream p req
        end
  end.

End router.

(** ** A reference reading of [net/url] for the worked URLs

    It reads the prefixes of the shape [https://host/path] whose host and
    path are made of letters, digits, [.], [-], [_] and [/], which [net/url]
    accepts, and refuses every other prefix; it quotes ASCII text as
    [strconv.Quote] does and takes the bytes above ASCII as printable. *)

Module refurl.

Definition is_alnum (c : ascii) : bool :=
  ((48 <=? code c) && (code c <=? 57))
  || ((97 <=? code c) && (code c <=? 122))
  || ((65 <=? code c) && (code c <=? 90)).

Definition host_char (c : ascii) : bool :=
  is_alnum c || (code c =? 45) || (code c =? 46).

Definition path_char (c : ascii) : bool :=
  host_char c || (code c =? 95) || (code c =? 47).

Fixpoint all_bytes (p : ascii -> bool) (s : string) : bool :=
  match s with
  | EmptyString => true
  | String c s' => p c && all_bytes p s'
  end.

Definition prefix_error (rest : string) : option string :=
  if HasPrefix rest "https://" then
    let '(host, path, _) := Cut (TrimPrefix rest "https://") "/" in
    if negb (String.eqb host "") && all_bytes host_char host && all_bytes path_char path
    then None
    else Some "not read by the reference syntax"
  else Some "not read by the reference syntax".

Definition hex_digit (n : Z) : ascii :=
  if n <? 10 then byte (48 + n) else byte (87 + n).

Definition quote_byte (c : ascii) : string :=
  let n := code c in
  if n =? 7 then "\a"
  else if n =? 8 then "\b"
  else if n =? 12 then "\f"
  else if n =? 10 then "\n"
  else if n =? 13 then "\r"
  else if n =? 9 then "\t"
  else if n =? 11 then "\v"
  else if n =? 92 then "\\"
  else if n =? 34 then String "\" (String c EmptyString)
  else if (n <? 32) || (n =? 127) then
    String "\" (String "x" (String (hex_digit (n / 16)) (String (hex_digit (n mod 16)) EmptyString)))
  else String c EmptyString.

Fixpoint quote_bytes (s : string) : string :=
  match s with
  | EmptyString => EmptyString
  | String c s' => quote_byte c ++ quote_bytes s'
  end.

Definition Quote (s : string) : string :=
  String (byte 34) (quote_bytes s ++ String (byte 34) EmptyString).

#[export] Instance syntax : url.Syntax :=
  {| url.prefix_error := prefix_error; url.Quote := Quote |}.

End refurl.

(** ** A reference reading of [encoding/json] for the worked transcripts

    The readers above are parametric in the decoder.  The transcripts
    evaluated below are decoded by this one: JSON texts whose numbers are
    integers and whose strings use the two-character escapes only; an object
    key is matched by its exact name, a missing or [null] field leaves the
    zero value, and a value of the wrong kind is an error. *)

Module refjson.

Definition is_digit (c : ascii) : bool := (48 <=? code c) && (code c <=? 57).

Fixpoint skip_ws (s : string) : string :=
  match s with
  | String c s' => if is_space c then skip_ws s' else s
  | EmptyString => EmptyString
  end.

(** The characters of a string literal after its opening quote. *)
Fixpoint string_body (s : string) : option (string * string) :=
  match s with
  | EmptyString => None
  | String c s' =>
      if code c =? 34 then Some (EmptyString, s')
      else if code c =? 92 then
        match s' with
        | String e s'' =>
            let unescaped :=
              if code e =? 34 then Some (byte 34)
              else if code e =? 92 then Some (byte 92)
              else if code e =? 47 then Some (byte 47)
              else if code e =? 98 then Some (byte 8)
              else if code e =? 102 then Some (byte 12)
              else if code e =? 110 then Some (byte 10)
              else if code e =? 114 then Some (byte 13)
              else if code e =? 116 then Some (byte 9)
              else None in
            match unescaped, string_body s'' with
            | Some u, Some (t, r) => Some (String u t, r)
            | _, _ => None
            end
        | EmptyString => None
        end
      else match string_body s' with
           | Some (t, r) => Some (String c t, r)
           | None => None
           end
  end.

Fixpoint digits (acc : Z) (s : string) : Z * string :=
  match s with
  | String c s' => if is_digit c then digits (acc * 10 + (code c - 48)) s' else (acc, s)
  | EmptyString => (acc, s)
  end.

(** An integer literal; a fraction or an exponent is outside this reading. *)
Definition number (s : string) : option (Z * string) :=
  let (neg, s1) :=
    match s with
    | String c s' => if code c =? 45 then (true, s') else (false, s)
    | EmptyString => (false, s)
    end in
  match s1 with
  | String c _ =>
      if is_digit c then
        let (n, r) := digits 0 s1 in
        match r with
        | String d _ =>
            if (code d =? 46) || (code d =? 101) || (code d =? 69) then None
            else Some (if neg then - n else n, r)
        | EmptyString => Some (if neg then - n else n, r)
        end
      else None
  | EmptyString => None
  end.

Definition expect (lit : string) (s : string) : option string :=
  if String.prefix lit s
  then Some (String.substring (String.length lit) (String.length s - String.length lit) s)
  else None.

Fixpoint value (fuel : nat) (s : string) : option (json * string) :=
  match fuel with
  | O => None
  | S fuel' =>
      match skip_ws s with
      | EmptyString => None
      | String c s' =>
          if code c =? 110 then (fun r => (JNull, r)) <$> expect "ull" s'
          else if code c =? 116 then (fun r => (JBool true, r)) <$> expect "rue" s'
          else if code c =? 102 then (fun r => (JBool false, r)) <$> expect "alse" s'
          else if code c =? 34 then
            match string_body s' with
            | Some (t, r) => Some (JStr t, r)
            | None => None
            end
          else if code c =? 91 then
            match skip_ws s' with
            | String d r =>
                if code d =? 93 then Some (JArr [], r)
                else (fun '(l, r) => (JArr l, r)) <$> elements fuel' s'
            | EmptyString => None
            end
          else if code c =? 123 then
            match skip_ws s' with
            | String d r =>
                if code d =? 125 then Some (JObj ∅, r)
                else (fun '(m, r) => (JObj m, r)) <$> members fuel' s'
            | EmptyString => None
            end
          else
            match number (String c s') with
            | Some (n, r) => Some (JNum (inject_Z n), r)
            | None => None
            end
      end
  end
with elements (fuel : nat) (s : string) : option (list json * string) :=
  match fuel with
  | O => None
  | S fuel' =>
      match value fuel' s with
      | Some (v, r) =>
          match skip_ws r with
          | String c r' =>
              if code c =? 44 then (fun '(l, r) => (v :: l, r)) <$> elements fuel' r'
              else if code c =? 93 then Some ([v], r')
              else None
          | EmptyString => None
          end
      | None => None
      end
  end
with members (fuel : nat) (s : string) : option (gmap string json * string) :=
  match fuel with
  | O => None
  | S fuel' =>
      match skip_ws s with
      | String q s1 =>
          if code q =? 34 then
            match string_body s1 with
            | Some (key, r) =>
                match skip_ws r with
                | String c r1 =>
                    if code c =? 58 then
                      match value fuel' r1 with
                      | Some (v, r2) =>
                          match skip_ws r2 with
                          | String d r3 =>
                              if code d =? 44 then
                                (* a later member of the same name wins *)
                                (fun '(m, r) => (m ∪ {[ key := v ]}, r)) <$> members fuel' r3
                              else if code d =? 125 then Some ({[ key := v ]}, r3)
                              else None
                          | EmptyString => None
                          end
                      | None => None
                      end
                    else None
                | EmptyString => None
                end
            | None => None
            end
          else None
      | EmptyString => None
      end
  end.

(** A whole text: one value and nothing but white space after it. *)
Definition parse (s : string) : option json :=
  match value (S (String.length s)) s with
  | Some (v, r) => if String.eqb (skip_ws r) "" then Some v else None
  | None => None
  end.

#[export] Instance unmarshal_json : Unmarshal json := parse.

(** Reading the fields of a struct out of a decoded object. *)
Definition field {A} (m : gmap string json) (key : string) (zero : A)
    (read : json -> option A) : option A :=
  match m !! key with
  | None | Some JNull => Some zero
  | Some v => read v
  end.

Definition string_ (v : json) : option string :=
  match v with JStr s => Some s | _ => None end.

Definition int_ (v : json) : option Z :=
  match v with
  | JNum q => if (Qden q =? 1)%positive then Some (Qnum q) else None
  | _ => None
  end.

Definition object_ {A} (read : gmap string json -> option A) (v : json) : option A :=
  match v with JObj m => read m | _ => None end.

Definition slice_ {A} (read : json -> option A) (v : json) : option (list A) :=
  match v with JArr l => mapM read l | _ => None end.

Definition any_ (v : json) : option json := Some v.

(** [json.Unmarshal] into a struct: the text must hold an object ([null]
    leaves the struct at its zero value). *)
Definition struct_ {A} (zero : A) (read : gmap string json -> option A) (s : string) : option A :=
  match parse s with
  | Some (JObj m) => read m
  | Some JNull => Some zero
  | _ => None
  end.

#[export] Instance unmarshal_map : Unmarshal (option (gmap string json)) :=
  fun s =>
    match parse s with
    | Some (JObj m) => Some (Some m)
    | Some JNull => Some None
    | _ => None
    end.

(** The iteration order of [range] used for the worked transcripts. *)
#[export] Instance range_sorted : MapRange :=
  {| range := fun A m => map_to_list m;
     range_perm := fun A m => reflexivity (map_to_list m) |}.

(** The structs of package [openai]. *)
Definition openai_Usage (m : gmap string json) : option openai.Usage :=
  p ← field m "prompt_tokens" 0 int_;
  c ← field m "completion_tokens" 0 int_;
  t ← field m "total_tokens" 0 int_;
  Some {| openai.PromptTokens := p; openai.CompletionTokens := c;
          openai.TotalTokens := t; openai.PromptTokensDetails_ := None;
          openai.CompletionTokensDetails_ := None |}.

Definition openai_FunctionCall_zero : openai.FunctionCall :=
  {| openai.fc_Name := ""; openai.fc_Arguments := "" |}.

Definition openai_FunctionCall (m : gmap string json) : option openai.FunctionCall :=
  n ← field m "name" "" string_;
  a ← field m "arguments" "" string_;
  Some {| openai.fc_Name := n; openai.fc_Arguments := a |}.

Definition openai_ToolCall (m : gmap string json) : option openai.ToolCall :=
  i ← field m "id" "" string_;
  t ← field m "type" "" string_;
  f ← field m "function" openai_FunctionCall_zero (object_ openai_FunctionCall);
  x ← field m "index" None (fun v => Some <$> int_ v);
  Some {| openai.tc_ID := i; openai.tc_Type := t; openai.tc_Function := f;
          openai.tc_Index := x |}.

Definition openai_MessageDelta_zero : openai.MessageDelta :=
  {| openai.md_Role := ""; openai.md_Content := ""; openai.md_ToolCalls := [] |}.

Definition openai_MessageDelta (m : gmap string json) : option openai.MessageDelta :=
  r ← field m "role" "" string_;
  c ← field m "content" "" string_;
  t ← field m "tool_calls" [] (slice_ (object_ openai_ToolCall));
  Some {| openai.md_Role := r; openai.md_Content := c; openai.md_ToolCalls := t |}.

Definition openai_StreamChoice (m : gmap string json) : option openai.StreamChoice :=
  i ← field m "index" 0 int_;
  d ← field m "delta" openai_MessageDelta_zero (object_ openai_MessageDelta);
  f ← field m "finish_reason" "" string_;
  l ← field m "logprobs" JNull any_;
  Some {| openai.sc_Index := i; openai.sc_Delta := d; openai.sc_FinishReason := f;
          openai.sc_Logprobs := l |}.

Definition openai_StreamChunk_zero : openai.StreamChunk :=
  {| openai.ch_ID := ""; openai.ch_Object := ""; openai.ch_Created := 0;
     openai.ch_Model := ""; openai.ch_Choices := []; openai.ch_Usage := None;
     openai.ch_SystemFingerprint := "" |}.

Definition openai_StreamChunk (m : gmap string json) : option openai.StreamChunk :=
  i ← field m "id" "" string_;
  o ← field m "object" "" string_;
  c ← field m "created" 0 int_;
  d ← field m "model" "" string_;
  h ← field m "choices" [] (slice_ (object_ openai_StreamChoice));
  u ← field m "usage" None (fun v => Some <$> object_ openai_Usage v);
  f ← field m "system_fingerprint" "" string_;
  Some {| openai.ch_ID := i; openai.ch_Object := o; openai.ch_Created := c;
          openai.ch_Model := d; openai.ch_Choices := h; openai.ch_Usage := u;
          openai.ch_SystemFingerprint := f |}.

#[export] Instance unmarshal_openai_StreamChunk : Unmarshal openai.StreamChunk :=
  struct_ openai_StreamChunk_zero openai_StreamChunk.

(** The structs of package [anthropic]. *)
Definition anthropic_Usage_zero : anthropic.Usage :=
  {| anthropic.InputTokens := 0; anthropic.OutputTokens := 0;
     anthropic.CacheCreationInputTokens := 0; anthropic.CacheReadInputTokens := 0 |}.

Definition anthropic_Usage (m : gmap string json) : option anthropic.Usage :=
  i ← field m "input_tokens" 0 int_;
  o ← field m "output_tokens" 0 int_;
  c ← field m "cache_creation_input_tokens" 0 int_;
  r ← field m "cache_read_input_tokens" 0 int_;
  Some {| anthropic.InputTokens := i; anthropic.OutputTokens := o;
          anthropic.CacheCreationInputTokens := c;
          anthropic.CacheReadInputTokens := r |}.

Definition anthropic_ImageSource (m : gmap string json) : option anthropic.ImageSource :=
  t ← field m "type" "" string_;
  e ← field m "media_type" "" string_;
  d ← field m "data" "" string_;
  u ← field m "url" "" string_;
  Some {| anthropic.is_Type := t; anthropic.is_MediaType := e;
          anthropic.is_Data := d; anthropic.is_URL := u |}.

Definition anthropic_ContentBlock (m : gmap string json) : option anthropic.ContentBlock :=
  t ← field m "type" "" string_;
  x ← field m "text" "" string_;
  s ← field m "source" None (fun v => Some <$> object_ anthropic_ImageSource v);
  i ← field m "id" "" string_;
  n ← field m "name" "" string_;
  p ← field m "input" JNull any_;
  u ← field m "tool_use_id" "" string_;
  c ← field m "content" JNull any_;
  e ← field m "is_error" false (fun v => match v with JBool b => Some b | _ => None end);
  Some {| anthropic.cb_Type := t; anthropic.cb_Text := x; anthropic.cb_Source := s;
          anthropic.cb_ID := i; anthropic.cb_Name := n; anthropic.cb_Input := p;
          anthropic.cb_ToolUseID := u; anthropic.cb_Content := c;
          anthropic.cb_IsError := e |}.

Definition anthropic_MessagesResponse_zero : anthropic.MessagesResponse :=
  {| anthropic.resp_ID := ""; anthropic.resp_Type := ""; anthropic.resp_Role := "";
     anthropic.resp_Content := []; anthropic.resp_Model := "";
     anthropic.resp_StopReason := ""; anthropic.resp_StopSequence := "";
     anthropic.resp_Usage := anthropic_Usage_zero |}.

Definition anthropic_MessagesResponse (m : gmap string json) : option anthropic.MessagesResponse :=
  i ← field m "id" "" string_;
  t ← field m "type" "" string_;
  r ← field m "role" "" string_;
  c ← field m "content" [] (slice_ (object_ anthropic_ContentBlock));
  d ← field m "model" "" string_;
  s ← field m "stop_reason" "" string_;
  q ← field m "stop_sequence" "" string_;
  u ← field m "usage" anthropic_Usage_zero (object_ anthropic_Usage);
  Some {| anthropic.resp_ID := i; anthropic.resp_Type := t; anthropic.resp_Role := r;
          anthropic.resp_Content := c; anthropic.resp_Model := d;
          anthropic.resp_StopReason := s; anthropic.resp_StopSequence := q;
          anthropic.resp_Usage := u |}.

Definition anthropic_Delta_zero : anthropic.Delta :=
  {| anthropic.d_Type := ""; anthropic.d_Text := ""; anthropic.d_PartialJSON := "";
     anthropic.d_StopReason := ""; anthropic.d_StopSequence := "" |}.

Definition anthropic_Delta (m : gmap string json) : option anthropic.Delta :=
  t ← field m "type" "" string_;
  x ← field m "text" "" string_;
  p ← field m "partial_json" "" string_;
  s ← field m "stop_reason" "" string_;
  q ← field m "stop_sequence" "" string_;
  Some {| anthropic.d_Type := t; anthropic.d_Text := x; anthropic.d_PartialJSON := p;
          anthropic.d_StopReason := s; anthropic.d_StopSequence := q |}.

Definition anthropic_APIError (m : gmap string json) : option anthropic.APIError :=
  t ← field m "type" "" string_;
  x ← field m "message" "" string_;
  Some {| anthropic.ae_Type := t; anthropic.ae_Message := x |}.

#[export] Instance unmarshal_MessagesResponse : Unmarshal anthropic.MessagesResponse :=
  struct_ anthropic_MessagesResponse_zero anthropic_MessagesResponse.

#[export] Instance unmarshal_MessageStart : Unmarshal anthropic.MessageStart :=
  struct_ {| anthropic.ms_Message := anthropic_MessagesResponse_zero |}
    (fun m =>
       r ← field m "message" anthropic_MessagesResponse_zero
             (object_ anthropic_MessagesResponse);
       Some {| anthropic.ms_Message := r |}).

#[export] Instance unmarshal_ContentBlockStart : Unmarshal anthropic.ContentBlockStart :=
  struct_ {| anthropic.cbs_Index := 0; anthropic.cbs_ContentBlock := anthropic.block "" |}
    (fun m =>
       i ← field m "index" 0 int_;
       b ← field m "content_block" (anthropic.block "") (object_ anthropic_ContentBlock);
       Some {| anthropic.cbs_Index := i; anthropic.cbs_ContentBlock := b |}).

#[export] Instance unmarshal_ContentBlockDelta : Unmarshal anthropic.ContentBlockDelta :=
  struct_ {| anthropic.cbd_Index := 0; anthropic.cbd_Delta := anthropic_Delta_zero |}
    (fun m =>
       i ← field m "index" 0 int_;
       d ← field m "delta" anthropic_Delta_zero (object_ anthropic_Delta);
       Some {| anthropic.cbd_Index := i; anthropic.cbd_Delta := d |}).

#[export] Instance unmarshal_ContentBlockStop : Unmarshal anthropic.ContentBlockStop :=
  struct_ {| anthropic.cbp_Index := 0 |}
    (fun m =>
       i ← field m "index" 0 int_;
       Some {| anthropic.cbp_Index := i |}).

#[export] Instance unmarshal_MessageDelta : Unmarshal anthropic.MessageDelta :=
  struct_ {| anthropic.mdl_Delta := anthropic_Delta_zero;
             anthropic.mdl_Usage := anthropic_Usage_zero |}
    (fun m =>
       d ← field m "delta" anthropic_Delta_zero (object_ anthropic_Delta);
       u ← field m "usage" anthropic_Usage_zero (object_ anthropic_Usage);
       Some {| anthropic.mdl_Delta := d; anthropic.mdl_Usage := u |}).

#[export] Instance unmarshal_StreamError : Unmarshal anthropic.StreamError :=
  struct_ {| anthropic.se_Error := {| anthropic.ae_Type := ""; anthropic.ae_Message := "" |} |}
    (fun m =>
       e ← field m "error" {| anthropic.ae_Type := ""; anthropic.ae_Message := "" |}
             (object_ anthropic_APIError);
       Some {| anthropic.se_Error := e |}).

(** A [json.Decoder] over a body that holds a well-formed array of chunks:
    whether the opening bracket was read, and the elements still to come. *)
Record ArrayDecoder : Type := {
  opened : bool;
  elems : list google.StreamChunk }.

#[export] Instance array_decoder : google.Decoder ArrayDecoder :=
  {| google.dec_Token := fun d =>
       if opened d then
         match elems d with
         | [] => (inr (google.Delim "]"%char), d)
         | _ => (inr (google.Delim "{"%char), d)
         end
       else (inr (google.Delim "["%char), {| opened := true; elems := elems d |});
     google.dec_More := fun d =>
       match elems d with [] => false | _ => true end;
     google.dec_Decode := fun d =>
       match elems d with
       | [] => (inl EOF, d)
       | chunk :: rest => (inr chunk, {| opened := opened d; elems := rest |})
       end |}.

End refjson.

(** ** Worked inputs *)

Module samples.
Import refjson.
Import refurl.

(** A person with a list of addresses, each an object. *)
Definition person_schema : JSONSchema :=
  object_schema
    {[ "name" := typed_schema "string";
       "addresses" :=
         array_schema (object_schema {[ "city" := typed_schema "string" ]} ["city"]) ]}
    ["name"].

(** [types.JSONSchema{Type: "object", Minimum: &nan}] with [nan := math.NaN()]. *)
Definition nan_schema : JSONSchema :=
  mkJSONSchema "object" "" ∅ None [] [] VNil None None None (Some NaN) None None None
    "" "" VNil [] [] [] "" ∅.

(** [s := &types.JSONSchema{Type: "object"}; s.Items = s]: a schema that is
    its own item. *)
Definition self_schema : JSONSchema :=
  mkJSONSchema "object" "" ∅ (Some (inl 0%nat)) [] [] VNil None None None None None
    None None "" "" VNil [] [] [] "" ∅.

(** [types.JSONSchema{Type: "object", AdditionalProperties: &yes}] with
    [yes := true]. *)
Definition open_schema : JSONSchema :=
  mkJSONSchema "object" "" ∅ None [] [] VNil (Some true) None None None None None None
    "" "" VNil [] [] [] "" ∅.

(** An object whose one property, an object, has the name ["\xff"], which
    is not valid UTF-8. *)
Definition renamed_schema : JSONSchema :=
  object_schema {[ String (byte 255) "" := object_schema ∅ [] ]} [].

(** A request with no options set. *)
Definition request (provider : types.Provider) (model : string) (messages : list Message)
    : CompletionRequest :=
  {| req_Provider := provider; req_Model := model; req_Messages := messages;
     req_MaxTokens := None; req_Temperature := None; req_TopP := None;
     req_TopK := None; req_StopSequences := []; req_ResponseFormat := None;
     req_Tools := []; req_ToolChoice := None; req_Stream := false;
     req_Extra := ∅ |}.

(** Two system messages and a user message, as in the adapter's test
    [TestTransformRequest_MultipleSystemMessages]. *)
Definition two_system_messages (provider : types.Provider) : CompletionRequest :=
  request provider "m"
    [NewTextMessage RoleSystem "Line 1";
     NewTextMessage RoleSystem "Line 2";
     NewTextMessage RoleUser "Hello"].

(** A request that asks for the plain JSON mode. *)
Definition json_request (provider : types.Provider) : CompletionRequest :=
  {| req_Provider := provider; req_Model := "m";
     req_Messages := [NewTextMessage RoleUser "Reply in JSON"];
     req_MaxTokens := None; req_Temperature := None; req_TopP := None;
     req_TopK := None; req_StopSequences := [];
     req_ResponseFormat :=
       Some {| rf_Type := "json"; rf_Schema := None; rf_Name := "";
               rf_Description := ""; rf_Strict := None |};
     req_Tools := []; req_ToolChoice := None; req_Stream := false;
     req_Extra := ∅ |}.

(** Listing options with a limit one past [unicode.MaxRune]. *)
Definition limit_past_MaxRune : provider.ListBatchOptions :=
  {| provider.Limit := 1114112; provider.After := "" |}.

(** Listing options with the page sizes 10 and 35, and a cursor. *)
Definition limit_10 : provider.ListBatchOptions :=
  {| provider.Limit := 10; provider.After := "" |}.

Definition limit_35 : provider.ListBatchOptions :=
  {| provider.Limit := 35; provider.After := "batch_abc" |}.

Definition limit_65 : provider.ListBatchOptions :=
  {| provider.Limit := 65; provider.After := "batch_abc" |}.

(** An OpenAI stream: one text chunk, the closing chunk, the sentinel. *)
Definition openai_hello : string := dq
"data: {'id':'chatcmpl-1','model':'gpt-4o','choices':[{'index':0,'delta':{'role':'assistant','content':'Hi'},'finish_reason':null}]}

data: {'id':'chatcmpl-1','model':'gpt-4o','choices':[{'index':0,'delta':{},'finish_reason':'stop'}],'usage':{'prompt_tokens':9,'completion_tokens':1,'total_tokens':10}}

data: [DONE]

".

(** An Anthropic stream with one tool call whose arguments arrive in two
    fragments. *)
Definition anthropic_weather : string := dq
"event: message_start
data: {'type':'message_start','message':{'id':'msg_1','type':'message','role':'assistant','model':'claude-3-5-haiku-20241022','content':[],'stop_reason':null,'usage':{'input_tokens':10,'output_tokens':1}}}

event: content_block_start
data: {'type':'content_block_start','index':0,'content_block':{'type':'tool_use','id':'toolu_1','name':'get_weather','input':{}}}

event: content_block_delta
data: {'type':'content_block_delta','index':0,'delta':{'type':'input_json_delta','partial_json':'{\'location\':'}}

event: content_block_delta
data: {'type':'content_block_delta','index':0,'delta':{'type':'input_json_delta','partial_json':' \'Paris\'}'}}

event: content_block_stop
data: {'type':'content_block_stop','index':0}

event: message_delta
data: {'type':'message_delta','delta':{'stop_reason':'tool_use'},'usage':{'output_tokens':5}}

event: message_stop
data: {'type':'message_stop'}

".

(** An Anthropic stream with one text block. *)
Definition anthropic_hello : string := dq
"event: message_start
data: {'type':'message_start','message':{'id':'msg_2','type':'message','role':'assistant','model':'claude-3-5-haiku-20241022','content':[],'stop_reason':null,'usage':{'input_tokens':10,'output_tokens':1}}}

event: content_block_start
data: {'type':'content_block_start','index':0,'content_block':{'type':'text','text':''}}

event: content_block_delta
data: {'type':'content_block_delta','index':0,'delta':{'type':'text_delta','text':'Hello'}}

event: content_block_stop
data: {'type':'content_block_stop','index':0}

event: message_delta
data: {'type':'message_delta','delta':{'stop_reason':'end_turn'},'usage':{'output_tokens':5}}

event: message_stop
data: {'type':'message_stop'}

".

(** The body the non-streaming endpoint returns for the same message. *)
Definition anthropic_hello_message : string := dq
"{'id':'msg_2','type':'message','role':'assistant','model':'claude-3-5-haiku-20241022','content':[{'type':'text','text':'Hello'}],'stop_reason':'end_turn','usage':{'input_tokens':10,'output_tokens':5}}".

(** A Google stream of two text chunks. *)
Definition google_hello : ArrayDecoder :=
  {| opened := false;
     elems :=
       [ {| google.Candidates :=
              [ {| google.cand_Content :=
                     Some {| google.Role := "model"; google.Parts := [google.TextPart "Hel"] |};
                   google.cand_FinishReason := ""; google.cand_Index := 0 |} ];
            google.UsageMetadata_ := None |};
         {| google.Candidates :=
              [ {| google.cand_Content :=
                     Some {| google.Role := "model"; google.Parts := [google.TextPart "lo"] |};
                   google.cand_FinishReason := "STOP"; google.cand_Index := 0 |} ];
            google.UsageMetadata_ :=
              Some {| google.PromptTokenCount := 4; google.CandidatesTokenCount := 2;
                      google.TotalTokenCount := 6 |} |} ] |}.

(** The readers over these bodies, and what they return when drained. *)
Definition openai_hello_reader : openai.streamReader :=
  openai.newStreamReader (provider.Body_of openai_hello).

Definition openai_hello_run : list NextResult := fst (drain 4 openai_hello_reader).

Definition anthropic_weather_reader : anthropic.streamReader :=
  anthropic.newStreamReader (provider.Body_of anthropic_weather).

Definition anthropic_weather_run : list NextResult := fst (drain 8 anthropic_weather_reader).

Definition anthropic_weather_response : option CompletionResponse :=
  Response (snd (drain 8 anthropic_weather_reader)).

Definition anthropic_hello_reader : anthropic.streamReader :=
  anthropic.newStreamReader (provider.Body_of anthropic_hello).

Definition anthropic_hello_streamed : option CompletionResponse :=
  Response (snd (drain 5 anthropic_hello_reader)).

Definition anthropic_hello_complete : option CompletionResponse :=
  anthropic.TransformResponse (unmarshal anthropic_hello_message).

Definition google_hello_reader : google.streamReader :=
  google.newStreamReader google_hello "gemini-2.0-flash".

(** The turns granted to the decoding loop of the Google reader. *)
Definition fuel : nat := 8.

Definition google_next : google.streamReader -> NextResult * google.streamReader :=
  Next (StreamReader := google.reader fuel).

End samples.

(** ** Notions used to state the properties *)

(** The texts of the text blocks of the system messages, in message order. *)
Definition system_texts (messages : list Message) : list string :=
  concat ((fun msg =>
             if String.eqb (msg_Role msg) RoleSystem
             then omap (fun b => if String.eqb (types.cb_Type b) ContentTypeText
                                 then Some (types.cb_Text b) else None)
                       (msg_Content msg)
             else []) <$> messages).

(** What the Anthropic loop computes: every text is appended, after a
    newline when something was collected before it. *)
Definition join_onto (system : string) (texts : list string) : string :=
  foldl (fun acc t => (if negb (String.eqb acc "") then acc ++ LF else acc) ++ t)
    system texts.

(** The table of section 4.6, with the substring test as a parameter. *)
Definition status_code (status : Z) (context_signal : bool) : string :=
  if status =? 401 then errors.ErrCodeInvalidAPIKey
  else if status =? 429 then errors.ErrCodeRateLimit
  else if status =? 404 then errors.ErrCodeModelNotFound
  else if status =? 400 then
    if context_signal then errors.ErrCodeContextLength else errors.ErrCodeInvalidRequest
  else errors.ErrCodeServerError.

(** Options of [router.New] that set the policy, or add the Anthropic adapter. *)
Definition sets_policy (opt : router.Option) : bool :=
  match opt with router.WithUnsupportedFeaturePolicy _ => true | _ => false end.

Definition adds_anthropic (opt : router.Option) : bool :=
  match opt with router.WithAnthropic _ => true | _ => false end.

(** What [ToMap] makes of a place for a sub-schema, and whether the names
    below it are valid. *)
Definition sub_schema (x : nat + JSONSchema) : option json :=
  match x with
  | inl _ => None
  | inr s' => JObj <$> schema.remarshal_schema s'
  end.

Definition sub_names (x : nat + JSONSchema) : bool :=
  match x with
  | inl _ => true
  | inr s' => schema.valid_names s'
  end.

(** The reading of C2 as it is worded: the strict translation of [S] is a
    map; at every path of keywords that leads in [S] to a sub-schema of type
    [object], the map holds an object with [additionalProperties: false];
    and the pass run on the map again changes nothing. *)
Definition strictly_translated (S : JSONSchema) : Prop :=
  exists out,
    schema.prepareOpenAISchema (Some S) = Some out
    /\ (forall path S',
          schema.reach S path = Some S' ->
          js_Type S' = "object" ->
          exists m, schema.reach_map out path = Some m
                    /\ m !! "additionalProperties" = Some (JBool false))
    /\ schema.addAdditionalPropertiesFalse out = out.

(** The cursor parameter that [ListBatches] appends after the limit. *)
Definition after_param (name : string) (opts : provider.ListBatchOptions) : string :=
  if String.eqb (provider.After opts) "" then ""
  else "&" ++ name ++ "=" ++ provider.After opts.

(** Whether a byte occurs in a text. *)
Fixpoint has_byte (c : ascii) (s : string) : bool :=
  match s with
  | EmptyString => false
  | String b s' => Ascii.eqb b c || has_byte c s'
  end.

(** A text that [url.Parse] neither cuts nor refuses for its bytes: no
    control character, no [#] and no [?]. *)
Definition plain (s : string) : bool :=
  negb (url.stringContainsCTLByte s) && negb (has_byte "#" s) && negb (has_byte "?" s).

(** The code points that [string(rune(x))] writes as an ASCII control
    character. *)
Definition is_ctl_rune (r : Z) : bool :=
  ((0 <=? r) && (r <? 32)) || (r =? 127).

(** The reading of C9 as it is worded: the request is made, and in its URL
    [limit=] is followed by one character, whose code point is the limit. *)
Definition limit_is_one_code_point `{!url.Syntax} (baseURL : string)
    (opts : provider.ListBatchOptions) : Prop :=
  exists u s,
    openai.ListBatches (Some http.Background) baseURL (Some opts) = inr u
    /\ url.RawQuery u = "limit=" ++ s ++ after_param "after" opts
    /\ utf8_decode s = Some [provider.Limit opts].

(** A result after which a stream is over: "stream complete", or the [Done]
    event. *)
Definition terminal (r : NextResult) : Prop :=
  r = Complete \/ exists e, r = Event e /\ ev_Type e = StreamEventDone.

(** Every further call of [Next] answers "stream complete". *)
Definition complete_from {R : Type} `{!StreamReader R} (s : R) : Prop :=
  forall n, fst (drain n s) = replicate n Complete.

(** The fragments of the [ToolCallDelta] events of one block index, in
    order, as one text. *)
Definition tool_input_fragments (index : Z) (rs : list NextResult) : string :=
  String.concat ""
    (ev_ToolInputDelta
       <$> filter (fun e => ev_Type e = StreamEventToolCallDelta /\ ev_Index e = index)
             (events_of rs)).

(** The status of the job that [Manager.Get] hands back for what an adapter
    read from the provider. *)
Definition job_status (j : provider.BatchJob) : batch.Status :=
  batch.job_Status (batch.convertJob j).

(** The text that a result of [Next] carries: that of a [ContentDelta]
    event, and nothing otherwise. *)
Definition delta_text (r : NextResult) : string :=
  match r with
  | Event e =>
      if String.eqb (ev_Type e) StreamEventContentDelta
      then match ev_Delta e with Some b => cb_Text b | None => "" end
      else ""
  | _ => ""
  end.

(** The texts of the [ContentDelta] events among some results, in order, as
    one text. *)
Definition streamed_text (rs : list NextResult) : string :=
  foldr (fun r text => delta_text r ++ text) "" rs.

(** Whether one of some results ends the stream. *)
Definition is_terminal (r : NextResult) : bool :=
  match r with
  | Complete => true
  | Event e => String.eqb (ev_Type e) StreamEventDone
  | _ => false
  end.




(** The tool calls that the blocks of a response hold, in order. *)
Definition tool_calls_of (content : list ContentBlock) : list ToolCall :=
  omap (fun b =>
          if String.eqb (cb_Type b) ContentTypeToolUse
          then Some {| tc_ID := cb_ToolUseID b; tc_Name := cb_ToolName b;
                       tc_Input := cb_ToolInput b |}
          else None)
    content.

(** The kinds of event that the OpenAI reader builds from a chunk. *)
Definition chunk_event (e : StreamEvent) : Prop :=
  ev_Type e = StreamEventContentDelta
  \/ ev_Type e = StreamEventToolCallStart
  \/ ev_Type e = StreamEventToolCallDelta.

(** What the Anthropic reader has accumulated never holds a tool input, an
    input token count or a total. *)
Definition no_input (b : ContentBlock) : Prop := types.cb_ToolInput b = JNull.

Definition no_call_input (tc : ToolCall) : Prop := tc_Input tc = JNull.

Definition output_only (u : option Usage) : Prop :=
  match u with
  | Some u => InputTokens u = 0 /\ TotalTokens u = 0
  | None => True
  end.

Definition anthropic_acc (s : anthropic.streamReader) : Prop :=
  Forall no_input (anthropic.contentBlocks s)
  /\ Forall no_call_input (anthropic.toolCalls s)
  /\ output_only (anthropic.usage s).

Definition response_without_inputs (r : CompletionResponse) : Prop :=
  Forall no_input (resp_Content r)
  /\ Forall no_call_input (resp_ToolCalls r)
  /\ InputTokens (resp_Usage r) = 0
  /\ TotalTokens (resp_Usage r) = 0.

Definition anthropic_inv (s : anthropic.streamReader) : Prop :=
  anthropic_acc s
  /\ forall r, anthropic.response s = Some r -> response_without_inputs r.

(** Where a turn of the Anthropic loop can end. *)
Definition anthropic_ok (res : NextResult * anthropic.streamReader) : Prop :=
  anthropic_inv (snd res)
  /\ (terminal (fst res) -> anthropic.done (snd res) = true).


(** The adapter that an option of [router.New] registers, by name. *)
Definition registers (opt : router.Option) : option types.Provider :=
  match opt with
  | router.WithOpenAI _ => Some ProviderOpenAI
  | router.WithAnthropic _ => Some ProviderAnthropic
  | router.WithGoogle _ => Some ProviderGoogle
  | _ => None
  end.

(** The three adapters of the library, by name. *)
Definition builtin (name : types.Provider) : option provider.Provider :=
  if String.eqb name ProviderOpenAI then Some openai.Client
  else if String.eqb name ProviderAnthropic then Some anthropic.Client
  else if String.eqb name ProviderGoogle then Some google.Client
  else None.

(** The policy that the options leave in force: the last one set, [error]
    when none is. *)
Definition policy_of (opts : list router.Option) : router.UnsupportedFeaturePolicy :=
  foldl (fun policy opt =>
           match opt with
           | router.WithUnsupportedFeaturePolicy policy' => policy'
           | _ => policy
           end)
    router.PolicyError opts.

(** The policies under which an unsupported feature is let through. *)
Definition tolerant (policy : router.UnsupportedFeaturePolicy) : bool :=
  String.eqb policy router.PolicyWarn || String.eqb policy router.PolicyIgnore.

(** The one case in which the router refuses a request for a configured
    adapter of the library: JSON mode asked of Anthropic under a policy that
    is not tolerant. *)
Definition refuses_json (r : router.Router) (req : CompletionRequest) : bool :=
  String.eqb (req_Provider req) ProviderAnthropic
  && router.formatIs req "json"
  && negb (tolerant (router.OnUnsupportedFeature (router.config r))).

(** * Properties of the schema translator *)

Section schema_facts.
Import schema.

Lemma lookup_field_ne k v (m : gmap string json) k' :
  k <> k' -> field k v m !! k' = m !! k'.
Proof. intros Hne. destruct v; simpl; [by rewrite lookup_insert_ne|done]. Qed.

Lemma lookup_field_eq k v (m : gmap string json) :
  field k v m !! k = match v with Some x => Some x | None => m !! k end.
Proof. destruct v; simpl; [by rewrite lookup_insert_eq|done]. Qed.

Ltac lookup_fields :=
  repeat first
    [ rewrite lookup_field_eq
    | rewrite lookup_field_ne by (intro; discriminate) ];
  rewrite ?lookup_empty.

(** The pass rewrites the value under each key on its own. *)
Lemma lookup_visit_schema f (m : gmap string json) key :
  key <> "additionalProperties" ->
  visit_schema f m !! key = visit_entry f key <$> m !! key.
Proof.
  intros Hne. unfold visit_schema.
  destruct (is_object m).
  - rewrite lookup_insert_ne by done. rewrite map_lookup_imap. by destruct (m !! key).
  - rewrite map_lookup_imap. by destruct (m !! key).
Qed.

Lemma lookup_addAdditionalPropertiesFalse (m : gmap string json) key :
  key <> "additionalProperties" ->
  addAdditionalPropertiesFalse m !! key = visit_entry visit key <$> m !! key.
Proof. apply lookup_visit_schema. Qed.

Lemma object_gets_additionalProperties (m : gmap string json) :
  is_object m = true ->
  addAdditionalPropertiesFalse m !! "additionalProperties" = Some (JBool false).
Proof.
  intros H. unfold addAdditionalPropertiesFalse, visit_schema. rewrite H.
  by rewrite lookup_insert_eq.
Qed.


Lemma jsize_lookup (m : gmap string json) k v :
  m !! k = Some v -> (jsize v < jsize (JObj m))%nat.
Proof.
  intros H. cbn [jsize].
  rewrite <- (insert_delete_id m k v H).
  rewrite map_fold_insert_L; [lia|intros; lia|apply lookup_delete_eq].
Qed.

Lemma jsize_elem (l : list json) v :
  v ∈ l -> (jsize v < jsize (JArr l))%nat.
Proof. cbn [jsize]. induction 1; cbn [foldr]; lia. Qed.

Lemma is_object_visit_schema f (m : gmap string json) :
  is_object (visit_schema f m) = is_object m.
Proof.
  unfold is_object. rewrite lookup_visit_schema by (intro; discriminate).
  by destruct (m !! "type").
Qed.

Lemma visit_idempotent_below (n : nat) :
  forall v, (jsize v < n)%nat -> visit (visit v) = visit v.
Proof.
  induction n as [|n IH]; intros v Hv; [lia|].
  destruct v as [| | | |l|m]; try reflexivity.
  cbn [visit]. f_equal. apply map_eq. intros key.
  destruct (decide (key = "additionalProperties")) as [->|Hkey].
  - unfold visit_schema at 1. rewrite is_object_visit_schema.
    unfold visit_schema. destruct (is_object m) eqn:Hobj.
    + by rewrite !lookup_insert_eq.
    + rewrite !map_lookup_imap. by destruct (m !! "additionalProperties").
  - rewrite !lookup_visit_schema by done.
    destruct (m !! key) as [x|] eqn:Hx; [|done]. cbn. f_equal.
    pose proof (jsize_lookup _ _ _ Hx) as Hlt.
    unfold visit_entry.
    destruct (String.eqb key "properties" || String.eqb key "$defs").
    { destruct x as [| | | |l|props]; try reflexivity. f_equal.
      rewrite <- map_fmap_compose. apply map_fmap_ext. intros k y Hy. cbn.
      apply IH. pose proof (jsize_lookup _ _ _ Hy). lia. }
    destruct (String.eqb key "items").
    { destruct x as [| | | |l|m']; try reflexivity. cbn [visit]. fold visit.
      change (JObj (visit_schema visit (visit_schema visit m'))) with (visit (visit (JObj m'))).
      apply IH. lia. }
    destruct (String.eqb key "anyOf" || String.eqb key "oneOf" || String.eqb key "allOf").
    { destruct x as [| | | |arr|m']; try reflexivity. f_equal.
      rewrite <- list_fmap_compose. apply list_fmap_ext. intros i y Hy. cbn.
      apply IH. apply list_elem_of_lookup_2 in Hy. pose proof (jsize_elem _ _ Hy). lia. }
    reflexivity.
Qed.

Lemma addAdditionalPropertiesFalse_idempotent (m : gmap string json) :
  addAdditionalPropertiesFalse (addAdditionalPropertiesFalse m)
  = addAdditionalPropertiesFalse m.
Proof.
  pose proof (visit_idempotent_below (S (jsize (JObj m))) (JObj m) ltac:(lia)) as H.
  cbn [visit] in H. by injection H.
Qed.


(** *** The round trip through [encoding/json] *)

Lemma fmap_is_Some_inv {A B} (f : A -> B) (x : option A) : is_Some (f <$> x) -> is_Some x.
Proof. destruct x; [eauto|intros [? [=]]]. Qed.

Lemma coerce_utf8_valid_below (n : nat) :
  forall s, (String.length s <= n)%nat -> is_Some (utf8_decode s) -> coerce_utf8 s = s.
Proof.
  induction n as [|n IH]; intros s Hlen Hs.
  { destruct s; [reflexivity|cbn in Hlen; lia]. }
  destruct s as [|c1 s1]; [reflexivity|].
  cbn [utf8_decode coerce_utf8] in *. cbn [String.length] in Hlen.
  destruct (code c1 <? 128).
  { apply fmap_is_Some_inv in Hs. rewrite IH by (done || lia). reflexivity. }
  destruct (code c1 <? 192); [by destruct Hs|].
  destruct s1 as [|c2 s2]; [by destruct Hs|]. cbn [String.length] in Hlen.
  destruct (negb (is_cont c2)); [by destruct Hs|].
  destruct (code c1 <? 224).
  { destruct (128 <=? _); [|by destruct Hs].
    apply fmap_is_Some_inv in Hs. rewrite IH by (done || lia). reflexivity. }
  destruct s2 as [|c3 s3]; [by destruct Hs|]. cbn [String.length] in Hlen.
  destruct (negb (is_cont c3)); [by destruct Hs|].
  destruct (code c1 <? 240).
  { cbv zeta in *. destruct (_ && _); [|by destruct Hs].
    apply fmap_is_Some_inv in Hs. rewrite IH by (done || lia). reflexivity. }
  destruct s3 as [|c4 s4]; [by destruct Hs|]. cbn [String.length] in Hlen.
  destruct (negb (is_cont c4)); [by destruct Hs|].
  cbv zeta in *. destruct (_ && _); [|by destruct Hs].
  apply fmap_is_Some_inv in Hs. rewrite IH by (done || lia). reflexivity.
Qed.

(** The round trip keeps a string that is valid UTF-8. *)
Lemma coerce_utf8_valid s : ValidString s = true -> coerce_utf8 s = s.
Proof.
  unfold ValidString. intros H.
  apply (coerce_utf8_valid_below (String.length s)); [lia|].
  destruct (utf8_decode s); [eauto|discriminate].
Qed.

Lemma foldl_insert_valid {A} (l : list (string * A)) (acc : gmap string A) :
  Forall (fun kv => ValidString kv.1 = true) l ->
  foldl (fun acc kv => <[coerce_utf8 kv.1 := kv.2]> acc) acc l
  = foldl (fun acc kv => <[kv.1 := kv.2]> acc) acc l.
Proof.
  revert acc. induction l as [|kv l IH]; intros acc Hl; [reflexivity|].
  apply Forall_cons in Hl as [Hkv Hl]. cbn [foldl].
  rewrite (coerce_utf8_valid _ Hkv). by apply IH.
Qed.

Lemma foldl_insert_list_to_map {A} (l : list (string * A)) :
  foldl (fun (acc : gmap string A) kv => <[kv.1 := kv.2]> acc) ∅ l
  = list_to_map (reverse l).
Proof.
  rewrite <- (reverse_involutive l) at 1. generalize (reverse l). intros k.
  induction k as [|kv k IH]; [reflexivity|].
  rewrite reverse_cons, foldl_app. cbn [foldl list_to_map foldr]. by rewrite IH.
Qed.

(** The round trip keeps a map whose keys are valid UTF-8. *)
Lemma marshal_keys_valid {A} (m : gmap string A) :
  valid_keys m = true -> marshal_keys m = m.
Proof.
  intros Hv. apply bool_decide_eq_true in Hv. unfold marshal_keys.
  set (l := merge_sort key_le (map_to_list m)).
  assert (l ≡ₚ map_to_list m) as Hl by apply merge_sort_Permutation.
  rewrite foldl_insert_valid.
  - rewrite foldl_insert_list_to_map.
    transitivity (list_to_map (map_to_list m) : gmap string A);
      [|apply list_to_map_to_list].
    apply list_to_map_proper.
    + rewrite reverse_Permutation, Hl. apply NoDup_fst_map_to_list.
    + by rewrite reverse_Permutation.
  - apply Forall_forall. intros [k v] Hin. rewrite Hl in Hin.
    apply elem_of_map_to_list in Hin. by apply (Hv k v).
Qed.

Lemma map_sequence_lookup {A} (m : gmap string (option A)) m' k x :
  map_sequence m = Some m' -> m !! k = Some x -> exists y, x = Some y /\ m' !! k = Some y.
Proof.
  unfold map_sequence. case_bool_decide as Hall; [|discriminate]. intros [= <-] Hk.
  destruct (Hall k x Hk) as [y ->]. exists y. split; [reflexivity|].
  by apply lookup_omap_id_Some.
Qed.

Lemma map_sequence_dom {A} (m : gmap string (option A)) m' k y :
  map_sequence m = Some m' -> m' !! k = Some y -> m !! k = Some (Some y).
Proof.
  unfold map_sequence. case_bool_decide; [|discriminate]. intros [= <-] Hk.
  by apply lookup_omap_id_Some.
Qed.

Lemma mapM_lookup {A B} (f : A -> option B) l l' (i : nat) x :
  mapM f l = Some l' -> l !! i = Some x -> exists y, f x = Some y /\ l' !! i = Some y.
Proof.
  intros Hm Hi. apply mapM_Some in Hm.
  destruct (Forall2_lookup_l _ _ _ _ _ Hm Hi) as (y & Hy & Hf). eauto.
Qed.

(** A member of [properties] or [$defs]. *)
Lemma omit_map_lookup {A} (f : A -> option json) (m : gmap string A) v name x :
  omit_map f m = Some v ->
  valid_keys m = true ->
  m !! name = Some x ->
  exists pm y, v = Some (JObj pm) /\ f x = Some y /\ pm !! name = Some y.
Proof.
  unfold omit_map. intros Hv Hkeys Hx.
  case_decide as He; [by rewrite He, lookup_empty in Hx|].
  destruct (map_sequence (f <$> m)) as [m'|] eqn:Hseq; [|discriminate].
  injection Hv as <-.
  assert ((f <$> m) !! name = Some (f x)) as Hfx by (by rewrite lookup_fmap, Hx).
  destruct (map_sequence_lookup _ _ _ _ Hseq Hfx) as (y & Hy & Hm').
  exists (marshal_keys m'), y. split; [reflexivity|]. split; [exact Hy|].
  rewrite marshal_keys_valid; [exact Hm'|].
  apply bool_decide_eq_true. intros k z Hk.
  apply (map_sequence_dom _ _ _ _ Hseq) in Hk. rewrite lookup_fmap in Hk.
  destruct (m !! k) as [a|] eqn:Ha; [|discriminate].
  apply bool_decide_eq_true in Hkeys. by apply (Hkeys k a).
Qed.

(** A member of [anyOf], [oneOf] or [allOf]. *)
Lemma omit_slice_lookup {A} (f : A -> option json) (l : list A) v (i : nat) x :
  omit_slice f l = Some v ->
  l !! i = Some x ->
  exists l' y, v = Some (JArr l') /\ f x = Some y /\ l' !! i = Some y.
Proof.
  unfold omit_slice. intros Hv Hx. destruct l as [|a l]; [by rewrite lookup_nil in Hx|].
  destruct (mapM f (a :: l)) as [l'|] eqn:Hm; [|discriminate]. injection Hv as <-.
  destruct (mapM_lookup _ _ _ _ _ Hm Hx) as (y & Hy & Hl'). eauto.
Qed.

Lemma all_true_lookup {A} (f : A -> bool) (m : gmap string A) name x :
  all_true (f <$> m) = true -> m !! name = Some x -> f x = true.
Proof.
  intros Hall Hx. apply bool_decide_eq_true in Hall.
  apply (Hall name). by rewrite lookup_fmap, Hx.
Qed.

Lemma forallb_lookup {A} (f : A -> bool) (l : list A) (i : nat) x :
  forallb f l = true -> l !! i = Some x -> f x = true.
Proof.
  intros Hall Hx. rewrite forallb_forall in Hall. apply Hall.
  apply list_elem_of_In. by eapply list_elem_of_lookup_2.
Qed.

(** *** The translation *)

(** A map that [ToMap] returns is the one read back from the text. *)
Lemma ToMap_remarshal s m : ToMap s = Some m -> remarshal_schema s = Some m.
Proof. unfold ToMap. by destruct (_ <=? _). Qed.

(** What the round trip stores under the keys that the pass looks at. *)
Lemma remarshal_schema_lookups s m :
  remarshal_schema s = Some m ->
  m !! "type" = omit_string (js_Type s)
  /\ omit_map sub_schema (js_Properties s) = Some (m !! "properties")
  /\ omit_pointer sub_schema (js_Items s) = Some (m !! "items")
  /\ omit_slice sub_schema (js_AnyOf s) = Some (m !! "anyOf")
  /\ omit_slice sub_schema (js_OneOf s) = Some (m !! "oneOf")
  /\ omit_slice sub_schema (js_AllOf s) = Some (m !! "allOf")
  /\ omit_map sub_schema (js_Defs s) = Some (m !! "$defs").
Proof.
  destruct s.
  cbn [remarshal_schema js_Type js_Properties js_Items js_AnyOf js_OneOf js_AllOf js_Defs].
  fold sub_schema. intros H.
  repeat match type of H with
         | (?x ≫= _) = Some _ =>
             let v := fresh "v" in
             let E := fresh "E" in
             destruct x as [v|] eqn:E; [cbn [mbind option_bind] in H|discriminate H]
         end.
  injection H as <-.
  repeat split; lookup_fields;
    repeat match goal with |- context [match ?v with Some _ => _ | None => _ end] =>
             destruct v end; reflexivity.
Qed.

Lemma valid_names_parts s :
  valid_names s = true ->
  valid_keys (js_Properties s) = true
  /\ all_true (sub_names <$> js_Properties s) = true
  /\ match js_Items s with Some x => sub_names x | None => true end = true
  /\ forallb sub_names (js_AnyOf s) = true
  /\ forallb sub_names (js_OneOf s) = true
  /\ forallb sub_names (js_AllOf s) = true
  /\ valid_keys (js_Defs s) = true
  /\ all_true (sub_names <$> js_Defs s) = true.
Proof.
  destruct s. cbn [valid_names js_Properties js_Items js_AnyOf js_OneOf js_AllOf js_Defs].
  fold sub_names. intros H. repeat (apply andb_prop in H as [H ?]). by repeat split.
Qed.

Lemma sub_schema_inv x y :
  sub_schema x = Some y ->
  exists s' m', x = inr s' /\ remarshal_schema s' = Some m' /\ y = JObj m'.
Proof.
  destruct x as [n|s']; cbn; [discriminate|].
  destruct (remarshal_schema s') as [m'|] eqn:Hm'; [|discriminate].
  intros [= <-]. by exists s', m'.
Qed.

(** One step down a keyword commutes with the translation; no step of a
    schema that marshals leads back to a schema above. *)
Lemma position_translation s m k x :
  remarshal_schema s = Some m ->
  valid_names s = true ->
  position s k = Some x ->
  exists s' m',
    x = inr s' /\ remarshal_schema s' = Some m' /\ valid_names s' = true
    /\ submap (addAdditionalPropertiesFalse m) k = Some (addAdditionalPropertiesFalse m').
Proof.
  intros Hm Hnames Hx.
  destruct (remarshal_schema_lookups _ _ Hm)
    as (_ & Hprops & Hitems & Hany & Hone & Hall & Hdefs).
  destruct (valid_names_parts _ Hnames)
    as (Hkp & Hnp & Hni & Hnany & Hnone & Hnall & Hkd & Hnd).
  destruct k as [name| |i|i|i|name]; cbn [position submap] in *.
  - destruct (omit_map_lookup _ _ _ _ _ Hprops Hkp Hx) as (pm & y & Hv & Hy & Hpm).
    destruct (sub_schema_inv _ _ Hy) as (s' & m' & -> & Hm' & ->).
    exists s', m'. repeat split; [done|by apply (all_true_lookup _ _ _ _ Hnp Hx)|].
    rewrite lookup_addAdditionalPropertiesFalse by (intro; discriminate).
    rewrite Hv. cbn. by rewrite lookup_fmap, Hpm.
  - rewrite Hx in Hitems, Hni. cbn in Hitems.
    destruct (sub_schema x) as [y|] eqn:Hy; [|discriminate]. injection Hitems as Hitems.
    destruct (sub_schema_inv _ _ Hy) as (s' & m' & -> & Hm' & ->).
    exists s', m'. repeat split; [done|done|].
    rewrite lookup_addAdditionalPropertiesFalse by (intro; discriminate).
    by rewrite <- Hitems.
  - destruct (omit_slice_lookup _ _ _ _ _ Hany Hx) as (l' & y & Hv & Hy & Hl').
    destruct (sub_schema_inv _ _ Hy) as (s' & m' & -> & Hm' & ->).
    exists s', m'. repeat split; [done|by apply (forallb_lookup _ _ _ _ Hnany Hx)|].
    rewrite lookup_addAdditionalPropertiesFalse by (intro; discriminate).
    rewrite Hv. cbn. by rewrite list_lookup_fmap, Hl'.
  - destruct (omit_slice_lookup _ _ _ _ _ Hone Hx) as (l' & y & Hv & Hy & Hl').
    destruct (sub_schema_inv _ _ Hy) as (s' & m' & -> & Hm' & ->).
    exists s', m'. repeat split; [done|by apply (forallb_lookup _ _ _ _ Hnone Hx)|].
    rewrite lookup_addAdditionalPropertiesFalse by (intro; discriminate).
    rewrite Hv. cbn. by rewrite list_lookup_fmap, Hl'.
  - destruct (omit_slice_lookup _ _ _ _ _ Hall Hx) as (l' & y & Hv & Hy & Hl').
    destruct (sub_schema_inv _ _ Hy) as (s' & m' & -> & Hm' & ->).
    exists s', m'. repeat split; [done|by apply (forallb_lookup _ _ _ _ Hnall Hx)|].
    rewrite lookup_addAdditionalPropertiesFalse by (intro; discriminate).
    rewrite Hv. cbn. by rewrite list_lookup_fmap, Hl'.
  - destruct (omit_map_lookup _ _ _ _ _ Hdefs Hkd Hx) as (pm & y & Hv & Hy & Hpm).
    destruct (sub_schema_inv _ _ Hy) as (s' & m' & -> & Hm' & ->).
    exists s', m'. repeat split; [done|by apply (all_true_lookup _ _ _ _ Hnd Hx)|].
    rewrite lookup_addAdditionalPropertiesFalse by (intro; discriminate).
    rewrite Hv. cbn. by rewrite lookup_fmap, Hpm.
Qed.

Lemma reach_translation above s m path s' :
  remarshal_schema s = Some m ->
  valid_names s = true ->
  reach_from above s path = Some s' ->
  exists m', remarshal_schema s' = Some m'
             /\ reach_map (addAdditionalPropertiesFalse m) path
                = Some (addAdditionalPropertiesFalse m').
Proof.
  revert above s m. induction path as [|k path IH]; intros above s m Hm Hnames;
    cbn [reach_from reach_map].
  - intros [= <-]. eauto.
  - destruct (position s k) as [x|] eqn:Hk; [|discriminate].
    destruct (position_translation _ _ _ _ Hm Hnames Hk)
      as (s1 & m1 & -> & Hm1 & Hn1 & Hsub).
    intros Hreach. rewrite Hsub. by eapply IH.
Qed.

Lemma is_object_remarshal_schema s m :
  remarshal_schema s = Some m -> js_Type s = "object" -> is_object m = true.
Proof.
  intros Hm Ht. destruct (remarshal_schema_lookups _ _ Hm) as (Htype & _).
  unfold is_object. by rewrite Htype, Ht.
Qed.

(** C2 as amended: for every unified schema [S] that [ToMap] turns into a
    map (that is, [json.Marshal] accepts it: its bounds are finite, its
    values of type [any] can be marshalled, it does not reach itself, and
    its text nests no deeper than [json.Unmarshal] reads) and whose names of
    properties and definitions are valid UTF-8, the strict translation for
    OpenAI ([prepareOpenAISchema]) is a map that holds
    [additionalProperties: false] at every sub-schema of type [object]
    reached from [S] through [properties], [items], [anyOf], [oneOf],
    [allOf] and [$defs]; and running the pass on its own output changes
    nothing. *)
Theorem strict_translation_closes_every_object (S : JSONSchema) (m : gmap string json) :
  ToMap S = Some m ->
  valid_names S = true ->
  strictly_translated S.
Proof.
  intros Hm Hnames. exists (addAdditionalPropertiesFalse m). split; [|split].
  - cbn. by rewrite Hm.
  - intros path S' Hreach Hobj. apply ToMap_remarshal in Hm.
    destruct (reach_translation _ _ _ _ _ Hm Hnames Hreach) as (m' & Hm' & Hr).
    exists (addAdditionalPropertiesFalse m'). split; [exact Hr|].
    apply object_gets_additionalProperties. by eapply is_object_remarshal_schema.
  - apply addAdditionalPropertiesFalse_idempotent.
Qed.

Lemma remarshal_schema_additionalProperties s m :
  remarshal_schema s = Some m ->
  m !! "additionalProperties" = JBool <$> js_AdditionalProperties s.
Proof.
  destruct s. cbn [remarshal_schema js_AdditionalProperties]. intros H.
  repeat match type of H with
         | (?x ≫= _) = Some _ =>
             let v := fresh "v" in
             let E := fresh "E" in
             destruct x as [v|] eqn:E; [cbn [mbind option_bind] in H|discriminate H]
         end.
  injection H as <-. lookup_fields.
  repeat match goal with |- context [match ?v with Some _ => _ | None => _ end] =>
           destruct v end; reflexivity.
Qed.

(** A text that the round trip turns into ASCII was that text already. *)
Lemma coerce_utf8_ascii_inv (t s : string) :
  Forall (fun c => code c < 128) (list_ascii_of_string t) ->
  coerce_utf8 s = t -> s = t.
Proof.
  revert s. induction t as [|c t IH]; intros s Ht.
  - destruct s as [|c1 s1]; [reflexivity|]. cbn [coerce_utf8].
    repeat (case_match; try discriminate).
  - cbn [list_ascii_of_string] in Ht. apply Forall_cons in Ht as [Hc Ht].
    destruct s as [|c1 s1]; [discriminate|]. cbn [coerce_utf8].
    destruct (code c1 <? 128) eqn:H1.
    { intros [= -> Hs]. f_equal. by apply IH. }
    assert (code c1 <> code c) as Hne by (apply Z.ltb_ge in H1; lia).
    assert (code (byte 239) <> code c) as Hne' by (change (code (byte 239)) with 239; lia).
    change (utf8_encode RuneError) with (String (byte 239) (String (byte 191) (String (byte 189) ""))).
    cbn [append].
    repeat (case_match; try (intros [= Hb _]; by rewrite Hb in *)).
Qed.

Lemma is_object_remarshal_schema_iff s m :
  remarshal_schema s = Some m ->
  is_object m = String.eqb (js_Type s) "object".
Proof.
  intros Hm. destruct (remarshal_schema_lookups _ _ Hm) as (Htype & _).
  unfold is_object. rewrite Htype. unfold omit_string.
  destruct (String.eqb_spec (js_Type s) "") as [->|Hne]; [reflexivity|].
  destruct (String.eqb_spec (js_Type s) "object") as [->|Hno]; [reflexivity|].
  cbn. destruct (String.eqb_spec (coerce_utf8 (js_Type s)) "object") as [Hc|Hc];
    [|reflexivity].
  destruct Hno. apply coerce_utf8_ascii_inv; [|exact Hc].
  repeat constructor; vm_compute; reflexivity.
Qed.

(** What the strict translation does with [AdditionalProperties] at the top
    of a schema that [ToMap] turns into a map: a schema of type [object]
    comes out with [additionalProperties: false], also when it was written
    with [true]; a schema of another type, or of none, comes out with the
    value it was written with, or without the key. *)
Theorem strict_translation_overrides_additionalProperties (S : JSONSchema)
    (m : gmap string json) :
  ToMap S = Some m ->
  exists out,
    prepareOpenAISchema (Some S) = Some out
    /\ out !! "additionalProperties"
       = if String.eqb (js_Type S) "object" then Some (JBool false)
         else JBool <$> js_AdditionalProperties S.
Proof.
  intros Hm. exists (addAdditionalPropertiesFalse m). split.
  { cbn. by rewrite Hm. }
  apply ToMap_remarshal in Hm.
  rewrite <- (is_object_remarshal_schema_iff _ _ Hm).
  destruct (is_object m) eqn:Hobj.
  - by apply object_gets_additionalProperties.
  - unfold addAdditionalPropertiesFalse, visit_schema. rewrite Hobj.
    rewrite map_lookup_imap, (remarshal_schema_additionalProperties _ _ Hm).
    by destruct (js_AdditionalProperties S).
Qed.

End schema_facts.

(** The translation of [person_schema] closes the object under
    [properties.addresses.items]. *)
Lemma strict_translation_person :
  exists m,
    (out ← schema.prepareOpenAISchema (Some samples.person_schema);
     schema.reach_map out [schema.KProperty "addresses"; schema.KItems]) = Some m
    /\ m !! "additionalProperties" = Some (JBool false).
Proof.
  destruct (schema.ToMap samples.person_schema) as [m0|] eqn:Hm0;
    [|vm_compute in Hm0; discriminate].
  destruct (strict_translation_closes_every_object samples.person_schema m0 Hm0 eq_refl)
    as (out & Hout & Hobj & _).
  destruct (Hobj [schema.KProperty "addresses"; schema.KItems]
              (object_schema {[ "city" := typed_schema "string" ]} ["city"]))
    as (m & Hm & Hap).
  - vm_compute. reflexivity.
  - reflexivity.
  - exists m. rewrite Hout. cbn. split; assumption.
Defined.

(** C2 as worded fails: a schema with a NaN bound and a schema that is its
    own item have no translation at all ([json.Marshal] fails and the map is
    [nil]), and in the translation of [renamed_schema] the object property
    is not under its name. *)
Lemma strict_translation_fails :
  ~ strictly_translated samples.nan_schema
  /\ ~ strictly_translated samples.self_schema
  /\ ~ strictly_translated samples.renamed_schema.
Proof.
  split; [|split].
  - intros (out & Hout & _). vm_compute in Hout. discriminate Hout.
  - intros (out & Hout & _). vm_compute in Hout. discriminate Hout.
  - intros (out & Hout & Hobj & _).
    destruct (Hobj [schema.KProperty (String (byte 255) "")] (object_schema ∅ []))
      as (m & Hm & _); [vm_compute; reflexivity|reflexivity|].
    destruct (schema.prepareOpenAISchema (Some samples.renamed_schema)) as [out'|] eqn:E;
      [|discriminate Hout].
    injection Hout as <-. revert Hm. vm_compute in E. injection E as <-.
    vm_compute. discriminate.
Qed.

(** An object written with [additionalProperties: true] is translated with
    [false]. *)
Lemma strict_translation_overrides_true :
  exists out,
    schema.prepareOpenAISchema (Some samples.open_schema) = Some out
    /\ out !! "additionalProperties" = Some (JBool false).
Proof.
  destruct (schema.ToMap samples.open_schema) as [m|] eqn:Hm;
    [|vm_compute in Hm; discriminate].
  exact (strict_translation_overrides_additionalProperties samples.open_schema m Hm).
Defined.

(** * Properties of the request transformers *)

(** C10: the Anthropic wire request always carries [max_tokens]: the
    request's [MaxTokens] when it is set, and 8192 when it is [nil]. *)
Theorem anthropic_max_tokens_default (req : CompletionRequest) :
  anthropic.mr_MaxTokens (anthropic.TransformRequest req)
  = match req_MaxTokens req with
    | Some n => n
    | None => 8192
    end.
Proof.
  unfold anthropic.TransformRequest.
  destruct (anthropic.transformMessages (req_Messages req)) as [messages system].
  reflexivity.
Qed.

Lemma appendSystem_join system blocks :
  anthropic.appendSystem system blocks
  = join_onto system
      (omap (fun b => if String.eqb (types.cb_Type b) ContentTypeText
                      then Some (types.cb_Text b) else None) blocks).
Proof.
  revert system. induction blocks as [|b blocks IH]; intros system; [reflexivity|].
  cbn [anthropic.appendSystem omap list_omap].
  destruct (String.eqb (types.cb_Type b) ContentTypeText); cbn; apply IH.
Qed.

Lemma join_onto_app system l1 l2 :
  join_onto system (l1 ++ l2) = join_onto (join_onto system l1) l2.
Proof. apply foldl_app. Qed.

Lemma anthropic_system_loop messages result system :
  snd (anthropic.transformMessages_loop messages result system)
  = join_onto system (system_texts messages).
Proof.
  revert result system.
  induction messages as [|msg messages IH]; intros result system; [reflexivity|].
  cbn [anthropic.transformMessages_loop]. unfold system_texts. cbn [fmap list_fmap concat].
  destruct (String.eqb (msg_Role msg) RoleSystem).
  - rewrite IH, appendSystem_join, join_onto_app. reflexivity.
  - rewrite IH. reflexivity.
Qed.

Lemma append_assoc (a b c : string) : (a ++ b) ++ c = a ++ b ++ c.
Proof.
  induction a as [|x a IH]; [reflexivity|].
  change (String x ((a ++ b) ++ c) = String x (a ++ b ++ c)). by f_equal.
Qed.

Lemma append_nonempty (a b : string) : a <> "" -> a ++ b <> "".
Proof. destruct a; [congruence|discriminate]. Qed.

Lemma join_onto_cons system t texts :
  join_onto system (t :: texts)
  = join_onto ((if negb (String.eqb system "") then system ++ LF else system) ++ t) texts.
Proof. reflexivity. Qed.

Lemma join_onto_nonempty system texts :
  system <> "" ->
  join_onto system texts = String.concat LF (system :: texts).
Proof.
  revert system. induction texts as [|t texts IH]; intros system Hne; [reflexivity|].
  rewrite join_onto_cons.
  apply String.eqb_neq in Hne as Hne'. rewrite Hne'. cbn [negb].
  rewrite IH by (rewrite append_assoc; by apply append_nonempty).
  destruct texts as [|u texts]; cbn [String.concat]; by rewrite !append_assoc.
Qed.

(** The Anthropic half of C5: when the first system text is not empty, the
    [system] field is the texts of all system messages, in order, joined by
    newlines.  (A leading empty text is dropped without a separator.) *)
Lemma anthropic_system_is_joined (req : CompletionRequest) t texts :
  system_texts (req_Messages req) = t :: texts ->
  t <> "" ->
  anthropic.mr_System (anthropic.TransformRequest req)
  = JStr (String.concat LF (t :: texts)).
Proof.
  intros Htexts Hne. unfold anthropic.TransformRequest, anthropic.transformMessages.
  pose proof (anthropic_system_loop (req_Messages req) [] "") as Hloop.
  destruct (anthropic.transformMessages_loop (req_Messages req) [] "") as [messages system].
  cbn [snd] in Hloop. cbn [anthropic.mr_System]. subst system. rewrite Htexts.
  change (join_onto "" (t :: texts)) with (join_onto t texts).
  rewrite join_onto_nonempty by done.
  assert (String.concat LF (t :: texts) <> "") as Hc.
  { destruct texts; cbn [String.concat]; [done|by apply append_nonempty]. }
  apply String.eqb_neq in Hc. by rewrite Hc.
Qed.

Section google_system.
Import refjson.

(** C5, the Google half, at two system messages: [transformMessages]
    replaces the system instruction at every system message, so the request
    carries the text of the last one only and the first text is lost; the
    claim asks for both texts, joined by a newline. *)
Theorem google_keeps_last_system_message_only :
  let req := samples.two_system_messages ProviderGoogle in
  google.SystemInstruction (google.TransformRequest req)
  = Some {| google.Role := ""; google.Parts := [google.TextPart "Line 2"] |}
  /\ anthropic.mr_System (anthropic.TransformRequest req)
     = JStr ("Line 1" ++ LF ++ "Line 2").
Proof. split; reflexivity. Qed.

End google_system.

(** * The conversation sent to Anthropic and to Google *)





Section conversation_facts.
Context `{!Unmarshal (option (gmap string json))}.



End conversation_facts.

(** At two system messages the [system] field holds both texts. *)
Lemma anthropic_system_is_joined_two :
  anthropic.mr_System
    (anthropic.TransformRequest (samples.two_system_messages ProviderAnthropic))
  = JStr ("Line 1" ++ LF ++ "Line 2").
Proof.
  apply (anthropic_system_is_joined
           (samples.two_system_messages ProviderAnthropic) "Line 1" ["Line 2"]);
    [reflexivity|discriminate].
Defined.

(** * The conversation sent to OpenAI *)

Section openai_conversation.
Context `{!Marshal json}.




End openai_conversation.

(** * Properties of the error mapping *)

(** The adapters for Anthropic and Google follow the table with the test
    "the message contains [context] or [token]"; the adapter for OpenAI
    follows it with the test "the message contains [context_length]". *)
Lemma mapAPIError_codes (status : Z) (message : string) :
  errors.Code (anthropic.mapAPIError
                 {| anthropic.ae_Type := ""; anthropic.ae_Message := message |} status)
  = status_code status (Contains message "context" || Contains message "token")
  /\ errors.Code (google.mapAPIError
                    {| google.ae_Code := status; google.ae_Message := message;
                       google.ae_Status := "" |} status)
     = status_code status (Contains message "context" || Contains message "token")
  /\ errors.Code (openai.mapAPIError
                    {| openai.ae_Message := message; openai.ae_Type := "";
                       openai.ae_Param := ""; openai.ae_Code := "" |} status)
     = status_code status (Contains message "context_length").
Proof.
  unfold anthropic.mapAPIError, google.mapAPIError, openai.mapAPIError, status_code.
  cbn [anthropic.ae_Message google.ae_Message openai.ae_Message].
  repeat split;
    repeat (match goal with |- context [?s =? ?n] => destruct (s =? n) end; try reflexivity);
    match goal with |- context [if ?b then _ else _] => destruct b end; reflexivity.
Qed.

(** C6 at the message OpenAI sends for an over-long prompt, with status 400:
    the message holds [context] and [tokens] but not [context_length], so the
    OpenAI adapter answers [invalid_request] where the claim (and the two
    other adapters) answer [context_length_exceeded]. *)
Theorem openai_context_message_is_invalid_request :
  let message := "This model's maximum context length is 8192 tokens." in
  (Contains message "context" || Contains message "token") = true
  /\ errors.Code (openai.mapAPIError
                    {| openai.ae_Message := message;
                       openai.ae_Type := "invalid_request_error";
                       openai.ae_Param := "messages";
                       openai.ae_Code := "context_length_exceeded" |} 400)
     = errors.ErrCodeInvalidRequest
  /\ errors.Code (anthropic.mapAPIError
                    {| anthropic.ae_Type := "invalid_request_error";
                       anthropic.ae_Message := message |} 400)
     = errors.ErrCodeContextLength
  /\ errors.Code (google.mapAPIError
                    {| google.ae_Code := 400; google.ae_Message := message;
                       google.ae_Status := "INVALID_ARGUMENT" |} 400)
     = errors.ErrCodeContextLength.
Proof. repeat split; vm_compute; reflexivity. Qed.

(** * Properties of the error handling of the adapters *)

Section error_facts.
Context `{!Unmarshal openai.ErrorResponse} `{!Unmarshal anthropic.ErrorResponse}
        `{!Unmarshal google.ErrorResponse}.

Lemma mapAPIError_status_provider (status : Z) :
  (forall e, errors.StatusCode (openai.mapAPIError e status) = status
             /\ errors.Provider (openai.mapAPIError e status) = ProviderOpenAI)
  /\ (forall e, errors.StatusCode (anthropic.mapAPIError e status) = status
                /\ errors.Provider (anthropic.mapAPIError e status) = ProviderAnthropic)
  /\ (forall e, errors.StatusCode (google.mapAPIError e status) = status
                /\ errors.Provider (google.mapAPIError e status) = ProviderGoogle).
Proof.
  unfold openai.mapAPIError, anthropic.mapAPIError, google.mapAPIError.
  repeat split; repeat case_match; reflexivity.
Qed.

(** Whatever the body of a response that is not OK and however it decodes,
    the error that an adapter builds from it carries the status of the
    response (not the 401, 404, 429 or 500 that the constructor of the error
    sets) and the name of the adapter; a body that does not decode, or that
    decodes without an [error] member, gives [server_error] with the body as
    its message, for every status. *)
Theorem error_response_keeps_status_and_provider (body : string) (status : Z) :
  let eo := openai.handleErrorResponse body status in
  let ea := anthropic.handleErrorResponse body status in
  let eg := google.handleErrorResponse body status in
  (errors.StatusCode eo = status /\ errors.Provider eo = ProviderOpenAI)
  /\ (errors.StatusCode ea = status /\ errors.Provider ea = ProviderAnthropic)
  /\ (errors.StatusCode eg = status /\ errors.Provider eg = ProviderGoogle)
  /\ ((forall apiErr, openai.er_Error <$> unmarshal body <> Some (Some apiErr)) ->
      errors.Code eo = errors.ErrCodeServerError /\ errors.Message eo = body)
  /\ ((forall apiErr, anthropic.er_Error <$> unmarshal body <> Some (Some apiErr)) ->
      errors.Code ea = errors.ErrCodeServerError /\ errors.Message ea = body)
  /\ ((forall apiErr, google.er_Error <$> unmarshal body <> Some (Some apiErr)) ->
      errors.Code eg = errors.ErrCodeServerError /\ errors.Message eg = body).
Proof.
  destruct (mapAPIError_status_provider status) as (Ho & Ha & Hg).
  unfold openai.handleErrorResponse, anthropic.handleErrorResponse,
    google.handleErrorResponse.
  cbv zeta. repeat split.
  1-2: destruct (openai.er_Error <$> unmarshal body) as [[e|]|]; try apply Ho; reflexivity.
  1-2: destruct (anthropic.er_Error <$> unmarshal body) as [[e|]|]; try apply Ha; reflexivity.
  1-2: destruct (google.er_Error <$> unmarshal body) as [[e|]|]; try apply Hg; reflexivity.
  all: match goal with
       | Hn : forall apiErr, ?x <> _ |- _ =>
           destruct x as [[e|]|]; [by destruct (Hn e)|reflexivity..]
       end.
Qed.

End error_facts.

(** An error that an adapter maps from a decoded error body is retryable
    ([IsRetryable]) exactly when the status is none of 400, 401 and 404, and
    an authentication error ([IsAuthError]) exactly when the status is 401;
    wrapping the error ([fmt.Errorf] with [%w]) changes neither. *)
Theorem mapped_error_retryable_by_status (status : Z) (msg : string) :
  let retry := negb ((status =? 400) || (status =? 401) || (status =? 404)) in
  let wrap e := Some (errors.Other msg (Some (errors.Router e))) in
  (forall e, errors.IsRetryable (wrap (openai.mapAPIError e status)) = retry
             /\ errors.IsAuthError (wrap (openai.mapAPIError e status)) = (status =? 401))
  /\ (forall e, errors.IsRetryable (wrap (anthropic.mapAPIError e status)) = retry
                /\ errors.IsAuthError (wrap (anthropic.mapAPIError e status)) = (status =? 401))
  /\ (forall e, errors.IsRetryable (wrap (google.mapAPIError e status)) = retry
                /\ errors.IsAuthError (wrap (google.mapAPIError e status)) = (status =? 401)).
Proof.
  unfold openai.mapAPIError, anthropic.mapAPIError, google.mapAPIError.
  cbv zeta. repeat split.
  all: destruct (Z.eqb_spec status 401); [subst status; reflexivity|].
  all: destruct (Z.eqb_spec status 429); [subst status; reflexivity|].
  all: destruct (Z.eqb_spec status 404); [subst status; reflexivity|].
  all: destruct (Z.eqb_spec status 400); [subst status|reflexivity].
  all: repeat case_match; reflexivity.
Qed.

(** * Properties of the router *)

Section router_facts.
Import router.

Lemma foldl_apply_policy opts r :
  forallb (fun opt => negb (sets_policy opt)) opts = true ->
  OnUnsupportedFeature (config (foldl apply r opts)) = OnUnsupportedFeature (config r).
Proof.
  revert r. induction opts as [|opt opts IH]; intros r H; [reflexivity|].
  cbn in H. apply andb_prop in H as [Hopt H]. cbn [foldl].
  rewrite IH by done. by destruct opt.
Qed.

Lemma foldl_apply_anthropic opts r :
  existsb adds_anthropic opts = true
  \/ providers r !! ProviderAnthropic = Some anthropic.Client ->
  providers (foldl apply r opts) !! ProviderAnthropic = Some anthropic.Client.
Proof.
  revert r. induction opts as [|opt opts IH]; intros r H.
  - destruct H as [H|H]; [discriminate|done].
  - cbn [foldl]. apply IH. destruct H as [H|H].
    + destruct opt; cbn in H; try (left; exact H).
      right. cbn. by rewrite lookup_insert_eq.
    + right. destruct opt; cbn; try done.
      * by rewrite lookup_insert_ne.
      * by rewrite lookup_insert_eq.
      * by rewrite lookup_insert_ne.
Qed.

Lemma New_with_anthropic opts r :
  New opts = Some r ->
  existsb adds_anthropic opts = true ->
  forallb (fun opt => negb (sets_policy opt)) opts = true ->
  providers r !! ProviderAnthropic = Some anthropic.Client
  /\ OnUnsupportedFeature (config r) = PolicyError.
Proof.
  unfold New. intros H Ha Hp. case_decide; [discriminate|]. injection H as <-.
  split.
  - apply foldl_apply_anthropic. by left.
  - by rewrite foldl_apply_policy.
Qed.

(** C7: a router built by [New] with the Anthropic adapter and no policy
    option (so the policy is the default, [error]) refuses every request for
    Anthropic whose response format is [json], in [Complete] and in [Stream],
    with an [unsupported_feature] error; the adapter's [Complete] or [Stream]
    is not called. *)
Theorem json_mode_refused_for_anthropic opts r req rf :
  New opts = Some r ->
  existsb adds_anthropic opts = true ->
  forallb (fun opt => negb (sets_policy opt)) opts = true ->
  req_Provider req = ProviderAnthropic ->
  req_ResponseFormat req = Some rf ->
  rf_Type rf = "json" ->
  exists err,
    Complete r req = Refused err
    /\ Stream r req = Refused err
    /\ errors.Code err = errors.ErrCodeUnsupportedFeature.
Proof.
  intros HNew Ha Hp Hprov Hrf Hjson.
  destruct (New_with_anthropic _ _ HNew Ha Hp) as [Hclient Hpolicy].
  exists (errors.ErrUnsupportedFeature ProviderAnthropic FeatureJSON).
  assert (checkFeatureSupport r anthropic.Client req
          = Some (errors.ErrUnsupportedFeature ProviderAnthropic FeatureJSON)) as Hcheck.
  { unfold checkFeatureSupport, formatIs. rewrite Hrf, Hjson. cbn.
    unfold handleUnsupportedFeature. rewrite Hpolicy. reflexivity. }
  unfold Complete, Stream, getProvider. rewrite Hprov, Hclient, Hcheck.
  repeat split; reflexivity.
Qed.

End router_facts.

Section router_witness.
Import router.

Lemma json_mode_refused_witness :
  exists r err,
    New [WithOpenAI "k1"; WithAnthropic "k2"] = Some r
    /\ Complete r (samples.json_request ProviderAnthropic) = Refused err
    /\ Stream r (samples.json_request ProviderAnthropic) = Refused err
    /\ errors.Code err = errors.ErrCodeUnsupportedFeature.
Proof.
  destruct (New [WithOpenAI "k1"; WithAnthropic "k2"]) as [r|] eqn:HNew;
    [|vm_compute in HNew; discriminate].
  destruct (json_mode_refused_for_anthropic _ r
              (samples.json_request ProviderAnthropic) _ HNew
              eq_refl eq_refl eq_refl eq_refl eq_refl)
    as (err & Hc & Hs & Hcode).
  exists r, err. repeat split; assumption.
Defined.

End router_witness.

(** * Properties of the router's decisions *)

Section router_decisions.
Import router.

(** What the options do to the table of adapters and to the policy. *)
Lemma foldl_apply_providers opts r name :
  providers (foldl apply r opts) !! name
  = if existsb (fun opt => bool_decide (registers opt = Some name)) opts
    then builtin name
    else providers r !! name.
Proof.
  revert r. induction opts as [|opt opts IH]; intros r; [reflexivity|].
  cbn [foldl existsb]. rewrite IH.
  destruct (existsb _ opts) eqn:Hrest; [by rewrite orb_true_r|].
  rewrite orb_false_r.
  destruct opt; cbn [apply providers registers].
  all: try (rewrite bool_decide_eq_false_2 by discriminate; reflexivity).
  all: case_bool_decide as Hn;
    [injection Hn as <-; by rewrite lookup_insert_eq
    |rewrite lookup_insert_ne by congruence; reflexivity].
Qed.

Lemma foldl_apply_config opts r :
  OnUnsupportedFeature (config (foldl apply r opts))
  = foldl (fun policy opt =>
             match opt with
             | WithUnsupportedFeaturePolicy policy' => policy'
             | _ => policy
             end)
      (OnUnsupportedFeature (config r)) opts.
Proof.
  revert r. induction opts as [|opt opts IH]; intros r; [reflexivity|].
  cbn [foldl]. rewrite IH. by destruct opt.
Qed.

Lemma New_providers opts r name :
  New opts = Some r ->
  providers r !! name
  = if existsb (fun opt => bool_decide (registers opt = Some name)) opts
    then builtin name
    else None.
Proof.
  unfold New. case_decide; [discriminate|]. intros [= <-].
  rewrite foldl_apply_providers. cbn [providers]. by rewrite lookup_empty.
Qed.

(** Every adapter in the table of a router built by [New] is the adapter of
    the library with that name. *)
Lemma New_builtin opts r name p :
  New opts = Some r -> providers r !! name = Some p -> builtin name = Some p.
Proof.
  intros HNew Hp. rewrite (New_providers _ _ _ HNew) in Hp.
  by destruct (existsb _ opts).
Qed.

(** [New] fails exactly when no option registers an adapter; when it
    succeeds, the table holds, under each name that some option registers,
    the adapter of the library with that name and nothing else, and the
    policy in force is the last one set, [error] when none is. *)
Theorem new_registers_the_named_adapters (opts : list Option) :
  match New opts with
  | None => Forall (fun opt => registers opt = None) opts
  | Some r =>
      Exists (fun opt => registers opt <> None) opts
      /\ (forall name,
            providers r !! name
            = if existsb (fun opt => bool_decide (registers opt = Some name)) opts
              then builtin name
              else None)
      /\ OnUnsupportedFeature (config r) = policy_of opts
  end.
Proof.
  destruct (New opts) as [r|] eqn:HNew.
  - split; [|split].
    + unfold New in HNew. case_decide as Hne; [discriminate|]. injection HNew as <-.
      apply map_choose in Hne as (name & p & Hp).
      rewrite foldl_apply_providers in Hp. cbn [providers] in Hp.
      rewrite lookup_empty in Hp.
      destruct (existsb _ opts) eqn:He; [|discriminate].
      apply existsb_exists in He as (opt & Hin & Hopt).
      apply Exists_exists. exists opt. split; [by apply list_elem_of_In|].
      apply bool_decide_eq_true in Hopt. by rewrite Hopt.
    + intros name. by apply New_providers.
    + unfold New in HNew. case_decide; [discriminate|]. injection HNew as <-.
      by rewrite foldl_apply_config.
  - unfold New in HNew. case_decide as He; [|discriminate].
    apply Forall_forall. intros opt Hin.
    destruct (registers opt) as [name|] eqn:Hreg; [|reflexivity].
    assert (providers (foldl apply
                         {| providers := ∅;
                            config := {| OnUnsupportedFeature := PolicyError;
                                         Debug := false |} |} opts) !! name
            = builtin name) as Hp.
    { rewrite foldl_apply_providers.
      replace (existsb _ opts) with true; [reflexivity|].
      symmetry. apply existsb_exists. exists opt.
      split; [by apply list_elem_of_In|]. by apply bool_decide_eq_true. }
    rewrite He, lookup_empty in Hp.
    destruct opt; cbn in Hreg; try discriminate; injection Hreg as <-; discriminate Hp.
Qed.

(** The adapters for OpenAI and Google support every feature that the router
    checks; the adapter for Anthropic supports all of them but JSON mode. *)
Lemma checkVision_supported r p messages :
  provider.SupportsFeature p FeatureVision = true ->
  checkVision r p messages = None.
Proof.
  intros Hv. induction messages as [|msg messages IH]; [reflexivity|].
  cbn [checkVision]. rewrite Hv. cbn [negb]. by destruct (hasImage msg).
Qed.

Lemma checkFeatureSupport_builtin r name p req :
  builtin name = Some p ->
  checkFeatureSupport r p req
  = if String.eqb name ProviderAnthropic && formatIs req "json"
    then handleUnsupportedFeature r ProviderAnthropic FeatureJSON
    else None.
Proof.
  unfold builtin. intros Hb. unfold checkFeatureSupport.
  destruct (String.eqb name ProviderOpenAI) eqn:Ho.
  { injection Hb as <-. apply String.eqb_eq in Ho as ->. cbn.
    rewrite !andb_false_r. by apply checkVision_supported. }
  destruct (String.eqb name ProviderAnthropic) eqn:Ha.
  { injection Hb as <-. cbn.
    rewrite !andb_false_r, andb_true_r.
    destruct (formatIs req "json"); [reflexivity|]. by apply checkVision_supported. }
  destruct (String.eqb name ProviderGoogle) eqn:Hg; [|discriminate].
  injection Hb as <-. cbn. rewrite !andb_false_r. by apply checkVision_supported.
Qed.

Lemma handleUnsupportedFeature_tolerant r providerName feature :
  handleUnsupportedFeature r providerName feature
  = if tolerant (OnUnsupportedFeature (config r))
    then None
    else Some (errors.ErrUnsupportedFeature providerName feature).
Proof.
  unfold handleUnsupportedFeature, tolerant.
  destruct (String.eqb _ PolicyError) eqn:He.
  - apply String.eqb_eq in He. rewrite He. reflexivity.
  - by destruct (String.eqb _ PolicyWarn), (String.eqb _ PolicyIgnore).
Qed.

(** How a router built by [New] decides [Complete]: a request for a provider
    that no option registered is refused with [provider_unavailable]; a
    request for JSON mode addressed to Anthropic is refused with
    [unsupported_feature] unless the policy is [warn] or [ignore] (a policy
    that is none of the three names refuses as [error] does); every other
    request is handed to the adapter, unchanged.  In particular, the tolerant
    policies hand the JSON request to Anthropic as it is. *)
Theorem router_complete_decision opts r req :
  New opts = Some r ->
  Complete r req
  = match providers r !! req_Provider req with
    | None =>
        Refused (errors.ErrProviderUnavailable (req_Provider req) "provider not configured")
    | Some p =>
        if refuses_json r req
        then Refused (errors.ErrUnsupportedFeature ProviderAnthropic FeatureJSON)
        else CallComplete p req
    end.
Proof.
  intros HNew. unfold Complete, getProvider, refuses_json.
  destruct (providers r !! req_Provider req) as [p|] eqn:Hp; [|reflexivity].
  rewrite (checkFeatureSupport_builtin r _ p req (New_builtin _ _ _ _ HNew Hp)).
  destruct (String.eqb (req_Provider req) ProviderAnthropic && formatIs req "json");
    [|reflexivity].
  rewrite handleUnsupportedFeature_tolerant. cbn [andb].
  by destruct (tolerant _).
Qed.

(** [Stream] of a router built by [New] decides as [Complete] does: it
    refuses the same requests with the same error, and hands the others to
    the adapter's [Stream]; the streaming check of its own never refuses,
    since the three adapters support streaming. *)
Theorem router_stream_decides_as_complete opts r req :
  New opts = Some r ->
  Stream r req
  = match Complete r req with
    | CallComplete p req' => CallStream p req'
    | refused => refused
    end.
Proof.
  intros HNew. unfold Stream, Complete, getProvider.
  destruct (providers r !! req_Provider req) as [p|] eqn:Hp; [|reflexivity].
  pose proof (New_builtin _ _ _ _ HNew Hp) as Hb.
  assert (provider.SupportsFeature p FeatureStreaming = true) as ->.
  { unfold builtin in Hb. repeat case_match; simplify_eq; reflexivity. }
  cbn [negb]. by destruct (checkFeatureSupport r p req).
Qed.

End router_decisions.

Section router_decisions_witness.
Import router.

Lemma router_complete_decision_witness :
  exists r,
    New [WithAnthropic "k"; WithUnsupportedFeaturePolicy PolicyWarn] = Some r
    /\ Complete r (samples.json_request ProviderAnthropic)
       = CallComplete anthropic.Client (samples.json_request ProviderAnthropic)
    /\ Complete r (samples.json_request ProviderOpenAI)
       = Refused (errors.ErrProviderUnavailable ProviderOpenAI "provider not configured").
Proof.
  destruct (New [WithAnthropic "k"; WithUnsupportedFeaturePolicy PolicyWarn])
    as [r|] eqn:HNew; [|vm_compute in HNew; discriminate].
  exists r. split; [reflexivity|].
  rewrite !(router_complete_decision _ r _ HNew).
  vm_compute in HNew. injection HNew as <-. split; vm_compute; reflexivity.
Defined.

Lemma router_stream_decides_as_complete_witness :
  exists r,
    New [WithOpenAI "k"] = Some r
    /\ Stream r (samples.json_request ProviderOpenAI)
       = CallStream openai.Client (samples.json_request ProviderOpenAI)
    /\ Stream r (samples.json_request ProviderGoogle)
       = Refused (errors.ErrProviderUnavailable ProviderGoogle "provider not configured").
Proof.
  destruct (New [WithOpenAI "k"]) as [r|] eqn:HNew; [|vm_compute in HNew; discriminate].
  exists r. split; [reflexivity|].
  rewrite !(router_stream_decides_as_complete _ r _ HNew).
  vm_compute in HNew. injection HNew as <-. split; vm_compute; reflexivity.
Defined.

End router_decisions_witness.

(** * Properties of the batch listing URLs *)

Lemma code_byte (b : Z) : 0 <= b < 256 -> code (byte b) = b.
Proof.
  intros H. unfold code, byte. rewrite N_ascii_embedding by lia. lia.
Qed.

Lemma rune_of_int_small (x : Z) : - 2 ^ 31 <= x < 2 ^ 31 -> rune_of_int x = x.
Proof.
  intros H. unfold rune_of_int, wrap.
  rewrite Z.mod_small by lia. lia.
Qed.

Lemma valid_rune_range (r : Z) :
  valid_rune r = true <-> (0 <= r <= 1114111 /\ ~ (55296 <= r <= 57343)).
Proof. unfold valid_rune. lia. Qed.

(** Decoding undoes the encoding of a scalar value. *)
Ltac dlia := Z.to_euclidean_division_equations; lia.

Lemma utf8_decode_encode (r : Z) :
  valid_rune r = true -> utf8_decode (utf8_encode r) = Some [r].
Proof.
  intros Hv. pose proof (proj1 (valid_rune_range r) Hv) as [Hr Hs].
  unfold utf8_encode.
  destruct (r <? 128) eqn:H1.
  { cbn [bytes foldr utf8_decode]. rewrite code_byte by dlia. rewrite H1. reflexivity. }
  destruct (r <? 2048) eqn:H2.
  { cbn [bytes foldr utf8_decode]. unfold is_cont. rewrite !code_byte by dlia.
    replace (192 + r / 64 <? 128) with false by dlia.
    replace (192 + r / 64 <? 192) with false by dlia.
    replace ((128 <=? 128 + r mod 64) && (128 + r mod 64 <? 192)) with true by dlia.
    cbn [negb].
    replace (192 + r / 64 <? 224) with true by dlia.
    replace ((192 + r / 64 - 192) * 64 + (128 + r mod 64 - 128)) with r by dlia.
    replace (128 <=? r) with true by dlia. reflexivity. }
  destruct (r <? 65536) eqn:H3.
  { cbn [bytes foldr utf8_decode]. unfold is_cont. rewrite !code_byte by dlia.
    replace (224 + r / 4096 <? 128) with false by dlia.
    replace (224 + r / 4096 <? 192) with false by dlia.
    replace ((128 <=? 128 + r / 64 mod 64) && (128 + r / 64 mod 64 <? 192)) with true by dlia.
    replace ((128 <=? 128 + r mod 64) && (128 + r mod 64 <? 192)) with true by dlia.
    cbn [negb].
    replace (224 + r / 4096 <? 224) with false by dlia.
    replace (224 + r / 4096 <? 240) with true by dlia.
    replace ((224 + r / 4096 - 224) * 4096 + (128 + r / 64 mod 64 - 128) * 64
             + (128 + r mod 64 - 128)) with r by dlia.
    replace (2048 <=? r) with true by dlia. rewrite Hv. reflexivity. }
  cbn [bytes foldr utf8_decode]. unfold is_cont. rewrite !code_byte by dlia.
  replace (240 + r / 262144 <? 128) with false by dlia.
  replace (240 + r / 262144 <? 192) with false by dlia.
  replace ((128 <=? 128 + r / 4096 mod 64) && (128 + r / 4096 mod 64 <? 192)) with true by dlia.
  replace ((128 <=? 128 + r / 64 mod 64) && (128 + r / 64 mod 64 <? 192)) with true by dlia.
  replace ((128 <=? 128 + r mod 64) && (128 + r mod 64 <? 192)) with true by dlia.
  cbn [negb].
  replace (240 + r / 262144 <? 224) with false by dlia.
  replace (240 + r / 262144 <? 240) with false by dlia.
  replace ((240 + r / 262144 - 240) * 262144 + (128 + r / 4096 mod 64 - 128) * 4096
           + (128 + r / 64 mod 64 - 128) * 64 + (128 + r mod 64 - 128)) with r by dlia.
  replace (65536 <=? r) with true by dlia. rewrite Hv. reflexivity.
Qed.

Lemma utf8_decode_string_of_rune (r : Z) :
  utf8_decode (string_of_rune r) = Some [if valid_rune r then r else RuneError].
Proof.
  unfold string_of_rune. destruct (valid_rune r) eqn:Hv.
  - by apply utf8_decode_encode.
  - reflexivity.
Qed.

(** [strconv.Itoa] of a positive number starts with a digit. *)
Lemma Itoa_pos (p : positive) :
  Itoa (Z.pos p) = NilEmpty.string_of_uint (Pos.to_uint p).
Proof.
  unfold Itoa. cbn [Z.to_int NilZero.string_of_int]. unfold NilZero.string_of_uint.
  pose proof (Unsigned.to_uint_nonnil p). by destruct (Pos.to_uint p).
Qed.

Lemma string_of_uint_head d c s :
  NilEmpty.string_of_uint d = String c s -> 48 <= code c <= 57.
Proof. destruct d; cbn; intros [= <- _]; vm_compute; split; discriminate. Qed.

Lemma utf8_encode_head (r : Z) :
  0 <= r <= 1114111 ->
  128 <= r ->
  exists c s, utf8_encode r = String c s /\ 192 <= code c.
Proof.
  intros Hr H128. unfold utf8_encode.
  replace (r <? 128) with false by lia.
  destruct (r <? 2048) eqn:H2; [|destruct (r <? 65536) eqn:H3];
    cbn [bytes foldr]; eexists _, _; (split; [reflexivity|]);
    rewrite code_byte by dlia; dlia.
Qed.

(** The OpenAI rendering of a positive limit is never its decimal text. *)
Lemma string_of_rune_not_Itoa (limit : Z) :
  0 < limit -> string_of_rune (rune_of_int limit) <> Itoa limit.
Proof.
  intros Hpos Heq. destruct limit as [|p|p]; try lia. rewrite Itoa_pos in Heq.
  set (r := rune_of_int (Z.pos p)) in *.
  assert (exists c s, string_of_rune r = String c s
                      /\ (192 <= code c \/ (s = "" /\ c = byte r /\ 0 <= r < 128)))
    as (c & s & Hs & Hc).
  { unfold string_of_rune. destruct (valid_rune r) eqn:Hv.
    - apply valid_rune_range in Hv as [Hr _].
      destruct (Z_lt_le_dec r 128) as [Hlt|Hge].
      + exists (byte r), "". split; [|right; repeat split; lia].
        unfold utf8_encode. by replace (r <? 128) with true by lia.
      + destruct (utf8_encode_head r Hr Hge) as (c & s & -> & Hc). eauto.
    - eexists _, _. split; [reflexivity|]. left. vm_compute. discriminate. }
  rewrite Hs in Heq. symmetry in Heq.
  pose proof (string_of_uint_head _ _ _ Heq) as Hdigit.
  destruct Hc as [Hc|(-> & -> & Hr)]; [lia|].
  rewrite code_byte in Hdigit by lia.
  (* one byte: the decimal text has one digit, so the limit is that digit *)
  assert (NilEmpty.uint_of_string (String (byte r) "") = Some (Pos.to_uint p)) as Hu.
  { rewrite <- Heq. apply NilEmpty.usu. }
  cbn [NilEmpty.uint_of_string] in Hu.
  apply uint_of_char_spec in Hu.
  assert (Z.pos p < 10) as Hsmall.
  { pose proof (Unsigned.of_to p) as Hp.
    destruct Hu as [[_ Hu]|[[_ Hu]|[[_ Hu]|[[_ Hu]|[[_ Hu]|[[_ Hu]|[[_ Hu]|[[_ Hu]|[[_ Hu]|[_ Hu]]]]]]]]]];
      rewrite Hu in Hp; vm_compute in Hp;
      first [discriminate Hp | injection Hp as <-; lia]. }
  subst r. rewrite rune_of_int_small in Hdigit by lia. lia.
Qed.

Lemma append_empty_r (a : string) : a ++ "" = a.
Proof.
  induction a as [|x a IH]; [reflexivity|].
  change (String x (a ++ "") = String x a). by f_equal.
Qed.

Lemma openai_ListBatches_rawURL_limit baseURL opts :
  0 < provider.Limit opts ->
  openai.ListBatches_rawURL baseURL (Some opts)
  = baseURL ++ "/batches?limit="
    ++ string_of_rune (rune_of_int (provider.Limit opts)) ++ after_param "after" opts.
Proof.
  intros Hpos. unfold openai.ListBatches_rawURL, after_param.
  replace (0 <? provider.Limit opts) with true by lia.
  generalize (string_of_rune (rune_of_int (provider.Limit opts))). intros s.
  destruct (String.eqb (provider.After opts) ""); cbn [negb].
  - change (String.eqb ("?" ++ "limit=" ++ s) "?") with false. cbn [negb].
    rewrite append_empty_r, !append_assoc. reflexivity.
  - change (String.eqb ("?" ++ "limit=" ++ s) "?") with false. cbn [negb].
    change (String.eqb ((("?" ++ "limit=" ++ s) ++ "&") ++ "after=" ++ provider.After opts) "?")
      with false. cbn [negb].
    rewrite !append_assoc. reflexivity.
Qed.

Lemma anthropic_ListBatches_rawURL_limit baseURL opts :
  0 < provider.Limit opts ->
  anthropic.ListBatches_rawURL baseURL (Some opts)
  = baseURL ++ "/v1/messages/batches?limit="
    ++ Itoa (provider.Limit opts) ++ after_param "after_id" opts.
Proof.
  intros Hpos. unfold anthropic.ListBatches_rawURL, after_param.
  replace (0 <? provider.Limit opts) with true by lia.
  generalize (Itoa (provider.Limit opts)). intros s.
  destruct (String.eqb (provider.After opts) ""); cbn [negb].
  - change (String.eqb ("?" ++ "limit=" ++ s) "?") with false. cbn [negb].
    rewrite append_empty_r, !append_assoc. reflexivity.
  - change (String.eqb ("?" ++ "limit=" ++ s) "?") with false. cbn [negb].
    change (String.eqb ((("?" ++ "limit=" ++ s) ++ "&") ++ "after_id=" ++ provider.After opts) "?")
      with false. cbn [negb].
    rewrite !append_assoc. reflexivity.
Qed.

(** How [strings.Cut] and the check for control characters go through a
    concatenation. *)
Lemma append_cons (c : ascii) (a b : string) : String c a ++ b = String c (a ++ b).
Proof. reflexivity. Qed.

Lemma has_byte_app c (a b : string) : has_byte c (a ++ b) = has_byte c a || has_byte c b.
Proof.
  induction a as [|x a IH]; [reflexivity|].
  rewrite append_cons. cbn [has_byte]. rewrite IH. by rewrite orb_assoc.
Qed.

Lemma ctl_app (a b : string) :
  url.stringContainsCTLByte (a ++ b)
  = url.stringContainsCTLByte a || url.stringContainsCTLByte b.
Proof.
  induction a as [|x a IH]; [reflexivity|].
  rewrite append_cons. cbn [url.stringContainsCTLByte]. rewrite IH. by rewrite !orb_assoc.
Qed.

Lemma Cut_found c (a b : string) :
  has_byte c a = false -> Cut (a ++ String c b) c = (a, b, true).
Proof.
  induction a as [|x a IH]; cbn [has_byte]; intros Ha.
  - change (Cut (String c b) c = ("", b, true)). cbn [Cut]. by rewrite Ascii.eqb_refl.
  - apply orb_false_iff in Ha as [Hx Ha]. rewrite append_cons. cbn [Cut].
    rewrite Hx, (IH Ha). reflexivity.
Qed.

Lemma Cut_none c (s : string) : has_byte c s = false -> Cut s c = (s, "", false).
Proof.
  induction s as [|x s IH]; cbn [has_byte]; intros Hs; [reflexivity|].
  apply orb_false_iff in Hs as [Hx Hs]. cbn [Cut]. rewrite Hx, (IH Hs). reflexivity.
Qed.

Lemma plain_parts (s : string) :
  plain s = true ->
  url.stringContainsCTLByte s = false /\ has_byte "#" s = false /\ has_byte "?" s = false.
Proof.
  unfold plain. intros H. apply andb_prop in H as [H H3]. apply andb_prop in H as [H1 H2].
  by repeat split; apply negb_true_iff.
Qed.

(** The bytes of [string(rune(x))]: a control character or a [#] only when
    the rune is one. *)
Lemma byte_not_ascii (b : Z) :
  128 <= b < 256 ->
  (code (byte b) <? 32) || (code (byte b) =? 127) = false
  /\ Ascii.eqb (byte b) "#" = false
  /\ Ascii.eqb (byte b) "?" = false.
Proof.
  intros Hb. rewrite code_byte by lia. split; [lia|].
  split; apply Ascii.eqb_neq; intros Heq;
    apply (f_equal code) in Heq; rewrite code_byte in Heq by lia;
    vm_compute in Heq; lia.
Qed.

Lemma utf8_encode_bytes (r : Z) :
  0 <= r <= 1114111 ->
  url.stringContainsCTLByte (utf8_encode r) = is_ctl_rune r
  /\ has_byte "#" (utf8_encode r) = (r =? 35)
  /\ has_byte "?" (utf8_encode r) = (r =? 63).
Proof.
  intros Hr. unfold utf8_encode, is_ctl_rune.
  destruct (r <? 128) eqn:H1.
  { cbn [bytes foldr url.stringContainsCTLByte has_byte]. rewrite code_byte by lia.
    rewrite !orb_false_r. split; [lia|].
    split.
    - destruct (Z.eqb_spec r 35) as [->|Hne]; [reflexivity|].
      apply Ascii.eqb_neq. intros Heq. apply (f_equal code) in Heq.
      rewrite code_byte in Heq by lia. vm_compute in Heq. lia.
    - destruct (Z.eqb_spec r 63) as [->|Hne]; [reflexivity|].
      apply Ascii.eqb_neq. intros Heq. apply (f_equal code) in Heq.
      rewrite code_byte in Heq by lia. vm_compute in Heq. lia. }
  replace (((0 <=? r) && (r <? 32)) || (r =? 127)) with false by lia.
  replace (r =? 35) with false by lia. replace (r =? 63) with false by lia.
  destruct (r <? 2048) eqn:H2; [|destruct (r <? 65536) eqn:H3];
    cbn [bytes foldr url.stringContainsCTLByte has_byte];
    repeat match goal with
      | |- context [byte ?b] =>
          let Hb := fresh "Hb" in
          assert (128 <= b < 256) as Hb by dlia;
          destruct (byte_not_ascii b Hb) as (-> & -> & ->); clear Hb
      end; repeat split; reflexivity.
Qed.

Lemma string_of_rune_bytes (r : Z) :
  url.stringContainsCTLByte (string_of_rune r) = is_ctl_rune r
  /\ has_byte "#" (string_of_rune r) = (r =? 35).
Proof.
  unfold string_of_rune. destruct (valid_rune r) eqn:Hv.
  - apply valid_rune_range in Hv as [Hr _].
    destruct (utf8_encode_bytes r Hr) as (? & ? & _). by split.
  - assert (is_ctl_rune r = false /\ (r =? 35) = false) as [-> ->].
    { unfold valid_rune in Hv. unfold is_ctl_rune. lia. }
    split; reflexivity.
Qed.

Lemma string_of_rune_35 (r : Z) : (r =? 35) = true -> string_of_rune r = "#".
Proof. intros H. apply Z.eqb_eq in H as ->. reflexivity. Qed.

(** The decimal text of a positive number is made of digits. *)
Lemma string_of_uint_plain d :
  url.stringContainsCTLByte (NilEmpty.string_of_uint d) = false
  /\ has_byte "#" (NilEmpty.string_of_uint d) = false.
Proof. induction d; cbn; destruct_and?; split; done. Qed.

Lemma Itoa_plain (x : Z) :
  0 < x ->
  url.stringContainsCTLByte (Itoa x) = false /\ has_byte "#" (Itoa x) = false.
Proof.
  intros Hx. destruct x as [|p|p]; try lia. rewrite Itoa_pos. apply string_of_uint_plain.
Qed.

Lemma after_param_plain name opts :
  plain name = true ->
  plain (provider.After opts) = true ->
  url.stringContainsCTLByte (after_param name opts) = false
  /\ has_byte "#" (after_param name opts) = false.
Proof.
  intros Hn Ha. apply plain_parts in Hn as (Hn1 & Hn2 & _).
  apply plain_parts in Ha as (Ha1 & Ha2 & _).
  unfold after_param. destruct (String.eqb _ ""); [by split|].
  rewrite !ctl_app, !has_byte_app, Hn1, Hn2, Ha1, Ha2. by split.
Qed.

Section list_batches.
Context `{!url.Syntax}.

(** [url.Parse] of a text [base?query] that holds no control character and
    no [#], and whose base holds no [?]. *)
Lemma Parse_query base query :
  url.stringContainsCTLByte (base ++ "?" ++ query) = false ->
  has_byte "#" (base ++ "?" ++ query) = false ->
  has_byte "?" base = false ->
  url.prefix_error base = None ->
  url.Parse (base ++ "?" ++ query)
  = inr {| url.Prefix := base; url.ForceQuery := String.eqb query "";
           url.RawQuery := query; url.RawFragment := "" |}.
Proof.
  intros Hctl Hhash Hq Hp. unfold url.Parse.
  rewrite (Cut_none _ _ Hhash), Hctl.
  change (base ++ "?" ++ query) with (base ++ String "?" query).
  rewrite (Cut_found _ _ _ Hq), Hp. reflexivity.
Qed.

(** ... and of a text [base?query#fragment]. *)
Lemma Parse_query_fragment base query frag :
  url.stringContainsCTLByte (base ++ "?" ++ query) = false ->
  has_byte "#" (base ++ "?" ++ query) = false ->
  has_byte "?" base = false ->
  url.prefix_error base = None ->
  url.Parse ((base ++ "?" ++ query) ++ "#" ++ frag)
  = match url.escape_error frag with
    | Some bad =>
        inl (url.Error_text "parse" ((base ++ "?" ++ query) ++ "#" ++ frag)
               ("invalid URL escape " ++ url.Quote bad))
    | None =>
        inr {| url.Prefix := base; url.ForceQuery := String.eqb query "";
               url.RawQuery := query; url.RawFragment := frag |}
    end.
Proof.
  intros Hctl Hhash Hq Hp. unfold url.Parse.
  change ((base ++ "?" ++ query) ++ "#" ++ frag)
    with ((base ++ "?" ++ query) ++ String "#" frag).
  rewrite (Cut_found _ _ _ Hhash), Hctl.
  change (base ++ "?" ++ query) with (base ++ String "?" query).
  rewrite (Cut_found _ _ _ Hq), Hp. reflexivity.
Qed.

(** ... and of a text with a control character before any [#]. *)
Lemma Parse_ctl rawURL :
  has_byte "#" rawURL = false ->
  url.stringContainsCTLByte rawURL = true ->
  url.Parse rawURL
  = inl (url.Error_text "parse" rawURL "net/url: invalid control character in URL").
Proof.
  intros Hhash Hctl. unfold url.Parse. by rewrite (Cut_none _ _ Hhash), Hctl.
Qed.

(** C9 as amended.  For a positive limit, a base URL and a cursor without
    control characters, [#] and [?], and a base URL that [net/url] accepts:
    the OpenAI adapter writes the limit as [string(rune(Limit))], which is
    one character (the code point [Limit] when [Limit] is a Unicode scalar
    value; otherwise the code point of [Limit] cut to 32 bits, or U+FFFD when
    that is no scalar value) and never the decimal text.  When that character
    is an ASCII control character (the limits 1 to 31 and 127 among them), no
    request is created and [ListBatches] returns [invalid_request]; when it
    is [#] (the limit 35), the query of the request is [limit=] and the
    cursor is lost to the fragment; otherwise the query of the request is
    [limit=] with the character, and the cursor after it.  The Anthropic
    adapter requests [limit=] with the decimal text, and the cursor. *)
Theorem list_batches_limit_rendering baseURL opts :
  0 < provider.Limit opts ->
  plain baseURL = true ->
  plain (provider.After opts) = true ->
  url.prefix_error (baseURL ++ "/batches") = None ->
  url.prefix_error (baseURL ++ "/v1/messages/batches") = None ->
  let r := rune_of_int (provider.Limit opts) in
  let c := string_of_rune r in
  let ctx := Some http.Background in
  let rawURL := baseURL ++ "/batches?limit=" ++ c ++ after_param "after" opts in
  let refused cause :=
    inl (errors.WithCause (errors.ErrInvalidRequest "failed to create request") cause) in
  openai.ListBatches ctx baseURL (Some opts)
  = (if is_ctl_rune r then
       refused (url.Error_text "parse" rawURL "net/url: invalid control character in URL")
     else if r =? 35 then
       match url.escape_error (after_param "after" opts) with
       | Some bad =>
           refused (url.Error_text "parse" rawURL ("invalid URL escape " ++ url.Quote bad))
       | None =>
           inr {| url.Prefix := baseURL ++ "/batches"; url.ForceQuery := false;
                  url.RawQuery := "limit=";
                  url.RawFragment := after_param "after" opts |}
       end
     else
       inr {| url.Prefix := baseURL ++ "/batches"; url.ForceQuery := false;
              url.RawQuery := "limit=" ++ c ++ after_param "after" opts;
              url.RawFragment := "" |})
  /\ utf8_decode c = Some [if valid_rune r then r else RuneError]
  /\ (valid_rune (provider.Limit opts) = true -> r = provider.Limit opts)
  /\ c <> Itoa (provider.Limit opts)
  /\ anthropic.ListBatches ctx baseURL (Some opts)
     = inr {| url.Prefix := baseURL ++ "/v1/messages/batches"; url.ForceQuery := false;
              url.RawQuery :=
                "limit=" ++ Itoa (provider.Limit opts) ++ after_param "after_id" opts;
              url.RawFragment := "" |}.
Proof.
  intros Hpos Hbase Hafter Hpo Hpa r c ctx rawURL refused.
  destruct (plain_parts _ Hbase) as (Hb1 & Hb2 & Hb3).
  destruct (after_param_plain "after" opts eq_refl Hafter) as (Ha1 & Ha2).
  destruct (after_param_plain "after_id" opts eq_refl Hafter) as (Hi1 & Hi2).
  destruct (string_of_rune_bytes r) as (Hc1 & Hc2). fold c in Hc1, Hc2.
  split; [|split; [|split; [|split]]].
  - unfold openai.ListBatches, http.NewRequestWithContext. cbn [ctx].
    rewrite openai_ListBatches_rawURL_limit by done. fold r. fold c. fold rawURL.
    destruct (is_ctl_rune r) eqn:Hctl.
    { rewrite Parse_ctl; [reflexivity| |].
      - unfold rawURL. rewrite !has_byte_app, Hb2, Hc2, Ha2.
        unfold is_ctl_rune in Hctl. replace (r =? 35) with false by lia. reflexivity.
      - unfold rawURL. rewrite !ctl_app, Hc1. by rewrite !orb_true_r. }
    destruct (r =? 35) eqn:H35.
    { assert (c = "#") as Hc by (by apply string_of_rune_35).
      assert (rawURL
              = ((baseURL ++ "/batches") ++ "?" ++ "limit=") ++ "#" ++ after_param "after" opts)
        as ->.
      { unfold rawURL. rewrite Hc, !append_assoc. reflexivity. }
      rewrite Parse_query_fragment; [by destruct (url.escape_error _)| | | |done].
      - rewrite !ctl_app, Hb1. reflexivity.
      - rewrite !has_byte_app, Hb2. reflexivity.
      - rewrite has_byte_app, Hb3. reflexivity. }
    assert (rawURL = (baseURL ++ "/batches") ++ "?" ++ "limit=" ++ c ++ after_param "after" opts)
      as ->.
    { unfold rawURL. rewrite !append_assoc. reflexivity. }
    rewrite Parse_query; [| | | |done].
    + replace (String.eqb ("limit=" ++ c ++ after_param "after" opts) "") with false;
        [reflexivity|]. symmetry. by apply String.eqb_neq.
    + rewrite !ctl_app, Hb1, Hc1, ?Hctl, Ha1. reflexivity.
    + rewrite !has_byte_app, Hb2, Hc2, ?H35, Ha2. reflexivity.
    + rewrite has_byte_app, Hb3. reflexivity.
  - apply utf8_decode_string_of_rune.
  - intros Hv. apply valid_rune_range in Hv. apply rune_of_int_small. lia.
  - by apply string_of_rune_not_Itoa.
  - unfold anthropic.ListBatches, http.NewRequestWithContext. cbn [ctx].
    rewrite anthropic_ListBatches_rawURL_limit by done.
    destruct (Itoa_plain _ Hpos) as (Hd1 & Hd2).
    assert (baseURL ++ "/v1/messages/batches?limit="
              ++ Itoa (provider.Limit opts) ++ after_param "after_id" opts
            = (baseURL ++ "/v1/messages/batches") ++ "?" ++ "limit="
                ++ Itoa (provider.Limit opts) ++ after_param "after_id" opts) as ->.
    { rewrite !append_assoc. reflexivity. }
    rewrite Parse_query; [| | | |done].
    + replace (String.eqb ("limit=" ++ Itoa (provider.Limit opts)
                             ++ after_param "after_id" opts) "") with false;
        [reflexivity|]. symmetry. by apply String.eqb_neq.
    + rewrite !ctl_app, Hb1, Hd1, Hi1. reflexivity.
    + rewrite !has_byte_app, Hb2, Hd2, Hi2. reflexivity.
    + rewrite has_byte_app, Hb3. reflexivity.
Qed.

End list_batches.

Section list_batches_worked.
Import refurl.

(** At the limit 65 and the cursor [batch_abc], the OpenAI adapter requests
    [limit=A&after=batch_abc] and the Anthropic adapter
    [limit=65&after_id=batch_abc]. *)
Lemma list_batches_limit_65 :
  openai.ListBatches (Some http.Background) "https://api.example.com" (Some samples.limit_65)
  = inr {| url.Prefix := "https://api.example.com/batches"; url.ForceQuery := false;
           url.RawQuery := "limit=A&after=batch_abc"; url.RawFragment := "" |}
  /\ anthropic.ListBatches (Some http.Background) "https://api.example.com"
       (Some samples.limit_65)
     = inr {| url.Prefix := "https://api.example.com/v1/messages/batches";
              url.ForceQuery := false;
              url.RawQuery := "limit=65&after_id=batch_abc"; url.RawFragment := "" |}.
Proof.
  destruct (@list_batches_limit_rendering refurl.syntax "https://api.example.com"
              samples.limit_65 eq_refl eq_refl eq_refl eq_refl eq_refl)
    as (Ho & _ & _ & _ & Ha).
  split; [rewrite Ho|rewrite Ha]; reflexivity.
Defined.

(** C9 as worded fails at the page sizes 10 and 35 and one past
    [unicode.MaxRune]: at 10 the character is a line feed and no request is
    made; at 35 it is [#] and the query of the request ends after [limit=];
    at 1114112 the query carries U+FFFD, whose code point is not the limit. *)
Lemma limit_is_not_always_one_code_point :
  ~ limit_is_one_code_point "https://api.openai.com/v1" samples.limit_10
  /\ ~ limit_is_one_code_point "https://api.openai.com/v1" samples.limit_35
  /\ ~ limit_is_one_code_point "https://api.openai.com/v1" samples.limit_past_MaxRune.
Proof.
  split; [|split]; intros (u & s & Hu & Hq & Hd).
  - vm_compute in Hu. discriminate Hu.
  - vm_compute in Hu. injection Hu as <-. cbn [url.RawQuery] in Hq.
    change ("limit=" ++ "" = "limit=" ++ s ++ after_param "after" samples.limit_35) in Hq.
    apply (inj (String.append _)) in Hq. destruct s; discriminate Hq.
  - vm_compute in Hu. injection Hu as <-. cbn [url.RawQuery] in Hq.
    change (after_param "after" samples.limit_past_MaxRune) with "" in Hq.
    rewrite append_empty_r in Hq.
    change ("limit=" ++ string_of_rune RuneError = "limit=" ++ s) in Hq.
    apply (inj (String.append _)) in Hq. subst s.
    vm_compute in Hd. discriminate Hd.
Qed.

End list_batches_worked.

(** * When a batch is done *)

(** [Manager.Wait] polls until the status of the job is done.  For a batch
    of OpenAI that is exactly when its status is [completed], [failed],
    [expired] or [cancelled]: under [cancelling], and under a status that the
    adapter does not know, the polling goes on.  For a batch of Anthropic it
    is exactly when its processing status is [ended], and the job is then
    reported [completed]: the adapter never reports [failed], [cancelled] or
    [expired], whatever the counts.  For a batch of Google it is exactly when
    the operation is done (reported [failed] with an error and [completed]
    without) or its state is one of succeeded, failed, cancelled and expired,
    under either prefix. *)
Theorem batch_done_by_provider_status :
  (forall b : openai.BatchObject,
     batch.IsDone (job_status (openai.convertBatchJob b))
     = bool_decide (openai.bo_Status b ∈ ["completed"; "failed"; "expired"; "cancelled"]))
  /\ (forall b : anthropic.BatchResponse,
        batch.IsDone (job_status (anthropic.convertBatchJob b))
        = String.eqb (anthropic.br_ProcessingStatus b) "ended"
        /\ job_status (anthropic.convertBatchJob b)
           ∈ [batch.StatusPending; batch.StatusInProgress; batch.StatusCompleted])
  /\ (forall b : google.BatchJob,
        batch.IsDone (google.convertBatchStatus b)
        = google.bj_Done b
          || match google.bj_Metadata b with
             | Some metadata =>
                 bool_decide
                   (google.bm_State metadata
                    ∈ ["JOB_STATE_SUCCEEDED"; "BATCH_STATE_SUCCEEDED";
                       "JOB_STATE_FAILED"; "BATCH_STATE_FAILED";
                       "JOB_STATE_CANCELLED"; "BATCH_STATE_CANCELLED";
                       "JOB_STATE_EXPIRED"; "BATCH_STATE_EXPIRED"])
             | None => false
             end
        /\ (google.bj_Done b = true ->
            google.convertBatchStatus b
            = match google.bj_Error b with
              | Some _ => batch.StatusFailed
              | None => batch.StatusCompleted
              end)).
Proof.
  split; [|split].
  - intros [id status counts]. unfold job_status. cbn.
    unfold openai.convertBatchStatus.
    repeat match goal with |- context [String.eqb status ?c] =>
             destruct (String.eqb_spec status c) as [->|?]; [by vm_compute|] end.
    rewrite bool_decide_eq_false_2; [reflexivity|].
    rewrite !elem_of_cons, elem_of_nil. intuition congruence.
  - intros [id status counts]. unfold job_status. cbn.
    unfold anthropic.convertBatchStatus.
    repeat match goal with |- context [String.eqb status ?c] =>
             destruct (String.eqb_spec status c) as [->|?];
               [split; [reflexivity|set_solver]|] end.
    split; [reflexivity|set_solver].
  - intros [[[state]|] done err]; cbn; unfold google.convertBatchStatus; cbn.
    + destruct done; [split; [by destruct err|by destruct err]|].
      split; [|discriminate]. cbn.
      repeat match goal with |- context [String.eqb state ?c] =>
               destruct (String.eqb_spec state c) as [->|?]; [by vm_compute|] end.
      cbn. rewrite bool_decide_eq_false_2; [reflexivity|].
      rewrite !elem_of_cons, elem_of_nil. intuition congruence.
    + destruct done; [split; [by destruct err|by destruct err]|].
      split; [reflexivity|discriminate].
Qed.

(** * Properties of the stream readers *)

Section stream_facts.
Context {R : Type} `{!StreamReader R}.

(** A reader whose [Next] answers "stream complete" without changing state
    does so forever. *)
Lemma complete_from_fixed (s : R) : Next s = (Complete, s) -> complete_from s.
Proof.
  intros H n. induction n as [|n IH]; [reflexivity|].
  cbn [drain]. rewrite H. destruct (drain n s) as [rs s2]. cbn in *. by f_equal.
Qed.

End stream_facts.

Section openai_reader.
Context `{!MapRange} `{!Unmarshal json} `{!Unmarshal openai.StreamChunk}.

Lemma openai_processToolCalls_kind s tcs e s' :
  openai.processToolCalls s tcs = (Some e, s') -> chunk_event e.
Proof.
  revert s. induction tcs as [|tc tcs IH]; intros s; cbn [openai.processToolCalls].
  - discriminate.
  - destruct (negb (String.eqb (openai.tc_ID tc) "")).
    + intros [= <- _]. right; left; reflexivity.
    + destruct (negb (String.eqb (openai.fc_Arguments (openai.tc_Function tc)) "")).
      * intros [= <- _]. right; right; reflexivity.
      * apply IH.
Qed.

Lemma openai_processChunk_kind s chunk e s' :
  openai.processChunk s chunk = (Some e, s') -> chunk_event e.
Proof.
  unfold openai.processChunk. destruct (openai.ch_Choices chunk) as [|choice ?].
  - discriminate.
  - destruct (negb (String.eqb (openai.md_Content (openai.sc_Delta choice)) "")).
    + intros [= <- _]. left; reflexivity.
    + apply openai_processToolCalls_kind.
Qed.

(** What the loop of [Next] can return, and the state it leaves. *)
Lemma openai_readLoop_result ls s :
  match openai.readLoop ls s with
  | (Event e, s') =>
      chunk_event e \/ (ev_Type e = StreamEventDone /\ openai.done s' = true)
  | (Complete, s') => openai.done s' = true
  | (Failed _, _) => True
  | (Panic, _) | (OutOfFuel, _) => False
  end.
Proof.
  revert s. induction ls as [|line ls IH]; intros s; cbn [openai.readLoop].
  - cbn. destruct (provider.rest_err (openai.body s)); cbn; done.
  - destruct (String.eqb (TrimSpace line) ""); [apply IH|].
    destruct (negb (HasPrefix (TrimSpace line) "data: ")); [apply IH|].
    destruct (String.eqb (TrimPrefix (TrimSpace line) "data: ") "[DONE]").
    { right. split; reflexivity. }
    destruct (unmarshal _) as [chunk|]; [|apply IH].
    destruct (openai.processChunk _ chunk) as [[e|] s'] eqn:Hp; [|apply IH].
    left. by eapply openai_processChunk_kind.
Qed.

Lemma openai_Next_done s :
  openai.done s = true -> openai.Next s = (Complete, s).
Proof. intros Hd. unfold openai.Next. by rewrite Hd. Qed.

Lemma openai_Next_result s :
  match openai.Next s with
  | (Event e, s') =>
      chunk_event e \/ (ev_Type e = StreamEventDone /\ openai.done s' = true)
  | (Complete, s') => openai.done s' = true
  | (Failed _, _) => True
  | (Panic, _) | (OutOfFuel, _) => False
  end.
Proof.
  unfold openai.Next. destruct (openai.done s) eqn:Hd; [exact Hd|].
  apply openai_readLoop_result.
Qed.

Lemma chunk_event_not_done e : chunk_event e -> ev_Type e <> StreamEventDone.
Proof. intros [Hk|[Hk|Hk]]; rewrite Hk; discriminate. Qed.

Lemma chunk_event_not_start e : chunk_event e -> ev_Type e <> StreamEventStart.
Proof. intros [Hk|[Hk|Hk]]; rewrite Hk; discriminate. Qed.

Lemma openai_complete_after_terminal (s s' : openai.streamReader) r :
  Next s = (r, s') -> terminal r -> complete_from s'.
Proof.
  intros HN Ht. apply complete_from_fixed. apply openai_Next_done.
  pose proof (openai_Next_result s) as Hr. cbn in HN. rewrite HN in Hr.
  destruct Ht as [->|(e & -> & He)]; [exact Hr|].
  destruct Hr as [Hk|[_ Hd]]; [|exact Hd].
  by apply chunk_event_not_done in Hk.
Qed.

(** The OpenAI reader never builds a [Start] event. *)
Lemma openai_Next_never_start s e s' :
  openai.Next s = (Event e, s') -> ev_Type e <> StreamEventStart.
Proof.
  intros HN. pose proof (openai_Next_result s) as Hr. rewrite HN in Hr.
  destruct Hr as [Hk|[Hd _]]; [by apply chunk_event_not_start|].
  rewrite Hd. discriminate.
Qed.

End openai_reader.

Section anthropic_reader.
Context `{!Unmarshal anthropic.MessageStart} `{!Unmarshal anthropic.ContentBlockStart}
        `{!Unmarshal anthropic.ContentBlockDelta} `{!Unmarshal anthropic.ContentBlockStop}
        `{!Unmarshal anthropic.MessageDelta} `{!Unmarshal anthropic.StreamError}.

Lemma ensureBlocks_no_input blocks index :
  Forall no_input blocks -> Forall no_input (anthropic.ensureBlocks blocks index).
Proof.
  intros Hb. unfold anthropic.ensureBlocks. apply Forall_app. split; [done|].
  apply Forall_replicate. reflexivity.
Qed.

(** [processEvent] keeps what was accumulated free of tool inputs and input
    token counts, leaves the body and the stored response alone, raises its
    [done] flag with the [Done] event, and builds [Start] from
    [message_start] only. *)
Lemma anthropic_processEvent_result s eventType data ev d s1 :
  anthropic.processEvent s eventType data = Some (ev, d, s1) ->
  anthropic_acc s ->
  anthropic_acc s1
  /\ anthropic.body s1 = anthropic.body s
  /\ anthropic.response s1 = anthropic.response s
  /\ (forall e, ev = Some e -> ev_Type e = StreamEventDone -> d = true)
  /\ (forall e, ev = Some e -> ev_Type e = StreamEventStart ->
        eventType = "message_start").
Proof.
  unfold anthropic.processEvent, anthropic_acc.
  intros Hp (Hb & Hc & Hu).
  repeat (case_match; simplify_eq; try discriminate);
    cbn [anthropic.contentBlocks anthropic.toolCalls anthropic.usage
         anthropic.response anthropic.body anthropic.set_start
         anthropic.set_blocks anthropic.set_toolCalls anthropic.set_stop];
    (split; [repeat split; try done|
             split; [reflexivity|
                     split; [reflexivity|
                             split; intros e' [= <-]; try done; try discriminate]]]).
  all: try (apply Forall_insert; [by apply ensureBlocks_no_input|reflexivity]).
  all: try match goal with
       | Hl : anthropic.contentBlocks _ !! _ = Some ?b |- _ =>
           pose proof (Forall_lookup_1 _ _ _ _ Hb Hl) as Hbb
       end.
  all: try (apply Forall_insert; [done|exact Hbb]).
  all: try (apply Forall_app; split; [done|]; apply Forall_singleton; exact Hbb).
  intros _. by apply String.eqb_eq.
Qed.

Lemma anthropic_inv_set_body s b : anthropic_inv s -> anthropic_inv (anthropic.set_body s b).
Proof. intros Hi. exact Hi. Qed.

Lemma anthropic_inv_finish s : anthropic_inv s -> anthropic_inv (anthropic.finish s).
Proof.
  intros [(Hb & Hc & Hu) Hr]. split; [by repeat split|].
  intros r [= <-]. unfold response_without_inputs, anthropic.buildResponse. cbn.
  repeat split; try done; by destruct (anthropic.usage s) as [u|]; [apply Hu|].
Qed.

Lemma anthropic_atEnd_ok s : anthropic_inv s -> anthropic_ok (anthropic.atEnd s).
Proof.
  intros Hi. unfold anthropic.atEnd. cbn.
  destruct (provider.rest_err (anthropic.body s)); split; cbn.
  - by apply anthropic_inv_finish.
  - reflexivity.
  - exact Hi.
  - intros [?|(e & ? & _)]; discriminate.
Qed.

Lemma anthropic_handleEvent_ok s line dataLine continue :
  anthropic_inv s ->
  (forall s, anthropic_inv s -> anthropic_ok (continue s)) ->
  anthropic_ok (anthropic.handleEvent s line dataLine continue).
Proof.
  intros Hi Hk. unfold anthropic.handleEvent.
  destruct (negb (HasPrefix (TrimSpace dataLine) "data: ")); [by apply Hk|].
  destruct (anthropic.processEvent s _ _) as [[[ev d] s1]|] eqn:Hp.
  - destruct Hi as [Hacc Hr].
    destruct (anthropic_processEvent_result _ _ _ _ _ _ Hp Hacc)
      as (Hacc1 & _ & Hr1 & Hdone & _).
    assert (anthropic_inv s1) as Hi1.
    { split; [exact Hacc1|]. intros r. rewrite Hr1. apply Hr. }
    assert (anthropic_inv (if d then anthropic.finish s1 else s1)) as Hi2.
    { destruct d; [by apply anthropic_inv_finish|exact Hi1]. }
    destruct ev as [e|]; [|by apply Hk].
    split; [exact Hi2|]. cbn.
    intros [?|(e' & [= <-] & He)]; [discriminate|].
    by rewrite (Hdone e eq_refl He).
  - split; [exact Hi|]. cbn. intros [?|(e & ? & _)]; discriminate.
Qed.

Lemma anthropic_readLoop_ok ls s :
  anthropic_inv s -> anthropic_ok (anthropic.readLoop ls s).
Proof.
  revert s. induction ls as [ls IH] using (induction_ltof1 _ (@length string)).
  unfold ltof in IH. intros s Hi.
  destruct ls as [|line ls]; cbn [anthropic.readLoop]; [by apply anthropic_atEnd_ok|].
  destruct (String.eqb (TrimSpace line) ""); [apply IH; [cbn; lia|done]|].
  destruct (HasPrefix (TrimSpace line) "event: "); [|apply IH; [cbn; lia|done]].
  destruct ls as [|dataLine ls].
  - destruct (provider.rest_err (anthropic.body s)) eqn:He.
    + apply anthropic_handleEvent_ok; [exact Hi|]. apply anthropic_atEnd_ok.
    + split; [exact Hi|]. cbn. intros [?|(e & ? & _)]; discriminate.
  - apply anthropic_handleEvent_ok; [exact Hi|]. intros s1 Hi1.
    apply IH; [cbn; lia|done].
Qed.

Lemma anthropic_Next_ok s :
  anthropic_inv s -> anthropic_ok (anthropic.Next s).
Proof.
  intros Hi. unfold anthropic.Next. destruct (anthropic.done s) eqn:Hd.
  - split; [exact Hi|]. intros _. exact Hd.
  - by apply anthropic_readLoop_ok.
Qed.

Lemma anthropic_inv_new body : anthropic_inv (anthropic.newStreamReader body).
Proof.
  split; [repeat split; cbn; constructor|]. intros r. cbn. discriminate.
Qed.

Lemma anthropic_drain_inv n s :
  anthropic_inv s -> anthropic_inv (snd (drain n s)).
Proof.
  revert s. induction n as [|n IH]; intros s Hi; [exact Hi|].
  cbn [drain]. pose proof (anthropic_Next_ok s Hi) as [Hi1 _].
  cbn in Hi1 |- *. destruct (anthropic.Next s) as [r s1].
  specialize (IH s1 Hi1). destruct (drain n s1) as [rs s2]. exact IH.
Qed.

Lemma anthropic_Next_done s :
  anthropic.done s = true -> anthropic.Next s = (Complete, s).
Proof. intros Hd. unfold anthropic.Next. by rewrite Hd. Qed.

(** [terminal] needs no invariant: the facts about [done] hold from every
    state. *)
Lemma anthropic_handleEvent_terminal s line dataLine continue :
  (forall s, terminal (fst (continue s)) -> anthropic.done (snd (continue s)) = true) ->
  terminal (fst (anthropic.handleEvent s line dataLine continue)) ->
  anthropic.done (snd (anthropic.handleEvent s line dataLine continue)) = true.
Proof.
  intros Hk. unfold anthropic.handleEvent.
  destruct (negb (HasPrefix (TrimSpace dataLine) "data: ")); [by apply Hk|].
  destruct (anthropic.processEvent s _ _) as [[[ev d] s1]|] eqn:Hp.
  - destruct ev as [e|]; [|by apply Hk]. cbn.
    intros [?|(e' & [= <-] & He)]; [discriminate|].
    unfold anthropic.processEvent in Hp.
    repeat (case_match; simplify_eq; try discriminate);
      try discriminate He; reflexivity.
  - cbn. intros [?|(e & ? & _)]; discriminate.
Qed.

Lemma anthropic_atEnd_terminal s :
  terminal (fst (anthropic.atEnd s)) -> anthropic.done (snd (anthropic.atEnd s)) = true.
Proof.
  unfold anthropic.atEnd. cbn. destruct (provider.rest_err (anthropic.body s)); cbn.
  - reflexivity.
  - intros [?|(e & ? & _)]; discriminate.
Qed.

Lemma anthropic_readLoop_terminal ls s :
  terminal (fst (anthropic.readLoop ls s)) ->
  anthropic.done (snd (anthropic.readLoop ls s)) = true.
Proof.
  revert s. induction ls as [ls IH] using (induction_ltof1 _ (@length string)).
  unfold ltof in IH. intros s.
  destruct ls as [|line ls]; cbn [anthropic.readLoop]; [apply anthropic_atEnd_terminal|].
  destruct (String.eqb (TrimSpace line) ""); [apply IH; cbn; lia|].
  destruct (HasPrefix (TrimSpace line) "event: "); [|apply IH; cbn; lia].
  destruct ls as [|dataLine ls].
  - destruct (provider.rest_err (anthropic.body s)) eqn:He.
    + apply anthropic_handleEvent_terminal. apply anthropic_atEnd_terminal.
    + cbn. intros [?|(e & ? & _)]; discriminate.
  - apply anthropic_handleEvent_terminal. intros s1. apply IH. cbn; lia.
Qed.

Lemma anthropic_complete_after_terminal (s s' : anthropic.streamReader) r :
  Next s = (r, s') -> terminal r -> complete_from s'.
Proof.
  intros HN Ht. apply complete_from_fixed. apply anthropic_Next_done.
  cbn in HN. unfold anthropic.Next in HN.
  destruct (anthropic.done s) eqn:Hd.
  - by injection HN as <- <-.
  - pose proof (anthropic_readLoop_terminal (provider.lines (anthropic.body s)) s) as Hl.
    rewrite HN in Hl. by apply Hl.
Qed.

End anthropic_reader.

Section google_reader.
Context {D : Type} `{!google.Decoder D}.

Lemma google_processParts_kind (s : google.streamReader (D:=D)) parts e s' :
  google.processParts s parts = (Some e, s') ->
  ev_Type e = StreamEventContentDelta \/ ev_Type e = StreamEventToolCallStart.
Proof.
  revert s. induction parts as [|part parts IH]; intros s; cbn [google.processParts].
  - discriminate.
  - destruct (negb (String.eqb (google.Text part) "")).
    + intros [= <- _]. by left.
    + destruct (google.FunctionCall_ part).
      * intros [= <- _]. by right.
      * apply IH.
Qed.

Lemma google_processChunk_kind (s : google.streamReader (D:=D)) chunk e s' :
  google.processChunk s chunk = (Some e, s') ->
  ev_Type e = StreamEventContentDelta \/ ev_Type e = StreamEventToolCallStart.
Proof.
  unfold google.processChunk. destruct (google.Candidates chunk) as [|candidate ?].
  - discriminate.
  - destruct (google.cand_Content candidate); [apply google_processParts_kind|discriminate].
Qed.

Lemma google_decodeLoop_terminal fuel (s : google.streamReader (D:=D)) :
  terminal (fst (google.decodeLoop fuel s)) ->
  google.done (snd (google.decodeLoop fuel s)) = true.
Proof.
  revert s. induction fuel as [|fuel IH]; intros s; cbn [google.decodeLoop].
  - cbn. intros [?|(e & ? & _)]; discriminate.
  - destruct (google.dec_More (google.decoder s)); [|reflexivity].
    destruct (google.dec_Decode (google.decoder s)) as [[err|chunk] d].
    + destruct err; [reflexivity|apply IH].
    + destruct (google.processChunk _ chunk) as [[e|] s'] eqn:Hp; [|apply IH].
      cbn. intros [?|(e' & [= <-] & He)]; [discriminate|].
      apply google_processChunk_kind in Hp as [Hk|Hk]; rewrite Hk in He; discriminate.
Qed.

Lemma google_Next_terminal fuel (s : google.streamReader (D:=D)) :
  terminal (fst (google.Next fuel s)) ->
  google.done (snd (google.Next fuel s)) = true.
Proof.
  unfold google.Next. destruct (google.done s) eqn:Hd; [done|].
  destruct (negb (google.started s)).
  { cbn. intros [?|(e & [= <-] & He)]; discriminate. }
  destruct (negb (google.arrayStarted s)); [|apply google_decodeLoop_terminal].
  destruct (google.dec_Token (google.decoder s)) as [[err|tok] d].
  - destruct err; [reflexivity|]. cbn. intros [?|(e & ? & _)]; discriminate.
  - destruct tok as [c|v]; [destruct (Ascii.eqb c "[")|]; apply google_decodeLoop_terminal.
Qed.

Lemma google_complete_after_terminal fuel (s s' : google.streamReader (D:=D)) r :
  Next (StreamReader:=google.reader fuel) s = (r, s') ->
  terminal r ->
  complete_from (StreamReader0:=google.reader fuel) s'.
Proof.
  intros HN Ht. apply complete_from_fixed. cbn in HN |- *.
  pose proof (google_Next_terminal fuel s) as Hl. rewrite HN in Hl.
  cbn [fst snd] in Hl. unfold google.Next. by rewrite (Hl Ht).
Qed.

(** A fresh Google reader answers its first call with the [Start] event. *)
Lemma google_first_event_is_start fuel (body : D) model :
  fst (google.Next fuel (google.newStreamReader body model))
  = Event (StartEvent "" model).
Proof. reflexivity. Qed.

End google_reader.

(** * The text of a streamed response *)

Lemma delta_text_ContentDeltaEvent text index :
  delta_text (Event (ContentDeltaEvent text index)) = text.
Proof. reflexivity. Qed.

Lemma Text_snoc_other (acc : string) (blocks : list ContentBlock) (b : ContentBlock) :
  String.eqb (cb_Type b) ContentTypeText = false ->
  foldl (fun text block =>
           if String.eqb (cb_Type block) ContentTypeText
           then text ++ cb_Text block else text) acc (blocks ++ [b])
  = foldl (fun text block =>
             if String.eqb (cb_Type block) ContentTypeText
             then text ++ cb_Text block else text) acc blocks.
Proof. intros Hb. rewrite foldl_app. cbn [foldl]. by rewrite Hb. Qed.

Lemma Text_snoc_text (acc : string) (blocks : list ContentBlock) (b : ContentBlock) :
  String.eqb (cb_Type b) ContentTypeText = true ->
  foldl (fun text block =>
           if String.eqb (cb_Type block) ContentTypeText
           then text ++ cb_Text block else text) acc (blocks ++ [b])
  = foldl (fun text block =>
             if String.eqb (cb_Type block) ContentTypeText
             then text ++ cb_Text block else text) acc blocks ++ cb_Text b.
Proof. intros Hb. rewrite foldl_app. cbn [foldl]. by rewrite Hb. Qed.

Section openai_text.
Context `{!MapRange} `{!Unmarshal json} `{!Unmarshal openai.StreamChunk}.

Lemma openai_finalizeToolCalls_text inputs entries content calls acc :
  foldl (fun text block =>
           if String.eqb (cb_Type block) ContentTypeText
           then text ++ cb_Text block else text) acc
    (fst (openai.finalizeToolCalls inputs entries content calls))
  = foldl (fun text block =>
             if String.eqb (cb_Type block) ContentTypeText
             then text ++ cb_Text block else text) acc content.
Proof.
  revert content calls. induction entries as [|[idx tc] entries IH]; intros content calls;
    cbn [openai.finalizeToolCalls]; [reflexivity|].
  rewrite IH. by apply Text_snoc_other.
Qed.

(** The text of the response that the reader builds is the text it has
    accumulated. *)
Lemma openai_buildResponse_Text s :
  types.Text (openai.buildResponse s) = openai.content s.
Proof.
  unfold types.Text, openai.buildResponse.
  pose proof (openai_finalizeToolCalls_text (openai.toolInputs s)
                (range (openai.toolCalls s))
                (if String.eqb (openai.content s) "" then []
                 else [TextBlock (openai.content s)]) [] "") as Ht.
  destruct (openai.finalizeToolCalls _ _ _ _) as [content' calls']. cbn [fst] in Ht.
  cbn [resp_Content]. rewrite Ht.
  destruct (String.eqb (openai.content s) "") eqn:He; [|reflexivity].
  apply String.eqb_eq in He. by rewrite He.
Qed.

Lemma openai_processToolCalls_text s tcs :
  let res := openai.processToolCalls s tcs in
  openai.content (snd res) = openai.content s
  /\ openai.done (snd res) = openai.done s
  /\ openai.response (snd res) = openai.response s
  /\ forall e, fst res = Some e -> delta_text (Event e) = "" /\ is_terminal (Event e) = false.
Proof.
  revert s. induction tcs as [|tc tcs IH]; intros s; cbn [openai.processToolCalls].
  - cbn. by repeat split.
  - destruct (negb (String.eqb (openai.tc_ID tc) "")).
    { cbn. do 3 (split; [reflexivity|]). by intros e [= <-]. }
    destruct (negb (String.eqb (openai.fc_Arguments (openai.tc_Function tc)) "")).
    { cbn. destruct (openai.toolInputs s !! _);
        (do 3 (split; [reflexivity|])); by intros e [= <-]. }
    apply IH.
Qed.

Lemma openai_processChunk_text s chunk :
  let res := openai.processChunk s chunk in
  openai.done (snd res) = openai.done s
  /\ openai.response (snd res) = openai.response s
  /\ match fst res with
     | Some e =>
         openai.content (snd res) = openai.content s ++ delta_text (Event e)
         /\ is_terminal (Event e) = false
     | None => openai.content (snd res) = openai.content s
     end.
Proof.
  unfold openai.processChunk. destruct (openai.ch_Choices chunk) as [|choice ?].
  { cbn. by repeat split. }
  destruct (negb (String.eqb (openai.md_Content (openai.sc_Delta choice)) "")).
  { cbn. by repeat split. }
  match goal with |- context [openai.processToolCalls ?s1 ?tcs] =>
    destruct (openai_processToolCalls_text s1 tcs) as (Hc & Hd & Hr & He);
    destruct (openai.processToolCalls s1 tcs) as [[e|] s'] end;
    cbn [fst snd] in *; rewrite Hc, Hd, Hr.
  - destruct (He e eq_refl) as [Ht Hn]. rewrite Ht, Hn, append_empty_r. by repeat split.
  - by repeat split.
Qed.

(** One call of the loop of [Next] on a reader that is not done. *)
Lemma openai_readLoop_text ls s :
  openai.done s = false ->
  openai.response s = None ->
  let res := openai.readLoop ls s in
  openai.content (snd res) = openai.content s ++ delta_text (fst res)
  /\ openai.done (snd res) = is_terminal (fst res)
  /\ (if is_terminal (fst res)
      then exists r, openai.response (snd res) = Some r
                     /\ types.Text r = openai.content (snd res)
      else openai.response (snd res) = None).
Proof.
  revert s. induction ls as [|line ls IH]; intros s Hd Hr; cbn [openai.readLoop].
  - cbn. destruct (provider.rest_err (openai.body s)); cbn.
    + rewrite append_empty_r. repeat split.
      eexists. split; [reflexivity|]. by rewrite openai_buildResponse_Text.
    + rewrite append_empty_r. by repeat split.
  - destruct (String.eqb (TrimSpace line) ""); [by apply IH|].
    destruct (negb (HasPrefix (TrimSpace line) "data: ")); [by apply IH|].
    destruct (String.eqb (TrimPrefix (TrimSpace line) "data: ") "[DONE]").
    { cbn. rewrite append_empty_r. repeat split.
      eexists. split; [reflexivity|]. by rewrite openai_buildResponse_Text. }
    match goal with |- context [openai.set_body s ?b] =>
      set (s1 := openai.set_body s b) end.
    change (openai.content s) with (openai.content s1).
    assert (openai.done s1 = false) as Hd1 by exact Hd.
    assert (openai.response s1 = None) as Hr1 by exact Hr.
    clearbody s1. clear s Hd Hr.
    destruct (unmarshal _) as [chunk|]; [|by apply IH].
    destruct (openai_processChunk_text s1 chunk) as (Hd' & Hr' & He).
    destruct (openai.processChunk s1 chunk) as [[e|] s']; cbn [fst snd] in *.
    + destruct He as [Hc Ht]. rewrite Ht, Hc, Hd', Hr'. by repeat split.
    + destruct (IH s') as (Hc' & IH2); [by rewrite Hd'|by rewrite Hr'|].
      split; [by rewrite Hc', He|exact IH2].
Qed.

Lemma openai_Next_text s :
  (if openai.done s
   then exists r, openai.response s = Some r /\ types.Text r = openai.content s
   else openai.response s = None) ->
  let res := openai.Next s in
  openai.content (snd res) = openai.content s ++ delta_text (fst res)
  /\ openai.done (snd res) = openai.done s || is_terminal (fst res)
  /\ (if openai.done (snd res)
      then exists r, openai.response (snd res) = Some r
                     /\ types.Text r = openai.content (snd res)
      else openai.response (snd res) = None).
Proof.
  intros Hinv. unfold openai.Next. destruct (openai.done s) eqn:Hd.
  - cbn. rewrite Hd, append_empty_r. by repeat split.
  - destruct (openai_readLoop_text (provider.lines (openai.body s)) s Hd Hinv)
      as (Hc & Hd' & Hr).
    cbn zeta. rewrite Hd'. by repeat split.
Qed.

Lemma openai_drain_text n s :
  (if openai.done s
   then exists r, openai.response s = Some r /\ types.Text r = openai.content s
   else openai.response s = None) ->
  let run := drain n s in
  openai.content (snd run) = openai.content s ++ streamed_text (fst run)
  /\ openai.done (snd run) = openai.done s || existsb is_terminal (fst run)
  /\ (if openai.done (snd run)
      then exists r, openai.response (snd run) = Some r
                     /\ types.Text r = openai.content (snd run)
      else openai.response (snd run) = None).
Proof.
  revert s. induction n as [|n IH]; intros s Hinv; cbn [drain].
  - cbn. rewrite append_empty_r, orb_false_r. by repeat split.
  - destruct (openai_Next_text s Hinv) as (Hc & Hd & Hr).
    change (@Next _ openai.reader s) with (openai.Next s).
    destruct (openai.Next s) as [r s1]. cbn [fst snd] in *.
    specialize (IH s1 Hr). destruct (drain n s1) as [rs s2]. cbn [fst snd] in *.
    destruct IH as (Hc2 & Hd2 & Hr2).
    cbn [streamed_text foldr existsb]. fold (streamed_text rs).
    split; [by rewrite Hc2, Hc, append_assoc|].
    split; [by rewrite Hd2, Hd, orb_assoc|exact Hr2].
Qed.

(** The OpenAI reader: [Response] is [nil] as long as no call of [Next] has
    returned the [Done] event or "stream complete"; from then on it holds a
    response whose text ([Text]) is the texts of the [ContentDelta] events
    that [Next] returned, in order, as one text. *)
Theorem openai_response_text_is_streamed_text (body : provider.Body) (n : nat) :
  let run := drain n (openai.newStreamReader body) in
  match Response (snd run) with
  | Some r =>
      existsb is_terminal (fst run) = true
      /\ types.Text r = streamed_text (fst run)
  | None => existsb is_terminal (fst run) = false
  end.
Proof.
  destruct (openai_drain_text n (openai.newStreamReader body) eq_refl)
    as (Hc & Hd & Hr).
  cbn zeta.
  change (Response (drain n (openai.newStreamReader body)).2)
    with (openai.response (drain n (openai.newStreamReader body)).2).
  cbn [openai.content openai.newStreamReader openai.done orb] in Hc, Hd.
  rewrite <- Hd.
  destruct (openai.done (drain n (openai.newStreamReader body)).2).
  - destruct Hr as (r & -> & Ht). split; [reflexivity|]. by rewrite Ht, Hc.
  - by rewrite Hr.
Qed.

End openai_text.

Section google_text.
Context {D : Type} `{!google.Decoder D}.

Lemma last_snoc_inv {A} (l : list A) (x : A) :
  last l = Some x -> l = (removelast l ++ [x])%list.
Proof.
  induction l as [|a l IH]; [discriminate|].
  destruct l as [|b l]; [by intros [= ->]|].
  intros Hl. cbn [removelast]. cbn [app]. f_equal. by apply IH.
Qed.

(** Appending a text to the blocks appends it to their text. *)
Lemma google_appendText_Text acc blocks text :
  foldl (fun text block =>
           if String.eqb (cb_Type block) ContentTypeText
           then text ++ cb_Text block else text) acc (google.appendText blocks text)
  = foldl (fun text block =>
             if String.eqb (cb_Type block) ContentTypeText
             then text ++ cb_Text block else text) acc blocks ++ text.
Proof.
  unfold google.appendText. destruct (last blocks) as [b|] eqn:Hl.
  - destruct (String.eqb (cb_Type b) ContentTypeText) eqn:Hb.
    + rewrite (last_snoc_inv _ _ Hl) at 2.
      rewrite !Text_snoc_text by done. cbn [append_Text cb_Text].
      by rewrite append_assoc.
    + by rewrite Text_snoc_text.
  - by rewrite Text_snoc_text.
Qed.

Lemma google_processParts_text (s : google.streamReader (D:=D)) parts :
  let res := google.processParts s parts in
  google.done (snd res) = google.done s
  /\ google.response (snd res) = google.response s
  /\ types.Text (google.buildResponse (snd res))
     = types.Text (google.buildResponse s)
       ++ match fst res with Some e => delta_text (Event e) | None => "" end
  /\ match fst res with Some e => is_terminal (Event e) = false | None => True end.
Proof.
  revert s. induction parts as [|part parts IH]; intros s; cbn [google.processParts].
  - cbn. rewrite append_empty_r. by repeat split.
  - destruct (negb (String.eqb (google.Text part) "")).
    { cbn [fst snd]. repeat split. unfold types.Text. cbn. apply google_appendText_Text. }
    destruct (google.FunctionCall_ part) as [call|]; [|apply IH].
    cbn [fst snd]. repeat split. unfold types.Text. cbn.
    rewrite append_empty_r. by apply Text_snoc_other.
Qed.

Lemma google_processChunk_text (s : google.streamReader (D:=D)) chunk :
  let res := google.processChunk s chunk in
  google.done (snd res) = google.done s
  /\ google.response (snd res) = google.response s
  /\ types.Text (google.buildResponse (snd res))
     = types.Text (google.buildResponse s)
       ++ match fst res with Some e => delta_text (Event e) | None => "" end
  /\ match fst res with Some e => is_terminal (Event e) = false | None => True end.
Proof.
  unfold google.processChunk. destruct (google.Candidates chunk) as [|candidate ?].
  { cbn. rewrite append_empty_r. by repeat split. }
  destruct (google.cand_Content candidate) as [content|].
  - match goal with |- context [google.processParts ?s1 ?parts] =>
      exact (google_processParts_text s1 parts) end.
  - cbn. rewrite append_empty_r. by repeat split.
Qed.

Lemma google_finish_text (s : google.streamReader (D:=D)) :
  let res := google.finish s in
  types.Text (google.buildResponse (snd res))
  = types.Text (google.buildResponse s) ++ delta_text (fst res)
  /\ google.done (snd res) = is_terminal (fst res)
  /\ (if is_terminal (fst res)
      then exists r, google.response (snd res) = Some r
                     /\ types.Text r = types.Text (google.buildResponse (snd res))
      else google.response (snd res) = None).
Proof.
  cbn. rewrite append_empty_r. repeat split. eexists. by split.
Qed.

Lemma google_decodeLoop_text fuel (s : google.streamReader (D:=D)) :
  google.done s = false ->
  google.response s = None ->
  let res := google.decodeLoop fuel s in
  types.Text (google.buildResponse (snd res))
  = types.Text (google.buildResponse s) ++ delta_text (fst res)
  /\ google.done (snd res) = is_terminal (fst res)
  /\ (if is_terminal (fst res)
      then exists r, google.response (snd res) = Some r
                     /\ types.Text r = types.Text (google.buildResponse (snd res))
      else google.response (snd res) = None).
Proof.
  revert s. induction fuel as [|fuel IH]; intros s Hd Hr; cbn [google.decodeLoop].
  - cbn. rewrite append_empty_r. by repeat split.
  - destruct (google.dec_More (google.decoder s)); [|apply google_finish_text].
    destruct (google.dec_Decode (google.decoder s)) as [[err|chunk] d].
    + destruct err; [apply (google_finish_text (google.set_decoder s d))|].
      by apply (IH (google.set_decoder s d)).
    + destruct (google_processChunk_text (google.set_decoder s d) chunk)
        as (Hd' & Hr' & Ht & He).
      destruct (google.processChunk _ chunk) as [[e|] s']; cbn [fst snd] in *.
      * rewrite He, Hd', Hr'. by repeat split.
      * rewrite append_empty_r in Ht.
        destruct (IH s') as (Hc' & IH2); [by rewrite Hd'|by rewrite Hr'|].
        split; [by rewrite Hc', Ht|exact IH2].
Qed.

Lemma google_Next_text fuel (s : google.streamReader (D:=D)) :
  (if google.done s
   then exists r, google.response s = Some r
                  /\ types.Text r = types.Text (google.buildResponse s)
   else google.response s = None) ->
  let res := google.Next fuel s in
  types.Text (google.buildResponse (snd res))
  = types.Text (google.buildResponse s) ++ delta_text (fst res)
  /\ google.done (snd res) = google.done s || is_terminal (fst res)
  /\ (if google.done (snd res)
      then exists r, google.response (snd res) = Some r
                     /\ types.Text r = types.Text (google.buildResponse (snd res))
      else google.response (snd res) = None).
Proof.
  intros Hinv. unfold google.Next. destruct (google.done s) eqn:Hd.
  { cbn. rewrite Hd, append_empty_r. by repeat split. }
  assert (forall res : NextResult * google.streamReader (D:=D),
            types.Text (google.buildResponse (snd res))
            = types.Text (google.buildResponse s) ++ delta_text (fst res)
            /\ google.done (snd res) = is_terminal (fst res)
            /\ (if is_terminal (fst res)
                then exists r, google.response (snd res) = Some r
                               /\ types.Text r = types.Text (google.buildResponse (snd res))
                else google.response (snd res) = None) ->
            types.Text (google.buildResponse (snd res))
            = types.Text (google.buildResponse s) ++ delta_text (fst res)
            /\ google.done (snd res) = false || is_terminal (fst res)
            /\ (if google.done (snd res)
                then exists r, google.response (snd res) = Some r
                               /\ types.Text r
                                  = types.Text (google.buildResponse (snd res))
                else google.response (snd res) = None)) as Hstep.
  { intros res (Hc & Hd' & Hr). rewrite Hd'. by repeat split. }
  destruct (negb (google.started s)).
  { cbn. rewrite Hd, append_empty_r. by repeat split. }
  destruct (negb (google.arrayStarted s));
    [|apply Hstep; by apply google_decodeLoop_text].
  destruct (google.dec_Token (google.decoder s)) as [[err|tok] d].
  - destruct err.
    + apply Hstep. apply (google_finish_text (google.set_decoder s d)).
    + cbn. rewrite Hd, append_empty_r. by repeat split.
  - destruct tok as [c|v]; [destruct (Ascii.eqb c "[")|]; apply Hstep.
    + by apply (google_decodeLoop_text fuel
                  (google.set_arrayStarted (google.set_decoder s d))).
    + by apply (google_decodeLoop_text fuel (google.set_decoder s d)).
    + by apply (google_decodeLoop_text fuel (google.set_decoder s d)).
Qed.

Lemma google_drain_text fuel n (s : google.streamReader (D:=D)) :
  (if google.done s
   then exists r, google.response s = Some r
                  /\ types.Text r = types.Text (google.buildResponse s)
   else google.response s = None) ->
  let run := drain (StreamReader0:=google.reader fuel) n s in
  types.Text (google.buildResponse (snd run))
  = types.Text (google.buildResponse s) ++ streamed_text (fst run)
  /\ google.done (snd run) = google.done s || existsb is_terminal (fst run)
  /\ (if google.done (snd run)
      then exists r, google.response (snd run) = Some r
                     /\ types.Text r = types.Text (google.buildResponse (snd run))
      else google.response (snd run) = None).
Proof.
  revert s. induction n as [|n IH]; intros s Hinv; cbn [drain].
  - cbn. rewrite append_empty_r, orb_false_r. by repeat split.
  - destruct (google_Next_text fuel s Hinv) as (Hc & Hd & Hr).
    change (@Next _ (google.reader fuel) s) with (google.Next fuel s).
    destruct (google.Next fuel s) as [r s1]. cbn [fst snd] in *.
    specialize (IH s1 Hr).
    destruct (drain (StreamReader0:=google.reader fuel) n s1) as [rs s2].
    cbn [fst snd] in *. destruct IH as (Hc2 & Hd2 & Hr2).
    cbn [streamed_text foldr existsb]. fold (streamed_text rs).
    split; [by rewrite Hc2, Hc, append_assoc|].
    split; [by rewrite Hd2, Hd, orb_assoc|exact Hr2].
Qed.

(** The Google reader, whatever the decoder does and whatever the fuel of
    the loop: [Response] is [nil] as long as no call of [Next] has returned
    the [Done] event or "stream complete"; from then on it holds a response
    whose text ([Text]) is the texts of the [ContentDelta] events that [Next]
    returned, in order, as one text. *)
Theorem google_response_text_is_streamed_text (fuel : nat) (body : D) (model : string)
    (n : nat) :
  let run := drain (StreamReader0:=google.reader fuel) n (google.newStreamReader body model) in
  match Response (StreamReader:=google.reader fuel) (snd run) with
  | Some r =>
      existsb is_terminal (fst run) = true
      /\ types.Text r = streamed_text (fst run)
  | None => existsb is_terminal (fst run) = false
  end.
Proof.
  destruct (google_drain_text fuel n (google.newStreamReader body model) eq_refl)
    as (Hc & Hd & Hr).
  cbn zeta.
  set (run := drain (StreamReader0:=google.reader fuel) n (google.newStreamReader body model))
    in *.
  change (Response (StreamReader:=google.reader fuel) run.2) with (google.response run.2).
  cbn [google.newStreamReader google.done orb] in Hd.
  change (types.Text (google.buildResponse (google.newStreamReader body model))) with ""
    in Hc. cbn [append] in Hc.
  rewrite <- Hd. destruct (google.done run.2).
  - destruct Hr as (r & -> & Ht). split; [reflexivity|]. by rewrite Ht, Hc.
  - by rewrite Hr.
Qed.

End google_text.

(** * The tool calls of a response and its content *)

Lemma tool_calls_of_app (l1 l2 : list ContentBlock) :
  tool_calls_of (l1 ++ l2) = (tool_calls_of l1 ++ tool_calls_of l2)%list.
Proof. apply omap_app. Qed.

Lemma anthropic_tool_calls_match (blocks : list anthropic.ContentBlock) :
  anthropic.extractToolCalls blocks
  = tool_calls_of (anthropic.transformResponseContent blocks).
Proof.
  unfold anthropic.extractToolCalls, anthropic.transformResponseContent.
  induction blocks as [|b blocks IH]; [reflexivity|].
  cbn [fmap list_fmap concat]. rewrite tool_calls_of_app, IH. f_equal.
  unfold anthropic.transformResponseBlock.
  destruct (String.eqb_spec (anthropic.cb_Type b) "text") as [Ht|_].
  - rewrite Ht. reflexivity.
  - by destruct (String.eqb (anthropic.cb_Type b) "tool_use").
Qed.

Section openai_calls.
Context `{!MapRange} `{!Unmarshal json} `{!Unmarshal openai.StreamChunk}.

Lemma openai_finalizeToolCalls_match inputs entries content calls :
  tool_calls_of content = calls ->
  let res := openai.finalizeToolCalls inputs entries content calls in
  tool_calls_of (fst res) = snd res.
Proof.
  revert content calls. induction entries as [|[idx tc] entries IH]; intros content calls Hc;
    cbn [openai.finalizeToolCalls]; [exact Hc|].
  apply IH. rewrite tool_calls_of_app, Hc. reflexivity.
Qed.

Lemma openai_buildResponse_match s :
  resp_ToolCalls (openai.buildResponse s)
  = tool_calls_of (resp_Content (openai.buildResponse s)).
Proof.
  unfold openai.buildResponse.
  pose proof (openai_finalizeToolCalls_match (openai.toolInputs s)
                (range (openai.toolCalls s))
                (if String.eqb (openai.content s) "" then []
                 else [TextBlock (openai.content s)]) []) as Hm.
  destruct (openai.finalizeToolCalls _ _ _ _) as [content' calls'].
  cbn [fst snd resp_ToolCalls resp_Content] in *. symmetry. apply Hm.
  by destruct (String.eqb (openai.content s) "").
Qed.

Lemma openai_processToolCalls_response s tcs :
  openai.response (snd (openai.processToolCalls s tcs)) = openai.response s.
Proof. apply openai_processToolCalls_text. Qed.

Lemma openai_readLoop_response ls s :
  let res := openai.readLoop ls s in
  openai.response (snd res) = openai.response s
  \/ exists s0, openai.response (snd res) = Some (openai.buildResponse s0).
Proof.
  revert s. induction ls as [|line ls IH]; intros s; cbn [openai.readLoop].
  - cbn. destruct (provider.rest_err (openai.body s)); cbn; eauto.
  - destruct (String.eqb (TrimSpace line) ""); [apply IH|].
    destruct (negb (HasPrefix (TrimSpace line) "data: ")); [apply IH|].
    destruct (String.eqb (TrimPrefix (TrimSpace line) "data: ") "[DONE]").
    { cbn. eauto. }
    match goal with |- context [openai.set_body s ?b] =>
      set (s1 := openai.set_body s b) end.
    change (openai.response s) with (openai.response s1). clearbody s1.
    destruct (unmarshal _) as [chunk|]; [|apply IH].
    destruct (openai_processChunk_text s1 chunk) as (_ & Hr & _).
    destruct (openai.processChunk s1 chunk) as [[e|] s']; cbn [fst snd] in *.
    + by left.
    + rewrite <- Hr. apply IH.
Qed.

Lemma openai_drain_response n s :
  let run := drain n s in
  openai.response (snd run) = openai.response s
  \/ exists s0, openai.response (snd run) = Some (openai.buildResponse s0).
Proof.
  revert s. induction n as [|n IH]; intros s; cbn [drain]; [by left|].
  change (@Next _ openai.reader s) with (openai.Next s).
  assert (openai.response (snd (openai.Next s)) = openai.response s
          \/ exists s0, openai.response (snd (openai.Next s))
                        = Some (openai.buildResponse s0)) as HN.
  { unfold openai.Next. destruct (openai.done s); [by left|apply openai_readLoop_response]. }
  destruct (openai.Next s) as [r s1]. specialize (IH s1).
  destruct (drain n s1) as [rs s2]. cbn [fst snd] in *.
  destruct IH as [IH|IH]; [|by right]. rewrite IH. exact HN.
Qed.

End openai_calls.

Section google_calls.
Context {D : Type} `{!google.Decoder D}.

Lemma google_appendText_calls blocks text :
  tool_calls_of (google.appendText blocks text) = tool_calls_of blocks.
Proof.
  unfold google.appendText. destruct (last blocks) as [b|] eqn:Hl.
  - destruct (String.eqb_spec (cb_Type b) ContentTypeText) as [Hb|Hb].
    + rewrite (last_snoc_inv _ _ Hl) at 2. rewrite !tool_calls_of_app.
      assert (tool_calls_of [append_Text b text] = tool_calls_of [b]) as ->
        by (cbn; by rewrite Hb).
      reflexivity.
    + rewrite tool_calls_of_app. cbn. by rewrite app_nil_r.
  - rewrite tool_calls_of_app. cbn. by rewrite app_nil_r.
Qed.

Lemma google_processParts_calls (s : google.streamReader (D:=D)) parts :
  tool_calls_of (google.content s) = google.toolCalls s ->
  let res := google.processParts s parts in
  tool_calls_of (google.content (snd res)) = google.toolCalls (snd res)
  /\ google.response (snd res) = google.response s.
Proof.
  revert s. induction parts as [|part parts IH]; intros s Hs; cbn [google.processParts].
  - by split.
  - destruct (negb (String.eqb (google.Text part) "")).
    { cbn. split; [|reflexivity]. by rewrite google_appendText_calls. }
    destruct (google.FunctionCall_ part) as [call|]; [|by apply IH].
    cbn. split; [|reflexivity]. rewrite tool_calls_of_app, Hs. reflexivity.
Qed.

Lemma google_processChunk_calls (s : google.streamReader (D:=D)) chunk :
  tool_calls_of (google.content s) = google.toolCalls s ->
  let res := google.processChunk s chunk in
  tool_calls_of (google.content (snd res)) = google.toolCalls (snd res)
  /\ google.response (snd res) = google.response s.
Proof.
  intros Hs. unfold google.processChunk.
  destruct (google.Candidates chunk) as [|candidate ?]; [by split|].
  destruct (google.cand_Content candidate) as [content|]; [|by split].
  match goal with |- context [google.processParts ?s1 ?parts] =>
    exact (google_processParts_calls s1 parts Hs) end.
Qed.

Lemma google_decodeLoop_calls fuel (s : google.streamReader (D:=D)) :
  tool_calls_of (google.content s) = google.toolCalls s ->
  (forall r, google.response s = Some r ->
             resp_ToolCalls r = tool_calls_of (resp_Content r)) ->
  let res := google.decodeLoop fuel s in
  tool_calls_of (google.content (snd res)) = google.toolCalls (snd res)
  /\ (forall r, google.response (snd res) = Some r ->
                resp_ToolCalls r = tool_calls_of (resp_Content r)).
Proof.
  revert s. induction fuel as [|fuel IH]; intros s Hs Hr; cbn [google.decodeLoop].
  - by split.
  - destruct (google.dec_More (google.decoder s)).
    2:{ cbn. split; [exact Hs|]. by intros r [= <-]. }
    destruct (google.dec_Decode (google.decoder s)) as [[err|chunk] d].
    + destruct err.
      * cbn. split; [exact Hs|]. by intros r [= <-].
      * by apply (IH (google.set_decoder s d)).
    + destruct (google_processChunk_calls (google.set_decoder s d) chunk Hs) as (Hs' & Hr').
      destruct (google.processChunk _ chunk) as [[e|] s']; cbn [fst snd] in *.
      * split; [exact Hs'|]. by rewrite Hr'.
      * apply IH; [exact Hs'|]. by rewrite Hr'.
Qed.

Lemma google_Next_calls fuel (s : google.streamReader (D:=D)) :
  tool_calls_of (google.content s) = google.toolCalls s ->
  (forall r, google.response s = Some r ->
             resp_ToolCalls r = tool_calls_of (resp_Content r)) ->
  let res := google.Next fuel s in
  tool_calls_of (google.content (snd res)) = google.toolCalls (snd res)
  /\ (forall r, google.response (snd res) = Some r ->
                resp_ToolCalls r = tool_calls_of (resp_Content r)).
Proof.
  intros Hs Hr. unfold google.Next.
  destruct (google.done s); [by split|].
  destruct (negb (google.started s)); [by split|].
  destruct (negb (google.arrayStarted s)); [|by apply google_decodeLoop_calls].
  destruct (google.dec_Token (google.decoder s)) as [[err|tok] d].
  - destruct err; [|by split]. cbn. split; [exact Hs|]. by intros r [= <-].
  - destruct tok as [c|v]; [destruct (Ascii.eqb c "[")|].
    + by apply (google_decodeLoop_calls fuel
                  (google.set_arrayStarted (google.set_decoder s d))).
    + by apply (google_decodeLoop_calls fuel (google.set_decoder s d)).
    + by apply (google_decodeLoop_calls fuel (google.set_decoder s d)).
Qed.

Lemma google_drain_calls fuel n (s : google.streamReader (D:=D)) :
  tool_calls_of (google.content s) = google.toolCalls s ->
  (forall r, google.response s = Some r ->
             resp_ToolCalls r = tool_calls_of (resp_Content r)) ->
  let run := drain (StreamReader0:=google.reader fuel) n s in
  forall r, google.response (snd run) = Some r ->
            resp_ToolCalls r = tool_calls_of (resp_Content r).
Proof.
  revert s. induction n as [|n IH]; intros s Hs Hr; cbn [drain]; [exact Hr|].
  change (@Next _ (google.reader fuel) s) with (google.Next fuel s).
  destruct (google_Next_calls fuel s Hs Hr) as (Hs1 & Hr1).
  destruct (google.Next fuel s) as [r s1]. specialize (IH s1 Hs1 Hr1).
  destruct (drain (StreamReader0:=google.reader fuel) n s1) as [rs s2]. exact IH.
Qed.

End google_calls.

Section tool_calls.
Context `{!MapRange} `{!Unmarshal json} `{!Unmarshal openai.StreamChunk}.
Context {D : Type} `{!google.Decoder D}.

(** [ToolCalls] is "also in Content": in the response that the Anthropic
    transformer builds, and in the response that the OpenAI and the Google
    readers hold after any number of calls of [Next], the tool calls are,
    one for one and in order, the tool-use blocks of the content. *)
Theorem response_tool_calls_are_in_content :
  (forall resp,
     match anthropic.TransformResponse (Some resp) with
     | Some r => resp_ToolCalls r = tool_calls_of (resp_Content r)
     | None => False
     end)
  /\ (forall body n,
        match Response (snd (drain n (openai.newStreamReader body))) with
        | Some r => resp_ToolCalls r = tool_calls_of (resp_Content r)
        | None => True
        end)
  /\ (forall fuel (body : D) model n,
        match Response (StreamReader:=google.reader fuel)
                (snd (drain (StreamReader0:=google.reader fuel) n
                        (google.newStreamReader body model))) with
        | Some r => resp_ToolCalls r = tool_calls_of (resp_Content r)
        | None => True
        end).
Proof.
  split; [|split].
  - intros resp. cbn. apply anthropic_tool_calls_match.
  - intros body n.
    destruct (openai_drain_response n (openai.newStreamReader body)) as [Hr|(s0 & Hr)];
      cbn zeta in Hr.
    + change (Response (drain n (openai.newStreamReader body)).2)
        with (openai.response (drain n (openai.newStreamReader body)).2).
      by rewrite Hr.
    + change (Response (drain n (openai.newStreamReader body)).2)
        with (openai.response (drain n (openai.newStreamReader body)).2).
      rewrite Hr. apply openai_buildResponse_match.
  - intros fuel body model n.
    pose proof (google_drain_calls fuel n (google.newStreamReader body model) eq_refl) as Hd.
    cbn zeta in Hd.
    set (run := drain (StreamReader0:=google.reader fuel) n
                  (google.newStreamReader body model)) in *.
    change (Response (StreamReader:=google.reader fuel) run.2) with (google.response run.2).
    destruct (google.response run.2) as [r|] eqn:Hr; [|done].
    apply Hd; [|reflexivity]. intros r' Hr'. discriminate Hr'.
Qed.

End tool_calls.

(** * The claims about the stream readers *)

(** C8: for each of the three readers, once [Next] has returned the [Done]
    event or "stream complete", every later call of [Next] returns "stream
    complete" and no event. *)
Theorem stream_complete_after_done :
  (forall `{!MapRange} `{!Unmarshal json} `{!Unmarshal openai.StreamChunk}
          (s s' : openai.streamReader) r,
      Next s = (r, s') -> terminal r -> complete_from s')
  /\ (forall `{!Unmarshal anthropic.MessageStart} `{!Unmarshal anthropic.ContentBlockStart}
             `{!Unmarshal anthropic.ContentBlockDelta} `{!Unmarshal anthropic.ContentBlockStop}
             `{!Unmarshal anthropic.MessageDelta} `{!Unmarshal anthropic.StreamError}
             (s s' : anthropic.streamReader) r,
         Next s = (r, s') -> terminal r -> complete_from s')
  /\ (forall (D : Type) `{!google.Decoder D} (fuel : nat)
             (s s' : google.streamReader (D:=D)) r,
         Next (StreamReader:=google.reader fuel) s = (r, s') ->
         terminal r ->
         complete_from (StreamReader0:=google.reader fuel) s').
Proof.
  split; [|split].
  - intros. by eapply openai_complete_after_terminal.
  - intros. by eapply anthropic_complete_after_terminal.
  - intros. by eapply google_complete_after_terminal.
Qed.

Section worked_streams.
Import refjson.

(** After the [Done] event of each sample stream, two more calls of [Next]
    return "stream complete". *)
Lemma stream_complete_after_done_samples :
  fst (drain 2 (snd (drain 2 samples.openai_hello_reader))) = [Complete; Complete]
  /\ fst (drain 2 (snd (drain 3 samples.anthropic_hello_reader))) = [Complete; Complete]
  /\ fst (drain (StreamReader0:=google.reader samples.fuel) 2
            (snd (drain (StreamReader0:=google.reader samples.fuel) 4
                    samples.google_hello_reader)))
     = [Complete; Complete].
Proof.
  destruct stream_complete_after_done as (Ho & Ha & Hg).
  split; [|split].
  - apply (Ho _ _ _ (snd (drain 1 samples.openai_hello_reader)) _
             (fst (Next (snd (drain 1 samples.openai_hello_reader))))).
    + vm_compute. reflexivity.
    + right. eexists. split; vm_compute; reflexivity.
  - apply (Ha _ _ _ _ _ _ (snd (drain 2 samples.anthropic_hello_reader)) _
             (fst (Next (snd (drain 2 samples.anthropic_hello_reader))))).
    + vm_compute. reflexivity.
    + right. eexists. split; vm_compute; reflexivity.
  - apply (Hg _ _ samples.fuel
             (snd (drain (StreamReader0:=google.reader samples.fuel) 3
                     samples.google_hello_reader)) _
             (fst (samples.google_next
                     (snd (drain (StreamReader0:=google.reader samples.fuel) 3
                             samples.google_hello_reader))))).
    + vm_compute. reflexivity.
    + right. eexists. split; vm_compute; reflexivity.
Defined.

(** C4 on the OpenAI reader: no call of [Next] returns a [Start] event,
    whatever the body; on the sample stream the first event is the
    [ContentDelta] of the first chunk, where the claim asks for [Start]. *)
Theorem openai_reader_emits_no_start :
  (forall `{!MapRange} `{!Unmarshal json} `{!Unmarshal openai.StreamChunk}
          (s s' : openai.streamReader) e,
      openai.Next s = (Event e, s') -> ev_Type e <> StreamEventStart)
  /\ ev_Type <$> events_of samples.openai_hello_run
     = [StreamEventContentDelta; StreamEventDone]
  /\ first_non_error samples.openai_hello_run = Some (ContentDeltaEvent "Hi" 0).
Proof.
  split; [|split].
  - intros. by eapply openai_Next_never_start.
  - vm_compute. reflexivity.
  - vm_compute. reflexivity.
Qed.

(** C3 on the Anthropic reader: whatever the body, every tool call of
    [Response()] has a [nil] input, because the [partial_json] fragments are
    emitted and never stored.  On the sample stream the fragments of block 0
    concatenate to a JSON object with the location, and the tool call of
    [Response()] holds [nil] instead. *)
Theorem anthropic_reader_drops_tool_input :
  (forall `{!Unmarshal anthropic.MessageStart} `{!Unmarshal anthropic.ContentBlockStart}
          `{!Unmarshal anthropic.ContentBlockDelta} `{!Unmarshal anthropic.ContentBlockStop}
          `{!Unmarshal anthropic.MessageDelta} `{!Unmarshal anthropic.StreamError}
          body n resp,
      Response (snd (drain n (anthropic.newStreamReader body))) = Some resp ->
      Forall no_call_input (resp_ToolCalls resp))
  /\ unmarshal_any (tool_input_fragments 0 samples.anthropic_weather_run)
     = JObj {[ "location" := JStr "Paris" ]}
  /\ resp_ToolCalls <$> samples.anthropic_weather_response
     = Some [ {| tc_ID := "toolu_1"; tc_Name := "get_weather"; tc_Input := JNull |} ].
Proof.
  split; [|split].
  - intros ? ? ? ? ? ? body n resp Hresp.
    pose proof (anthropic_drain_inv n _ (anthropic_inv_new body)) as [_ Hr].
    apply (Hr resp Hresp).
  - vm_compute. reflexivity.
  - vm_compute. reflexivity.
Qed.

(** C1 on the Anthropic reader: whatever the body, the usage of
    [Response()] has no input tokens and no total, because only the output
    token count of [message_delta] is stored.  On the sample stream
    [Response()] and the response that [TransformResponse] builds from the
    non-streaming body of the same message agree on the content, the tool
    calls and the stop reason, and differ in the usage. *)
Theorem anthropic_streamed_usage_differs :
  (forall `{!Unmarshal anthropic.MessageStart} `{!Unmarshal anthropic.ContentBlockStart}
          `{!Unmarshal anthropic.ContentBlockDelta} `{!Unmarshal anthropic.ContentBlockStop}
          `{!Unmarshal anthropic.MessageDelta} `{!Unmarshal anthropic.StreamError}
          body n resp,
      Response (snd (drain n (anthropic.newStreamReader body))) = Some resp ->
      InputTokens (resp_Usage resp) = 0 /\ TotalTokens (resp_Usage resp) = 0)
  /\ resp_Content <$> samples.anthropic_hello_streamed = Some [TextBlock "Hello"]
  /\ resp_Content <$> samples.anthropic_hello_complete = Some [TextBlock "Hello"]
  /\ resp_StopReason <$> samples.anthropic_hello_streamed = Some StopReasonEnd
  /\ resp_StopReason <$> samples.anthropic_hello_complete = Some StopReasonEnd
  /\ resp_Usage <$> samples.anthropic_hello_streamed
     = Some {| InputTokens := 0; OutputTokens := 5; TotalTokens := 0;
               CachedTokens := 0; ReasoningTokens := 0 |}
  /\ resp_Usage <$> samples.anthropic_hello_complete
     = Some {| InputTokens := 10; OutputTokens := 5; TotalTokens := 15;
               CachedTokens := 0; ReasoningTokens := 0 |}.
Proof.
  split; [|repeat split; vm_compute; reflexivity].
  intros ? ? ? ? ? ? body n resp Hresp.
  pose proof (anthropic_drain_inv n _ (anthropic_inv_new body)) as [_ Hr].
  destruct (Hr resp Hresp) as (_ & _ & Hi & Ht). by split.
Qed.

End worked_streams.
